(** * AST code chunker: a shallow embedding of [ast_code_chunker/ast_chunker.py]

    The development follows the Python module top to bottom:

    - [Py]: the handful of Python built-ins the chunker leans on
      (exceptions, [str.splitlines], [str.join], list slices, [range],
      [str(int)], truthiness);
    - [Ast]: the part of the [ast] module the chunker looks at (node
      classes, [iter_child_nodes], [walk]);
    - [Runtime]: library calls that are taken as given ([ast.parse],
      [hashlib.md5], [textwrap.dedent], [inspect.cleandoc], [Path.stem]);
    - the [CodeChunk] record and the methods of [ASTCodeChunker];
    - concrete inputs, and then the properties of the chunker. *)

From Stdlib Require Import List ZArith String Ascii Bool Lia Arith PeanoNat.
From Stdlib Require Import DecimalString Sorting.Sorted Sorting.Permutation.
Import ListNotations.

Set Warnings "-register-all".

(* ================================================================== *)
(** * Python built-ins *)
(* ================================================================== *)

Module Py.

(** Exceptions that can leave the chunker.  [SyntaxError] is caught inside
    [chunk_code] and is part of [parse_result] below; the last three are
    what [open] and [read] raise for a path that exists. *)
Inductive exn : Type :=
| TypeError
| FileNotFoundError
| IsADirectoryError
| PermissionError
| UnicodeDecodeError.

Inductive result (A : Type) : Type :=
| Ok (a : A)
| Raise (e : exn).

Arguments Ok {A} a.
Arguments Raise {A} e.

Definition bind {A B : Type} (m : result A) (k : A -> result B) : result B :=
  match m with
  | Ok a => k a
  | Raise e => Raise e
  end.

Definition is_ok {A : Type} (m : result A) : bool :=
  match m with Ok _ => true | Raise _ => false end.

(** ** Characters and strings

    A Python [str] is modelled as a [string]; each [ascii] stands for one
    code point below 256. *)

Definition LF : ascii := "010"%char.
Definition CR : ascii := "013"%char.
Definition FF : ascii := "012"%char.
Definition DQUOTE : ascii := "034"%char.

Definition nl : string := String LF EmptyString.
Definition triple_quote : string :=
  String DQUOTE (String DQUOTE (String DQUOTE EmptyString)).

(** [bool(s)] for a string. *)
Definition truthy (s : string) : bool :=
  match s with EmptyString => false | String _ _ => true end.

(** Line boundaries of [str.splitlines] among the code points below 256:
    [\n], [\r], [\v], [\f], [\x1c], [\x1d], [\x1e] and [\x85]
    ([\r\n] counts once). *)
Definition is_linebreak (c : ascii) : bool :=
  let n := nat_of_ascii c in
  ((10 <=? n) && (n <=? 13)) || ((28 <=? n) && (n <=? 30)) || (n =? 133).

Definition snoc (s : string) (c : ascii) : string :=
  (s ++ String c EmptyString)%string.

Fixpoint splitlines_from (cur : string) (pending : bool) (s : string)
  : list string :=
  match s with
  | EmptyString => if pending then [cur] else []
  | String c rest =>
      if Ascii.eqb c CR then
        match rest with
        | String c' rest' =>
            if Ascii.eqb c' LF
            then cur :: splitlines_from EmptyString false rest'
            else cur :: splitlines_from EmptyString false rest
        | EmptyString => [cur]
        end
      else if is_linebreak c then cur :: splitlines_from EmptyString false rest
      else splitlines_from (snoc cur c) true rest
  end.

(** [s.splitlines()]: no line is produced after a final line break. *)
Definition splitlines (s : string) : list string :=
  splitlines_from EmptyString false s.

(** [sep.join(parts)] *)
Definition join (sep : string) (parts : list string) : string :=
  String.concat sep parts.

(** [s[:n]] for [n >= 0] *)
Fixpoint str_take (n : nat) (s : string) : string :=
  match n, s with
  | S n', String c s' => String c (str_take n' s')
  | _, _ => EmptyString
  end.

Definition startswith (s pre : string) : bool := String.prefix pre s.

Definition endswith (s suf : string) : bool :=
  let n := String.length s in
  let k := String.length suf in
  (k <=? n) && String.eqb (String.substring (n - k) k s) suf.

(** [str(i)] for an [int] *)
Definition str_of_int (i : Z) : string :=
  NilZero.string_of_int (Z.to_int i).

(** [a or b] on integers *)
Definition int_or (a b : Z) : Z := if (a =? 0)%Z then b else a.

(** ** Lists *)

(** Clamping of one slice bound, as [PySlice_AdjustIndices] does for a
    step of one: a negative bound counts from the end. *)
Definition clamp_index (len i : Z) : Z :=
  if (i <? 0)%Z then Z.max (i + len) 0 else Z.min i len.

(** [l[start:stop]] *)
Definition slice {A : Type} (l : list A) (start stop : Z) : list A :=
  let len := Z.of_nat (List.length l) in
  let lo := clamp_index len start in
  let hi := clamp_index len stop in
  firstn (Z.to_nat (hi - lo)) (skipn (Z.to_nat lo) l).

(** [range(start, stop, step)] for a positive step; [fuel] bounds the
    number of elements. *)
Fixpoint range_fuel (fuel : nat) (start stop step : Z) : list Z :=
  match fuel with
  | O => []
  | S fuel' =>
      if (start <? stop)%Z
      then start :: range_fuel fuel' (start + step) stop step
      else []
  end.

Definition range (start stop step : Z) : list Z :=
  range_fuel (Z.to_nat (stop - start)) start stop step.

(** Stable sort by an integer key ([list.sort(key=...)] is stable, so any
    stable sort gives the same list).  [insert_by] puts [x] in front of the
    first element whose key is not smaller. *)
Section Sort.
Context {A : Type}.
Variable key : A -> Z.

Fixpoint insert_by (x : A) (l : list A) : list A :=
  match l with
  | [] => [x]
  | y :: l' =>
      if (key x <=? key y)%Z then x :: l else y :: insert_by x l'
  end.

Fixpoint sort_by (l : list A) : list A :=
  match l with
  | [] => []
  | x :: l' => insert_by x (sort_by l')
  end.
End Sort.

End Py.

Export Py.

Declare Scope py_scope.
Delimit Scope py_scope with py.
Notation "x <- m ;; k" := (bind m (fun x => k))
  (at level 61, m at next level, right associativity) : py_scope.
Local Open Scope py_scope.
Local Open Scope string_scope.
Local Open Scope list_scope.

(* ================================================================== *)
(** * The [ast] module, as far as the chunker reads it *)
(* ================================================================== *)

Module Ast.

(** The value of an [ast.Constant]: a [str], or anything else. *)
Inductive constant : Type :=
| CStr (s : string)
| CNonStr.

(** Syntax-tree nodes.  The classes the chunker tests with [isinstance]
    have a constructor each; every other statement or expression class
    ([If], [Try], [ExceptHandler], [Pass], [Call], ...) is [Other], with
    its child nodes in [_fields] order and its position when the class has
    one.  [lineno] and [end_lineno] are the 1-based lines the parser
    records.

    Helper objects that hold no statement and that the chunker reads only
    through their strings are kept as plain data: the [arguments] of a
    function is the list of [arg.arg] of [node.args.args]; the [alias]es of
    an import are the list of [alias.name]. *)
Inductive node : Type :=
| Module (body : list node)
| FunctionDef (name : string) (args : list string)
    (body decorator_list : list node) (returns : option node)
    (lineno end_lineno : Z)
| AsyncFunctionDef (name : string) (args : list string)
    (body decorator_list : list node) (returns : option node)
    (lineno end_lineno : Z)
| ClassDef (name : string) (bases keywords body decorator_list : list node)
    (lineno end_lineno : Z)
| Import (names : list string) (lineno end_lineno : Z)
| ImportFrom (module : option string) (names : list string)
    (lineno end_lineno : Z)
| Assign (targets : list node) (value : node) (lineno end_lineno : Z)
| AnnAssign (target annotation : node) (value : option node)
    (lineno end_lineno : Z)
| Expr (value : node) (lineno end_lineno : Z)
| Constant (value : constant) (lineno end_lineno : Z)
| Name (id : string) (lineno end_lineno : Z)
| Other (pos : option (Z * Z)) (children : list node).

Definition opt_list {A : Type} (o : option A) : list A :=
  match o with Some a => [a] | None => [] end.

(** [ast.iter_child_nodes]: the node-valued fields in [_fields] order. *)
Definition iter_child_nodes (n : node) : list node :=
  match n with
  | Module body => body
  | FunctionDef _ _ body decorator_list returns _ _
  | AsyncFunctionDef _ _ body decorator_list returns _ _ =>
      body ++ decorator_list ++ opt_list returns
  | ClassDef _ bases keywords body decorator_list _ _ =>
      bases ++ keywords ++ body ++ decorator_list
  | Import _ _ _ | ImportFrom _ _ _ _ => []
  | Assign targets value _ _ => targets ++ [value]
  | AnnAssign target annotation value _ _ =>
      target :: annotation :: opt_list value
  | Expr value _ _ => [value]
  | Constant _ _ _ | Name _ _ _ => []
  | Other _ children => children
  end.

(** [isinstance] tests *)
Definition is_ClassDef (n : node) : bool :=
  match n with ClassDef _ _ _ _ _ _ _ => true | _ => false end.
Definition is_FunctionDef (n : node) : bool :=
  match n with FunctionDef _ _ _ _ _ _ _ => true | _ => false end.
Definition is_AsyncFunctionDef (n : node) : bool :=
  match n with AsyncFunctionDef _ _ _ _ _ _ _ => true | _ => false end.
Definition is_import (n : node) : bool :=
  match n with Import _ _ _ | ImportFrom _ _ _ _ => true | _ => false end.
Definition is_Name (n : node) : bool :=
  match n with Name _ _ _ => true | _ => false end.

(** [hasattr(n, 'lineno')] together with the value *)
Definition lineno_of (n : node) : option Z :=
  match n with
  | Module _ => None
  | FunctionDef _ _ _ _ _ l _ | AsyncFunctionDef _ _ _ _ _ l _
  | ClassDef _ _ _ _ _ l _ | Import _ l _ | ImportFrom _ _ l _
  | Assign _ _ l _ | AnnAssign _ _ _ l _ | Expr _ l _
  | Constant _ l _ | Name _ l _ => Some l
  | Other pos _ => option_map fst pos
  end.

Definition end_lineno_of (n : node) : option Z :=
  match n with
  | Module _ => None
  | FunctionDef _ _ _ _ _ _ e | AsyncFunctionDef _ _ _ _ _ _ e
  | ClassDef _ _ _ _ _ _ e | Import _ _ e | ImportFrom _ _ _ e
  | Assign _ _ _ e | AnnAssign _ _ _ _ e | Expr _ _ e
  | Constant _ _ e | Name _ _ e => Some e
  | Other pos _ => option_map snd pos
  end.

(** [n.lineno] where the attribute is known to be there *)
Definition node_lineno (n : node) : Z :=
  match lineno_of n with Some l => l | None => 0%Z end.

(** [n.body] of the four classes that have a docstring *)
Definition node_body (n : node) : list node :=
  match n with
  | Module body | FunctionDef _ _ body _ _ _ _
  | AsyncFunctionDef _ _ body _ _ _ _ | ClassDef _ _ _ body _ _ _ => body
  | _ => []
  end.

Definition node_name (n : node) : string :=
  match n with
  | FunctionDef name _ _ _ _ _ _ | AsyncFunctionDef name _ _ _ _ _ _
  | ClassDef name _ _ _ _ _ _ => name
  | _ => EmptyString
  end.

(** [n.args.args], each through [arg.arg], and [n.returns] of a function *)
Definition node_args (n : node) : list string :=
  match n with
  | FunctionDef _ args _ _ _ _ _ | AsyncFunctionDef _ args _ _ _ _ _ => args
  | _ => []
  end.

Definition node_returns (n : node) : option node :=
  match n with
  | FunctionDef _ _ _ _ returns _ _
  | AsyncFunctionDef _ _ _ _ returns _ _ => returns
  | _ => None
  end.

(** Number of nodes of a tree: the fuel [walk] needs. *)
Fixpoint size (n : node) : nat :=
  let sizes := fun l : list node => list_sum (map size l) in
  let osize := fun o : option node =>
    match o with Some c => size c | None => 0 end in
  match n with
  | Module body => S (sizes body)
  | FunctionDef _ _ body decorator_list returns _ _
  | AsyncFunctionDef _ _ body decorator_list returns _ _ =>
      S (sizes body + sizes decorator_list + osize returns)
  | ClassDef _ bases keywords body decorator_list _ _ =>
      S (sizes bases + sizes keywords + sizes body + sizes decorator_list)
  | Import _ _ _ | ImportFrom _ _ _ _ => 1
  | Assign targets value _ _ => S (sizes targets + size value)
  | AnnAssign target annotation value _ _ =>
      S (size target + size annotation + osize value)
  | Expr value _ _ => S (size value)
  | Constant _ _ _ | Name _ _ _ => 1
  | Other _ children => S (sizes children)
  end.

(** ** Node identity and [ast.walk]

    [ast.AST] defines no [__eq__], so [==] on nodes is object identity.  A
    parsed tree holds every statement object once; the object is named by
    its path from the root (child indices, in [iter_child_nodes] order). *)
Definition path : Type := list nat.

Definition path_eqb (p q : path) : bool :=
  if list_eq_dec Nat.eq_dec p q then true else false.

Fixpoint number_children (p : path) (i : nat) (cs : list node)
  : list (path * node) :=
  match cs with
  | [] => []
  | c :: cs' => (p ++ [i], c) :: number_children p (S i) cs'
  end.

Definition located_children (pn : path * node) : list (path * node) :=
  number_children (fst pn) 0 (iter_child_nodes (snd pn)).

(** [ast.walk]:
<<
    todo = deque([node])
    while todo:
        node = todo.popleft()
        todo.extend(iter_child_nodes(node))
        yield node
>>  *)
Fixpoint walk_queue (fuel : nat) (todo : list (path * node))
  : list (path * node) :=
  match fuel, todo with
  | S fuel', pn :: todo' =>
      pn :: walk_queue fuel' (todo' ++ located_children pn)
  | _, _ => []
  end.

Definition walk_from (p : path) (n : node) : list (path * node) :=
  walk_queue (size n) [(p, n)].

Definition walk (tree : node) : list (path * node) := walk_from [] tree.

End Ast.

Export Ast.

(* ================================================================== *)
(** * Library calls taken as given *)
(* ================================================================== *)

(** [ast.parse(source)] either returns a [Module] or raises [SyntaxError]. *)
Inductive parse_result : Type :=
| Parsed (tree : node)
| SyntaxError.

(** The library functions the chunker calls and whose code is not part of the
    repository.  [md5_hexdigest s] stands for
    [hashlib.md5(s.encode()).hexdigest()]. *)
Record Runtime : Type := {
  ast_parse : string -> parse_result;
  md5_hexdigest : string -> string;
  textwrap_dedent : string -> string;
  inspect_cleandoc : string -> string;
  path_stem : string -> string
}.

(** What a path that exists leads to: a file that reads as UTF-8 text, or
    something [open] or [read] cannot give as text. *)
Inductive file : Type :=
| Text (content : string)
| Directory
| NoPermission
| NotUtf8.

(** Files on disk: what is found under a path, if the path exists. *)
Definition FileSystem : Type := string -> option file.

(** [with open(path, 'r', encoding='utf-8') as f: f.read()] on a path that
    exists. *)
Definition read_text (f : file) : result string :=
  match f with
  | Text content => Ok content
  | Directory => Raise IsADirectoryError
  | NoPermission => Raise PermissionError
  | NotUtf8 => Raise UnicodeDecodeError
  end.

(* ================================================================== *)
(** * [CodeChunk] *)
(* ================================================================== *)

(** Values of the [metadata] dictionary. *)
Inductive meta_value : Type :=
| MStr (s : string)
| MBool (b : bool)
| MInt (i : Z).

(** A dictionary literal with distinct keys, in insertion order. *)
Definition dict : Type := list (string * meta_value).

Fixpoint dict_get (d : dict) (k : string) : option meta_value :=
  match d with
  | [] => None
  | (k', v) :: d' => if String.eqb k' k then Some v else dict_get d' k
  end.

Record CodeChunk : Type := {
  id : string;
  content : string;
  chunk_type : string;
  metadata : dict;
  start_line : Z;
  end_line : Z;
  file_path : string;
  language : string;
  parent_context : option string
}.

(** Constructor arguments of [ASTCodeChunker]. *)
Record ASTCodeChunker : Type := {
  max_chunk_size : Z;
  include_context : bool
}.

(** [ASTCodeChunker()] with its defaults *)
Definition default_chunker : ASTCodeChunker :=
  {| max_chunk_size := 1500; include_context := true |}.

(** [for x in xs: chunks.extend(f(x))], stopping at the first exception. *)
Fixpoint collect {A : Type} (f : A -> result (list CodeChunk)) (xs : list A)
  : result (list CodeChunk) :=
  match xs with
  | [] => Ok []
  | x :: xs' =>
      cs <- f x ;;
      rest <- collect f xs' ;;
      Ok (cs ++ rest)
  end.

(** [lhs += rhs] on a variable that holds a [str] or [None]. *)
Definition str_iadd (lhs : option string) (rhs : string)
  : result (option string) :=
  match lhs with
  | Some s => Ok (Some (s ++ rhs)%string)
  | None => Raise TypeError
  end.

(** [bool(x)] for an [Optional[str]] *)
Definition truthy_opt (o : option string) : bool :=
  match o with Some s => truthy s | None => false end.

(* ================================================================== *)
(** * [ASTCodeChunker] *)
(* ================================================================== *)

Section Chunker.

Variable rt : Runtime.
Variable self : ASTCodeChunker.

(** [ast.get_docstring(node)] for a module, class or function. *)
Definition get_docstring (n : node) : option string :=
  match node_body n with
  | Expr (Constant (CStr text) _ _) _ _ :: _ => Some (inspect_cleandoc rt text)
  | _ => None
  end.

Definition _count_lines (text : string) : Z :=
  Z.of_nat (List.length (splitlines text)).

(** The fingerprint [_create_chunk] computes. *)
Definition chunk_id (file_path : string) (start_line : Z) (content : string)
  : string :=
  str_take 12
    (md5_hexdigest rt
       (file_path ++ ":" ++ str_of_int start_line ++ ":"
          ++ str_take 100 content)%string).

(** [content[:100]] raises [TypeError] when [content] is [None]. *)
Definition _create_chunk (content : option string) (chunk_type : string)
    (start_line end_line : Z) (file_path : string)
    (parent_context : option string) (metadata : dict)
  : result CodeChunk :=
  match content with
  | None => Raise TypeError
  | Some content =>
      Ok {| id := chunk_id file_path start_line content;
            content := content;
            chunk_type := chunk_type;
            metadata := metadata;
            start_line := start_line;
            end_line := end_line;
            file_path := file_path;
            language := "python";
            parent_context := parent_context |}
  end.

(** The line of the first child that has one
    ([for child in node.body: if hasattr(child, 'lineno'): ...; break]). *)
Fixpoint first_lineno (body : list node) : option Z :=
  match body with
  | [] => None
  | child :: body' =>
      match lineno_of child with
      | Some l => Some l
      | None => first_lineno body'
      end
  end.

Definition _get_node_source (n : node) (source : string)
    (include_body : bool) : option string :=
  let lines := splitlines source in
  match lineno_of n, end_lineno_of n with
  | Some lineno, Some end_lineno =>
      let start := (lineno - 1)%Z in
      let stop :=
        if negb include_body && (is_ClassDef n || is_FunctionDef n) then
          match first_lineno (node_body n) with
          | Some l => (l - 1)%Z
          | None => end_lineno
          end
        else end_lineno in
      match slice lines start stop with
      | [] => None
      | node_lines => Some (textwrap_dedent rt (join nl node_lines))
      end
  | _, _ => None
  end.

Definition _get_function_signature (n : node) : string :=
  ("def " ++ node_name n ++ "(" ++ join ", " (node_args n) ++ ")"
     ++ (match node_returns n with Some _ => " -> ..." | None => "" end)
     ++ ": ...")%string.

Definition _get_import_statement (n : node) : option string :=
  match n with
  | Import names _ _ => Some ("import " ++ join ", " names)%string
  | ImportFrom module names _ _ =>
      let module := match module with Some m => m | None => "" end in
      Some ("from " ++ module ++ " import " ++ join ", " names)%string
  | _ => None
  end.

(** [any(child == func_node for child in ast.walk(node))] for some class
    or function [node] of the tree other than [func_node]. *)
Definition _is_nested_function (tree : node) (func_node : path * node)
  : bool :=
  existsb
    (fun pn : path * node =>
       (is_ClassDef (snd pn) || is_FunctionDef (snd pn))
       && negb (path_eqb (fst pn) (fst func_node))
       && existsb (fun child : path * node =>
                     path_eqb (fst child) (fst func_node))
            (walk_from (fst pn) (snd pn)))
    (walk tree).

Definition end_line_of (n : node) : Z :=
  match end_lineno_of n with
  | Some e => int_or e (node_lineno n)
  | None => node_lineno n
  end.

Definition _extract_function (n : node) (source file_path : string)
  : result (option CodeChunk) :=
  match _get_node_source n source true with
  | None => Ok None
  | Some func_source =>
      if negb (truthy func_source) then Ok None
      else
        c <- _create_chunk (Some func_source) "function"
               (node_lineno n) (end_line_of n) file_path None
               [("function_name", MStr (node_name n));
                ("is_private", MBool (startswith (node_name n) "_"));
                ("has_docstring", MBool (truthy_opt (get_docstring n)));
                ("num_args", MInt (Z.of_nat (List.length (node_args n))))] ;;
        Ok (Some c)
  end.

(** One turn of the second loop of [_extract_class]. *)
Definition method_chunk (class_name source file_path : string) (item : node)
  : result (list CodeChunk) :=
  if is_FunctionDef item then
    match _get_node_source item source true with
    | None => Ok []
    | Some method_source =>
        if negb (truthy method_source) then Ok []
        else
          let method_content :=
            if include_context self
            then ("# In class: " ++ class_name ++ nl ++ method_source)%string
            else method_source in
          c <- _create_chunk (Some method_content) "method"
                 (node_lineno item) (end_line_of item) file_path
                 (Some class_name)
                 [("class_name", MStr class_name);
                  ("method_name", MStr (node_name item));
                  ("is_private", MBool (startswith (node_name item) "_"));
                  ("is_dunder",
                    MBool (startswith (node_name item) "__"
                           && endswith (node_name item) "__"));
                  ("has_docstring",
                    MBool (truthy_opt (get_docstring item)))] ;;
          Ok [c]
    end
  else Ok [].

Definition method_signatures (body : list node) : list string :=
  map (fun item => ("    " ++ _get_function_signature item)%string)
    (filter is_FunctionDef body).

Definition _extract_class (n : node) (source file_path : string)
  : result (list CodeChunk) :=
  let class_name := node_name n in
  let class_docstring := get_docstring n in
  let class_header := _get_node_source n source false in
  class_overview <-
    (if truthy_opt class_docstring then
       str_iadd class_header
         (nl ++ "    " ++ triple_quote
             ++ match class_docstring with Some d => d | None => "" end
             ++ triple_quote)%string
     else Ok class_header) ;;
  let sigs := method_signatures (node_body n) in
  class_overview <-
    (match sigs with
     | [] => Ok class_overview
     | _ :: _ =>
         str_iadd class_overview
           (nl ++ nl ++ "    # Methods:" ++ nl ++ join nl sigs)%string
     end) ;;
  class_chunk <-
    _create_chunk class_overview "class" (node_lineno n) (end_line_of n)
      file_path None
      [("class_name", MStr class_name);
       ("has_docstring", MBool (truthy_opt class_docstring));
       ("num_methods",
         MInt (Z.of_nat (List.length (filter is_FunctionDef (node_body n)))))] ;;
  methods <- collect (method_chunk class_name source file_path) (node_body n) ;;
  Ok (class_chunk :: methods).

(** The grouping loop of [_extract_imports]: the state is
    [(import_groups, current_group, last_line)]. *)
Definition group_state : Type := (list (list node) * list node * Z)%type.

Definition flush_group (groups : list (list node)) (current : list node)
  : list (list node) :=
  match current with
  | [] => groups
  | _ :: _ => groups ++ [current]
  end.

Definition group_step (st : group_state) (n : node) : group_state :=
  let '(groups, current, last_line) := st in
  if (node_lineno n - last_line <=? 1)%Z
  then (groups, current ++ [n], node_lineno n)
  else (flush_group groups current, [n], node_lineno n).

Definition import_groups (import_nodes : list node) : list (list node) :=
  let '(groups, current, _) :=
    fold_left group_step import_nodes ([], [], (-2)%Z) in
  flush_group groups current.

(** [lines] of one group: the statements that render. *)
Fixpoint import_lines (group : list node) : list string :=
  match group with
  | [] => []
  | n :: group' =>
      match _get_import_statement n with
      | Some line => if truthy line then line :: import_lines group'
                     else import_lines group'
      | None => import_lines group'
      end
  end.

(** The chunk of one group; [file_path] is what [_extract_imports] passes
    to [_create_chunk] under that keyword. *)
Definition import_chunk (file_path : string) (group : list node)
  : result (list CodeChunk) :=
  let lines := import_lines group in
  match lines, group with
  | _ :: _, first :: _ =>
      c <- _create_chunk (Some (join nl lines)) "import"
             (node_lineno first) (node_lineno (last group first))
             file_path None
             [("num_imports", MInt (Z.of_nat (List.length lines)))] ;;
      Ok [c]
  | _, _ => Ok []
  end.

Definition sorted_imports (tree : node) : list node :=
  sort_by node_lineno (filter is_import (map snd (walk tree))).

Definition _extract_imports (tree : node) (source : string)
  : result (list CodeChunk) :=
  collect (import_chunk source) (import_groups (sorted_imports tree)).

(** The lines one statement of [tree.body] adds to [global_statements]. *)
Definition global_lines (source : string) (n : node) : list string :=
  let line :=
    match _get_node_source n source true with
    | Some l => if truthy l then [l] else []
    | None => []
    end in
  match n with
  | Assign targets _ _ _ =>
      flat_map (fun target => if is_Name target then line else []) targets
  | AnnAssign target _ _ _ _ => if is_Name target then line else []
  | _ => []
  end.

Definition _extract_globals (tree : node) (source : string)
  : result (option CodeChunk) :=
  match flat_map (global_lines source) (node_body tree) with
  | [] => Ok None
  | global_statements =>
      c <- _create_chunk (Some (join nl global_statements)) "global"
             1 (Z.of_nat (List.length (splitlines source)))
             source None
             [("num_globals",
                MInt (Z.of_nat (List.length global_statements)))] ;;
      Ok (Some c)
  end.

Definition chunk_size : Z := 50.

Definition fallback_window (lines : list string) (file_path : string) (i : Z)
  : result (list CodeChunk) :=
  let chunk_lines := slice lines i (i + chunk_size) in
  c <- _create_chunk (Some (join nl chunk_lines)) "code_block"
         (i + 1) (Z.min (i + chunk_size) (Z.of_nat (List.length lines)))
         file_path None
         [("fallback", MBool true)] ;;
  Ok [c].

Definition _fallback_chunk (source file_path : string)
  : result (list CodeChunk) :=
  let lines := splitlines source in
  collect (fallback_window lines file_path)
    (range 0 (Z.of_nat (List.length lines)) chunk_size).

Definition module_docstring_chunk (tree : node) (file_path : string)
  : result (list CodeChunk) :=
  match get_docstring tree with
  | Some module_docstring =>
      if truthy module_docstring then
        c <- _create_chunk
               (Some (triple_quote ++ "Module Documentation" ++ triple_quote
                        ++ nl ++ module_docstring)%string)
               "module_docstring" 1 (_count_lines module_docstring + 2)
               file_path None
               [("module", MStr (path_stem rt file_path))] ;;
        Ok [c]
      else Ok []
  | None => Ok []
  end.

(** One turn of the loop over [ast.walk(tree)] in [chunk_code]. *)
Definition definition_chunks (tree : node) (source file_path : string)
    (pn : path * node) : result (list CodeChunk) :=
  if is_ClassDef (snd pn) then _extract_class (snd pn) source file_path
  else if is_FunctionDef (snd pn) && negb (_is_nested_function tree pn) then
    func_chunk <- _extract_function (snd pn) source file_path ;;
    Ok (opt_list func_chunk)
  else Ok [].

(** [chunk_code] once [ast.parse] has returned [tree]. *)
Definition chunk_tree (tree : node) (source file_path : string)
  : result (list CodeChunk) :=
  docstring <- module_docstring_chunk tree file_path ;;
  imports <- _extract_imports tree source ;;
  globals_chunk <- _extract_globals tree source ;;
  definitions <- collect (definition_chunks tree source file_path)
                   (walk tree) ;;
  Ok (docstring ++ imports ++ opt_list globals_chunk ++ definitions).

Definition chunk_code (source_code file_path : string)
  : result (list CodeChunk) :=
  match ast_parse rt source_code with
  | SyntaxError => _fallback_chunk source_code file_path
  | Parsed tree => chunk_tree tree source_code file_path
  end.

Definition chunk_file (fs : FileSystem) (file_path : string)
  : result (list CodeChunk) :=
  match fs file_path with
  | None => Raise FileNotFoundError
  | Some f =>
      source_code <- read_text f ;;
      chunk_code source_code file_path
  end.

End Chunker.

(* ================================================================== *)
(** * A concrete runtime and sample inputs *)
(* ================================================================== *)

Module Samples.

(** ** [textwrap.dedent]

    The regular-expression version of the standard library, line by line:
    lines made of blanks and tabs only become empty, the margin is the
    longest common prefix of the indentation of the remaining non-empty
    lines, and the margin is removed from every line that starts with it. *)

Definition TAB : ascii := "009"%char.
Definition SPACE : ascii := "032"%char.

Definition is_indent_char (c : ascii) : bool :=
  Ascii.eqb c SPACE || Ascii.eqb c TAB.

Fixpoint split_lf_from (cur : string) (s : string) : list string :=
  match s with
  | EmptyString => [cur]
  | String c rest =>
      if Ascii.eqb c LF then cur :: split_lf_from EmptyString rest
      else split_lf_from (snoc cur c) rest
  end.

Fixpoint all_indent (s : string) : bool :=
  match s with
  | EmptyString => true
  | String c rest => is_indent_char c && all_indent rest
  end.

Fixpoint leading_indent (s : string) : string :=
  match s with
  | EmptyString => EmptyString
  | String c rest =>
      if is_indent_char c then String c (leading_indent rest)
      else EmptyString
  end.

Fixpoint common_prefix (a b : string) : string :=
  match a, b with
  | String x a', String y b' =>
      if Ascii.eqb x y then String x (common_prefix a' b') else EmptyString
  | _, _ => EmptyString
  end.

Fixpoint str_drop (n : nat) (s : string) : string :=
  match n, s with
  | S n', String _ s' => str_drop n' s'
  | _, _ => s
  end.

Definition strip_margin (margin line : string) : string :=
  if String.prefix margin line
  then str_drop (String.length margin) line
  else line.

Definition dedent (text : string) : string :=
  let lines :=
    map (fun l => if all_indent l then EmptyString else l)
      (split_lf_from EmptyString text) in
  let margin :=
    match map leading_indent (filter truthy lines) with
    | [] => EmptyString
    | indent :: indents => fold_left common_prefix indents indent
    end in
  join nl (map (strip_margin margin) lines).

(** A text from its lines, each one ended by [\n]. *)
Definition text (lines : list string) : string :=
  String.concat EmptyString (map (fun l => (l ++ nl)%string) lines).

Definition Pass (l : Z) : node := Other (Some (l, l)) [].
Definition form_feed : string := String FF EmptyString.

(** ** Sample sources, each with the tree [ast.parse] returns for it *)

Definition src_one_line_class : string := text ["class A: pass"].
Definition tree_one_line_class : node :=
  Module [ClassDef "A" [] [] [Pass 1] [] 1 1].

Definition src_class_and_function : string :=
  text ["class A:"; "    def m(self):"; "        pass"; "";
        "def g(x):"; "    return x"].
Definition tree_class_and_function : node :=
  Module [ClassDef "A" [] []
            [FunctionDef "m" ["self"] [Pass 3] [] None 2 3] [] 1 3;
          FunctionDef "g" ["x"]
            [Other (Some (6, 6)%Z) [Name "x" 6 6]] [] None 5 6].

Definition src_docstring_import_global : string :=
  text [(triple_quote ++ "d" ++ triple_quote)%string; "import os"; "X = 1"].
Definition tree_docstring_import_global : node :=
  Module [Expr (Constant (CStr "d") 1 1) 1 1;
          Import ["os"] 2 2;
          Assign [Name "X" 3 3] (Constant CNonStr 3 3) 3 3].

Definition src_import : string := text ["import os"].
Definition tree_import : node := Module [Import ["os"] 1 1].

Definition src_imports_and_function : string :=
  text ["import os"; "import sys"; ""; "def f():"; "    pass"].
Definition tree_imports_and_function : node :=
  Module [Import ["os"] 1 1; Import ["sys"] 2 2;
          FunctionDef "f" [] [Pass 5] [] None 4 5].

Definition src_imports_apart : string :=
  text ["import os"; ""; "import sys"].
Definition tree_imports_apart : node :=
  Module [Import ["os"] 1 1; Import ["sys"] 3 3].

(** Two page-break lines in front: the parser counts each as one line,
    [splitlines] as two. *)
Definition src_page_breaks_function : string :=
  text [form_feed; form_feed; "def f(): pass"].
Definition tree_page_breaks_function : node :=
  Module [FunctionDef "f" [] [Pass 3] [] None 3 3].

Definition src_page_breaks_class : string :=
  text [form_feed; form_feed; "class A:"; "  def m(self): pass"].
Definition tree_page_breaks_class : node :=
  Module [ClassDef "A" [] []
            [FunctionDef "m" ["self"] [Pass 4] [] None 4 4] [] 3 4].

Definition src_async_outer : string :=
  text ["async def outer():"; "    def inner():"; "        pass"].
Definition tree_async_outer : node :=
  Module [AsyncFunctionDef "outer" []
            [FunctionDef "inner" [] [Pass 3] [] None 2 3] [] None 1 3].

Definition src_async_members : string :=
  text ["class A:"; "    async def m(self):"; "        pass";
        "    def n(self):"; "        pass"; "async def h():"; "    pass"].
Definition tree_async_members : node :=
  Module [ClassDef "A" [] []
            [AsyncFunctionDef "m" ["self"] [Pass 3] [] None 2 3;
             FunctionDef "n" ["self"] [Pass 5] [] None 4 5] [] 1 5;
          AsyncFunctionDef "h" [] [Pass 7] [] None 6 7].

Definition src_module_parts : string :=
  text [(triple_quote ++ "d" ++ triple_quote)%string; "import os"; "X = 1";
        "class A:"; "    def m(self):"; "        pass";
        "def g(x):"; "    return x"].
Definition tree_module_parts : node :=
  Module [Expr (Constant (CStr "d") 1 1) 1 1;
          Import ["os"] 2 2;
          Assign [Name "X" 3 3] (Constant CNonStr 3 3) 3 3;
          ClassDef "A" [] []
            [FunctionDef "m" ["self"] [Pass 6] [] None 5 6] [] 4 6;
          FunctionDef "g" ["x"]
            [Other (Some (8, 8)%Z) [Name "x" 8 8]] [] None 7 8].

Definition src_dunder_method : string :=
  text ["class A:"; "    def __init__(self):"; "        pass";
        "    def _helper(self):"; "        pass"].
Definition tree_dunder_method : node :=
  Module [ClassDef "A" [] []
            [FunctionDef "__init__" ["self"] [Pass 3] [] None 2 3;
             FunctionDef "_helper" ["self"] [Pass 5] [] None 4 5] [] 1 5].

(** A text the parser rejects. *)
Definition src_broken : string := text ["def (:"].

Definition parse_table : list (string * node) :=
  [(src_one_line_class, tree_one_line_class);
   (src_class_and_function, tree_class_and_function);
   (src_docstring_import_global, tree_docstring_import_global);
   (src_import, tree_import);
   (src_imports_and_function, tree_imports_and_function);
   (src_imports_apart, tree_imports_apart);
   (src_page_breaks_function, tree_page_breaks_function);
   (src_page_breaks_class, tree_page_breaks_class);
   (src_async_outer, tree_async_outer);
   (src_async_members, tree_async_members);
   (src_dunder_method, tree_dunder_method);
   (src_module_parts, tree_module_parts)].

Fixpoint lookup_source (table : list (string * node)) (source : string)
  : parse_result :=
  match table with
  | [] => SyntaxError
  | (s, t) :: table' =>
      if String.eqb s source then Parsed t else lookup_source table' source
  end.

(** The runtime of the samples.  [ast_parse] is the parser on the sample
    sources ([src_broken] is the one unparsable text among them);
    [inspect_cleandoc] is the identity, as it is on the one-word docstring
    of the samples; [md5_hexdigest] and [path_stem] are stand-ins, so the
    [id] fields and the [module] entry of the sample chunks are not the
    values of a real run. *)
Definition runtime : Runtime :=
  {| ast_parse := lookup_source parse_table;
     md5_hexdigest := fun s => s;
     textwrap_dedent := dedent;
     inspect_cleandoc := fun s => s;
     path_stem := fun s => s |}.

Definition disk : FileSystem :=
  fun p =>
    if String.eqb p "errors.py" then Some (Text src_one_line_class) else None.

End Samples.

(* ================================================================== *)
(** * [MultiLanguageASTChunker] *)
(* ================================================================== *)

Module MultiLanguage.

(** Library calls of the generic chunker: [path_suffix p] is
    [Path(p).suffix], and [findall_functions text] is
    [re.findall(func_pattern, text, re.DOTALL)], the matches of the
    function pattern in text order. *)
Record GenericRuntime : Type := {
  path_suffix : string -> string;
  findall_functions : string -> list string
}.

(** [s.lstrip('.')] *)
Fixpoint lstrip_dots (s : string) : string :=
  match s with
  | EmptyString => EmptyString
  | String c s' => if Ascii.eqb c "."%char then lstrip_dots s' else s
  end.

(** [enumerate(xs)], counting from [i] *)
Fixpoint enumerate_from {A : Type} (i : Z) (xs : list A) : list (Z * A) :=
  match xs with
  | [] => []
  | x :: xs' => (i, x) :: enumerate_from (i + 1) xs'
  end.

Section Generic.

Variable rt : Runtime.
Variable grt : GenericRuntime.

(** [Path(file_path).suffix.lstrip('.')] *)
Definition extension_of (file_path : string) : string :=
  lstrip_dots (path_suffix grt file_path).

(** [hashlib.md5(f"{file_path}:{label}{i}".encode()).hexdigest()[:12]] *)
Definition generic_id (file_path label : string) (i : Z) : string :=
  str_take 12
    (md5_hexdigest rt (file_path ++ ":" ++ label ++ str_of_int i)%string).

(** The chunk of one match; the [language] field is left to its default. *)
Definition function_match_chunk (file_path : string) (entry : Z * string)
  : CodeChunk :=
  {| id := generic_id file_path "func_" (fst entry);
     content := snd entry;
     chunk_type := "function";
     metadata := [("language", MStr (extension_of file_path))];
     start_line := 0;
     end_line := 0;
     file_path := file_path;
     language := "python";
     parent_context := None |}.

Definition line_window_chunk (lines : list string) (file_path : string) (i : Z)
  : CodeChunk :=
  {| id := generic_id file_path "lines_" i;
     content := join nl (slice lines i (i + 50));
     chunk_type := "code_block";
     metadata := [("language", MStr (extension_of file_path))];
     start_line := i + 1;
     end_line := Z.min (i + 50) (Z.of_nat (List.length lines));
     file_path := file_path;
     language := "python";
     parent_context := None |}.

(** [open(file_path)] raises [FileNotFoundError] for a path that is not
    there, and [open] or [read] their own error for one that cannot be read
    as text. *)
Definition _generic_chunk (fs : FileSystem) (file_path : string)
  : result (list CodeChunk) :=
  match fs file_path with
  | None => Raise FileNotFoundError
  | Some f =>
      content <- read_text f ;;
      let functions := findall_functions grt content in
      let chunks :=
        map (function_match_chunk file_path) (enumerate_from 0 functions) in
      match chunks with
      | [] =>
          let lines := splitlines content in
          Ok (map (line_window_chunk lines file_path)
                (range 0 (Z.of_nat (List.length lines)) 50))
      | _ :: _ => Ok chunks
      end
  end.

(** [extension in self.language_parsers], whose keys are [python] and
    [py]; both map to one [ASTCodeChunker()] built with the defaults. *)
Definition is_python_extension (extension : string) : bool :=
  String.eqb extension "python" || String.eqb extension "py".

Definition chunk_file (fs : FileSystem) (file_path : string)
  : result (list CodeChunk) :=
  let extension := extension_of file_path in
  if is_python_extension extension
  then chunk_file rt default_chunker fs file_path
  else _generic_chunk fs file_path.

End Generic.

End MultiLanguage.

Module GenericSamples.

Definition src_prose : string := Samples.text ["hello"; "world"].
Definition src_java : string := Samples.text ["public void run() { }"].

Definition lookup_default {A : Type} (table : list (string * A)) (d : A)
    (key : string) : A :=
  match find (fun kv => String.eqb (fst kv) key) table with
  | Some kv => snd kv
  | None => d
  end.

(** [Path.suffix] and the matches of the function pattern on the sample
    paths and texts. *)
Definition generic_runtime : MultiLanguage.GenericRuntime :=
  {| MultiLanguage.path_suffix :=
       lookup_default
         [("notes.txt", ".txt"); ("Main.java", ".java");
          ("errors.py", ".py"); ("absent.txt", ".txt");
          ("logo.txt", ".txt")] "";
     MultiLanguage.findall_functions :=
       lookup_default [(src_java, ["public void run() { }"])] [] |}.

Definition disk : FileSystem :=
  lookup_default
    [("notes.txt", Some (Text src_prose)); ("Main.java", Some (Text src_java));
     ("errors.py", Some (Text Samples.src_one_line_class));
     ("build", Some Directory); ("logo.txt", Some NotUtf8)] None.

(** The same paths after [notes.txt] was rewritten, line count unchanged. *)
Definition src_prose_edited : string := Samples.text ["good"; "bye"].

Definition disk_edited : FileSystem :=
  lookup_default
    [("notes.txt", Some (Text src_prose_edited));
     ("Main.java", Some (Text src_java));
     ("errors.py", Some (Text Samples.src_one_line_class))] None.

End GenericSamples.

(* ================================================================== *)
(** * [VerbaCodeRAG]: indexing *)
(* ================================================================== *)

Module Verba.

(** What is handed to [client.data_object.create]. *)
Record DataObject (Vec : Type) : Type := {
  do_content : string;
  do_chunk_type : string;
  do_file_path : string;
  do_language : string;
  do_start_line : Z;
  do_end_line : Z;
  do_parent_context : string;
  do_metadata : string;
  do_embedding : list Vec;
  do_indexed_at : string
}.

Arguments do_content {Vec}.
Arguments do_chunk_type {Vec}.
Arguments do_file_path {Vec}.
Arguments do_language {Vec}.
Arguments do_start_line {Vec}.
Arguments do_end_line {Vec}.
Arguments do_parent_context {Vec}.
Arguments do_metadata {Vec}.
Arguments do_embedding {Vec}.
Arguments do_indexed_at {Vec}.

(** The services [VerbaCodeRAG] talks to, as transitions of an outside
    world [World]; [Vec] is the type of one coordinate of an embedding.
    A call that raises gives the text of its exception. *)
Record Services (World Vec : Type) : Type := {
  (** [ollama_client.embeddings(model=..., prompt=...)['embedding']] *)
  ollama_embeddings : World -> string -> string -> World * (list Vec + string);
  (** [client.data_object.create(data_object=..., class_name=...)] *)
  data_object_create :
    World -> DataObject Vec -> string -> World * option string;
  (** [datetime.utcnow().isoformat()] *)
  utcnow_isoformat : World -> World * string;
  (** [json.dumps] of a metadata dictionary *)
  json_dumps : dict -> string;
  (** [str(e)] of an exception of the chunker *)
  exn_str : exn -> string;
  (** [Path(directory).exists()] *)
  directory_exists : World -> string -> bool;
  (** [str(p) for p in directory.rglob(pattern)] *)
  rglob : World -> string -> string -> list string
}.

Arguments ollama_embeddings {World Vec}.
Arguments data_object_create {World Vec}.
Arguments utcnow_isoformat {World Vec}.
Arguments json_dumps {World Vec}.
Arguments exn_str {World Vec}.
Arguments directory_exists {World Vec}.
Arguments rglob {World Vec}.

(** The dictionary [index_file] returns. *)
Record FileResult : Type := {
  fr_file_path : string;
  fr_total_chunks : Z;
  fr_indexed_chunks : Z;
  fr_errors : list string;
  fr_success : bool
}.

(** The dictionary [index_directory] returns. *)
Record DirectoryResult : Type := {
  dr_directory : string;
  dr_files_processed : list FileResult;
  dr_total_files : Z;
  dr_total_chunks : Z;
  dr_errors : list string
}.

(** [index_directory] returns, or raises [ValueError]. *)
Inductive directory_outcome : Type :=
| Indexed (r : DirectoryResult)
| ValueError.

Section Rag.

Context {World Vec : Type}.
Variable rt : Runtime.
Variable grt : MultiLanguage.GenericRuntime.
Variable svc : Services World Vec.
Variable fs : FileSystem.
Variable embedding_model : string.
Variable collection_name : string.

(** [generate_embedding]: the embedding, or [[]] when the call raises. *)
Definition generate_embedding (w : World) (text : string)
  : World * list Vec :=
  match ollama_embeddings svc w embedding_model text with
  | (w', inl embedding) => (w', embedding)
  | (w', inr _) => (w', [])
  end.

(** The state of the loop of [index_file]:
    [(world, indexed_count, errors)]. *)
Definition index_state : Type := (World * Z * list string)%type.

(** One turn of the loop over the chunks. *)
Definition index_chunk (st : index_state) (chunk : CodeChunk) : index_state :=
  let '(w, indexed_count, errors) := st in
  let '(w1, embedding) := generate_embedding w (content chunk) in
  match embedding with
  | [] =>
      (w1, indexed_count,
       errors ++ [("Failed to generate embedding for chunk " ++ id chunk)%string])
  | _ :: _ =>
      let metadata_json := json_dumps svc (metadata chunk) in
      let '(w2, now) := utcnow_isoformat svc w1 in
      let data_object :=
        {| do_content := content chunk;
           do_chunk_type := chunk_type chunk;
           do_file_path := file_path chunk;
           do_language := language chunk;
           do_start_line := start_line chunk;
           do_end_line := end_line chunk;
           do_parent_context :=
             match parent_context chunk with
             | Some p => if truthy p then p else ""
             | None => ""
             end;
           do_metadata := metadata_json;
           do_embedding := embedding;
           do_indexed_at := now |} in
      match data_object_create svc w2 data_object collection_name with
      | (w3, None) => (w3, (indexed_count + 1)%Z, errors)
      | (w3, Some message) =>
          (w3, indexed_count,
           errors ++ [("Failed to index chunk " ++ id chunk ++ ": "
                         ++ message)%string])
      end
  end.

Definition index_file (w : World) (file_path : string) : World * FileResult :=
  match MultiLanguage.chunk_file rt grt fs file_path with
  | Ok chunks =>
      let '(w', indexed_count, errors) :=
        fold_left index_chunk chunks (w, 0%Z, []) in
      (w', {| fr_file_path := file_path;
              fr_total_chunks := Z.of_nat (List.length chunks);
              fr_indexed_chunks := indexed_count;
              fr_errors := errors;
              fr_success := Nat.eqb (List.length errors) 0 |})
  | Raise e =>
      (w, {| fr_file_path := file_path;
             fr_total_chunks := 0;
             fr_indexed_chunks := 0;
             fr_errors := [exn_str svc e];
             fr_success := false |})
  end.

Definition default_extensions : list string :=
  [".py"; ".js"; ".ts"; ".java"; ".cpp"; ".c"; ".go"; ".rs"].

(** The state of the loop of [index_directory]: the world and the
    [results] dictionary. *)
Definition directory_step (st : World * DirectoryResult) (file_path : string)
  : World * DirectoryResult :=
  let '(w, results) := st in
  let '(w', result) := index_file w file_path in
  (w', {| dr_directory := dr_directory results;
          dr_files_processed := dr_files_processed results ++ [result];
          dr_total_files := dr_total_files results;
          dr_total_chunks :=
            (dr_total_chunks results + fr_indexed_chunks result)%Z;
          dr_errors := dr_errors results ++ fr_errors result |}).

Definition index_directory (w : World) (directory_path : string)
    (extensions : option (list string)) : World * directory_outcome :=
  let extensions :=
    match extensions with
    | None => default_extensions
    | Some exts => exts
    end in
  if negb (directory_exists svc w directory_path) then (w, ValueError)
  else
    let code_files :=
      flat_map (fun ext => rglob svc w directory_path ("*" ++ ext)%string)
        extensions in
    let results :=
      {| dr_directory := directory_path;
         dr_files_processed := [];
         dr_total_files := Z.of_nat (List.length code_files);
         dr_total_chunks := 0;
         dr_errors := [] |} in
    let '(w', results') := fold_left directory_step code_files (w, results) in
    (w', Indexed results').

End Rag.

End Verba.

(* ================================================================== *)
(** * [VerbaCodeRAG]: retrieval *)
(* ================================================================== *)

Module Retrieval.

(** [s.split(sep)] for a one-character separator: [cur] is the piece being
    read. *)
Fixpoint split_from (sep : ascii) (cur : string) (s : string) : list string :=
  match s with
  | EmptyString => [cur]
  | String c rest =>
      if Ascii.eqb c sep then cur :: split_from sep EmptyString rest
      else split_from sep (snoc cur c) rest
  end.

Definition split (sep : ascii) (s : string) : list string :=
  split_from sep EmptyString s.

(** One object of the collection, as a query returns it with the
    properties [search] asks for; [metadata] and [parent_context] are read
    with [dict.get]. *)
Record StoredChunk : Type := {
  sc_content : string;
  sc_chunk_type : string;
  sc_file_path : string;
  sc_language : string;
  sc_start_line : Z;
  sc_end_line : Z;
  sc_parent_context : option string;
  sc_metadata : option string
}.

(** One entry of the list [search] returns; [Meta] is what [json.loads]
    gives for the stored metadata. *)
Record SearchResult (Meta : Type) : Type := {
  sr_content : string;
  sr_chunk_type : string;
  sr_file_path : string;
  sr_language : string;
  sr_location : string;
  sr_parent_context : option string;
  sr_metadata : Meta
}.

Arguments sr_content {Meta}.
Arguments sr_chunk_type {Meta}.
Arguments sr_file_path {Meta}.
Arguments sr_language {Meta}.
Arguments sr_location {Meta}.
Arguments sr_parent_context {Meta}.
Arguments sr_metadata {Meta}.

Section Search.

Context {World Vec Meta : Type}.
Variable svc : Verba.Services World Vec.
Variable embedding_model : string.
Variable collection_name : string.

(** [json.loads], [None] when it raises. *)
Variable json_loads : string -> option Meta.

(** [query_builder.do()] followed by the lookup of the collection in the
    answer: the near vector, the limit, the [chunk_type] filter if any;
    [None] when the call raises or the answer does not hold the
    collection. *)
Variable query_do :
  World -> list Vec -> Z -> option (list string)
  -> World * option (list StoredChunk).

(** The dictionary [search] builds for one object; [None] when
    [json.loads] raises. *)
Definition format_result (chunk : StoredChunk)
  : option (SearchResult Meta) :=
  match json_loads (match sc_metadata chunk with
                    | Some m => m
                    | None => "{}"
                    end) with
  | None => None
  | Some metadata =>
      Some {| sr_content := sc_content chunk;
              sr_chunk_type := sc_chunk_type chunk;
              sr_file_path := sc_file_path chunk;
              sr_language := sc_language chunk;
              sr_location :=
                (sc_file_path chunk ++ ":"
                   ++ str_of_int (sc_start_line chunk)
                   ++ "-" ++ str_of_int (sc_end_line chunk))%string;
              sr_parent_context := sc_parent_context chunk;
              sr_metadata := metadata |}
  end.

(** The loop over the objects; [None] when one of them raises. *)
Fixpoint format_results (chunks : list StoredChunk)
  : option (list (SearchResult Meta)) :=
  match chunks with
  | [] => Some []
  | chunk :: chunks' =>
      match format_result chunk with
      | None => None
      | Some result =>
          match format_results chunks' with
          | None => None
          | Some results => Some (result :: results)
          end
      end
  end.

Definition search (w : World) (query : string) (limit : Z)
    (chunk_types : option (list string))
  : World * list (SearchResult Meta) :=
  let '(w1, query_embedding) :=
    Verba.generate_embedding svc embedding_model w query in
  match query_embedding with
  | [] => (w1, [])
  | _ :: _ =>
      let where_filter :=
        match chunk_types with
        | Some (_ :: _) => chunk_types
        | _ => None
        end in
      match query_do w1 query_embedding limit where_filter with
      | (w2, Some chunks) =>
          match format_results chunks with
          | Some formatted_results => (w2, formatted_results)
          | None => (w2, [])
          end
      | (w2, None) => (w2, [])
      end
  end.

(** [result['location'].split(':')[1]], or [None] for an [IndexError]. *)
Definition location_lines (result : SearchResult Meta) : option string :=
  nth_error (split ":"%char (sr_location result)) 1.

(** The parts [generate_context] appends for the [i]-th result. *)
Definition context_parts_of (i : Z) (result : SearchResult Meta)
  : option (list string) :=
  match location_lines result with
  | None => None
  | Some lines =>
      Some ([(nl ++ "--- Code Chunk " ++ str_of_int i ++ " ---")%string;
             ("File: " ++ sr_file_path result)%string;
             ("Type: " ++ sr_chunk_type result)%string]
            ++ (if truthy_opt (sr_parent_context result)
                then [("Context: "
                         ++ match sr_parent_context result with
                            | Some p => p
                            | None => ""
                            end)%string]
                else [])
            ++ [("Location: Lines " ++ lines)%string;
                (nl ++ "```python")%string;
                sr_content result;
                ("```" ++ nl)%string])
  end.

Fixpoint context_parts (i : Z) (results : list (SearchResult Meta))
  : option (list string) :=
  match results with
  | [] => Some []
  | result :: results' =>
      match context_parts_of i result with
      | None => None
      | Some parts =>
          match context_parts (i + 1) results' with
          | None => None
          | Some rest => Some (parts ++ rest)
          end
      end
  end.

(** [generate_context]: the text, or [None] for an [IndexError]. *)
Definition generate_context (w : World) (query : string) (limit : Z)
  : World * option string :=
  let '(w', results) := search w query limit None in
  match results with
  | [] => (w', Some "No relevant code found.")
  | _ :: _ =>
      match context_parts 1 results with
      | None => (w', None)
      | Some parts =>
          (w', Some (join nl
                       (("Here are the relevant code sections:" ++ nl)%string
                          :: parts)))
      end
  end.

End Search.

End Retrieval.

(* ================================================================== *)
(** * Vocabulary of the properties *)
(* ================================================================== *)

(** The node found by following child indices from [n]. *)
Fixpoint subtree_at (n : node) (d : path) : option node :=
  match d with
  | [] => Some n
  | i :: d' =>
      match nth_error (iter_child_nodes n) i with
      | Some c => subtree_at c d'
      | None => None
      end
  end.

(** Total number of nodes waiting in a [walk] queue. *)
Definition queue_size (todo : list (path * node)) : nat :=
  list_sum (map (fun pn => size (snd pn)) todo).

(** Neither path leads to a node below (or equal to) the other. *)
Definition apart (p q : path) : Prop :=
  (forall d, q <> p ++ d) /\ (forall d, p <> q ++ d).

Fixpoint antichain (ps : list path) : Prop :=
  match ps with
  | [] => True
  | p :: ps' => Forall (apart p) ps' /\ antichain ps'
  end.

(** ** Line windows *)

Definition line_count (source : string) : Z :=
  Z.of_nat (List.length (splitlines source)).

(** The quotient of [a] by [b], rounded up. *)
Definition ceil_div (a b : Z) : Z := ((a + b - 1) / b)%Z.

Definition line_range (c : CodeChunk) : Z * Z := (start_line c, end_line c).

(** [ranges] tile the lines [first .. last]: each range starts right after
    the one before, none is empty, and the last one ends at [last]. *)
Fixpoint covers (first : Z) (ranges : list (Z * Z)) (last : Z) : Prop :=
  match ranges with
  | [] => first = (last + 1)%Z
  | (s, e) :: ranges' =>
      s = first /\ (s <= e)%Z /\ covers (e + 1) ranges' last
  end.

Definition has_type (t : string) (c : CodeChunk) : bool :=
  String.eqb (chunk_type c) t.

Definition ascending (l : list Z) : Prop := StronglySorted Z.le l.

(** ** Fingerprints *)

(** The hash of a file path, a start line and a content prefix. *)
Definition fingerprint (rt : Runtime) (file_path : string) (start_line : Z)
    (content_prefix : string) : string :=
  str_take 12
    (md5_hexdigest rt
       (file_path ++ ":" ++ str_of_int start_line ++ ":" ++ content_prefix)%string).

(** ** Source slices *)

(** Lines [first .. last] of the source, 1-based and inclusive. *)
Definition source_lines (source : string) (first last : Z) : list string :=
  firstn (Z.to_nat (last - first + 1))
    (skipn (Z.to_nat (first - 1)) (splitlines source)).

Definition dedented_slice (rt : Runtime) (source : string) (first last : Z)
  : string :=
  textwrap_dedent rt (join nl (source_lines source first last)).

(** The lines of a text as the parser numbers them: a line ends at [\n],
    [\r\n] or [\r] and nowhere else. *)
Fixpoint parser_lines_from (cur : string) (pending : bool) (s : string)
  : list string :=
  match s with
  | EmptyString => if pending then [cur] else []
  | String c rest =>
      if Ascii.eqb c CR then
        match rest with
        | String c' rest' =>
            if Ascii.eqb c' LF
            then cur :: parser_lines_from EmptyString false rest'
            else cur :: parser_lines_from EmptyString false rest
        | EmptyString => [cur]
        end
      else if Ascii.eqb c LF then cur :: parser_lines_from EmptyString false rest
      else parser_lines_from (snoc cur c) true rest
  end.

Definition parser_lines (source : string) : list string :=
  parser_lines_from EmptyString false source.

(** No character of the text is a line boundary for [str.splitlines] only
    (a form feed, a vertical tab, [\x1c], [\x1d], [\x1e], [\x85]). *)
Fixpoint parser_line_ends_only (s : string) : bool :=
  match s with
  | EmptyString => true
  | String c rest =>
      (negb (is_linebreak c) || Ascii.eqb c LF || Ascii.eqb c CR)
      && parser_line_ends_only rest
  end.

(** Lines [first .. last] of the source as the parser numbers them, 1-based
    and inclusive. *)
Definition numbered_lines (source : string) (first last : Z) : list string :=
  firstn (Z.to_nat (last - first + 1))
    (skipn (Z.to_nat (first - 1)) (parser_lines source)).

(** The dedented slice of the source between two line numbers. *)
Definition dedented_source_slice (rt : Runtime) (source : string)
    (first last : Z) : string :=
  textwrap_dedent rt (join nl (numbered_lines source first last)).

(** The position the parser records on a statement. *)
Definition position_ok (n : node) : Prop :=
  match lineno_of n, end_lineno_of n with
  | Some l, Some e => (1 <= l <= e)%Z
  | _, _ => True
  end.

(** [_get_node_source] gives a non-empty text for the node. *)
Definition sliceable (rt : Runtime) (source : string) (n : node) : bool :=
  truthy_opt (_get_node_source rt n source true).

(** ** Import groups *)

Definition group_first_line (g : list node) : Z :=
  match g with
  | n :: _ => node_lineno n
  | [] => 0%Z
  end.

Definition group_last_line (g : list node) : Z :=
  node_lineno (last g (Module [])).

(** A non-empty run of statements, each at most one line after the one
    before. *)
Fixpoint contiguous_run (g : list node) : Prop :=
  match g with
  | [] => False
  | n :: g' =>
      match g' with
      | [] => True
      | m :: _ => (node_lineno m - node_lineno n <= 1)%Z /\ contiguous_run g'
      end
  end.

(** Runs, each starting two lines or more after the end of the one before. *)
Fixpoint separated_runs (gs : list (list node)) : Prop :=
  match gs with
  | [] => True
  | g :: gs' =>
      contiguous_run g
      /\ match gs' with
         | [] => True
         | h :: _ => (group_first_line h - group_last_line g >= 2)%Z
         end
      /\ separated_runs gs'
  end.

Definition lines_ascending (stmts : list node) : Prop :=
  StronglySorted (fun a b => (node_lineno a <= node_lineno b)%Z) stmts.

(** The invariant of the grouping loop after the statements [processed]. *)
Definition group_inv (processed : list node) (st : group_state) : Prop :=
  let '(groups, current, last_line) := st in
  separated_runs (flush_group groups current)
  /\ List.concat (flush_group groups current) = processed
  /\ (current = [] -> groups = [])
  /\ (current <> [] -> last_line = group_last_line current).

(** ** The records the chunker builds *)

Definition function_record (rt : Runtime) (n : node) (func_source file_path : string)
  : CodeChunk :=
  {| id := chunk_id rt file_path (node_lineno n) func_source;
     content := func_source;
     chunk_type := "function";
     metadata :=
       [("function_name", MStr (node_name n));
        ("is_private", MBool (startswith (node_name n) "_"));
        ("has_docstring", MBool (truthy_opt (get_docstring rt n)));
        ("num_args", MInt (Z.of_nat (List.length (node_args n))))];
     start_line := node_lineno n;
     end_line := end_line_of n;
     file_path := file_path;
     language := "python";
     parent_context := None |}.

Definition method_text (self : ASTCodeChunker) (class_name method_source : string)
  : string :=
  if include_context self
  then ("# In class: " ++ class_name ++ nl ++ method_source)%string
  else method_source.

Definition method_record (rt : Runtime) (self : ASTCodeChunker)
    (class_name : string) (item : node) (method_source file_path : string)
  : CodeChunk :=
  {| id := chunk_id rt file_path (node_lineno item)
             (method_text self class_name method_source);
     content := method_text self class_name method_source;
     chunk_type := "method";
     metadata :=
       [("class_name", MStr class_name);
        ("method_name", MStr (node_name item));
        ("is_private", MBool (startswith (node_name item) "_"));
        ("is_dunder",
          MBool (startswith (node_name item) "__"
                 && endswith (node_name item) "__"));
        ("has_docstring", MBool (truthy_opt (get_docstring rt item)))];
     start_line := node_lineno item;
     end_line := end_line_of item;
     file_path := file_path;
     language := "python";
     parent_context := Some class_name |}.

(** The part of a class overview that follows the header. *)
Definition docstring_overview (rt : Runtime) (n : node) : string :=
  if truthy_opt (get_docstring rt n) then
    (nl ++ "    " ++ triple_quote
        ++ match get_docstring rt n with Some d => d | None => "" end
        ++ triple_quote)%string
  else "".

Definition methods_overview (methods : list node) : string :=
  match methods with
  | [] => ""
  | _ :: _ =>
      (nl ++ nl ++ "    # Methods:" ++ nl
          ++ join nl (map (fun item =>
                             ("    " ++ _get_function_signature item)%string)
                        methods))%string
  end.

Definition class_record (rt : Runtime) (n : node) (class_header file_path : string)
  : CodeChunk :=
  let overview :=
    ((class_header ++ docstring_overview rt n)
       ++ methods_overview (filter is_FunctionDef (node_body n)))%string in
  {| id := chunk_id rt file_path (node_lineno n) overview;
     content := overview;
     chunk_type := "class";
     metadata :=
       [("class_name", MStr (node_name n));
        ("has_docstring", MBool (truthy_opt (get_docstring rt n)));
        ("num_methods",
          MInt (Z.of_nat (List.length (filter is_FunctionDef (node_body n)))))];
     start_line := node_lineno n;
     end_line := end_line_of n;
     file_path := file_path;
     language := "python";
     parent_context := None |}.

Definition import_record (rt : Runtime) (group : list node) (source : string)
  : CodeChunk :=
  {| id := chunk_id rt source (group_first_line group)
             (join nl (import_lines group));
     content := join nl (import_lines group);
     chunk_type := "import";
     metadata :=
       [("num_imports", MInt (Z.of_nat (List.length (import_lines group))))];
     start_line := group_first_line group;
     end_line := group_last_line group;
     file_path := source;
     language := "python";
     parent_context := None |}.

(** The direct methods of a class for which a chunk is built. *)
Definition chunked_methods (rt : Runtime) (source : string) (body : list node)
  : list node :=
  filter (fun item => is_FunctionDef item && sliceable rt source item) body.

(** The chunks one node of the walk contributes. *)
Definition node_block (rt : Runtime) (self : ASTCodeChunker) (tree : node)
    (source file_path : string) (pn : path * node) (block : list CodeChunk)
  : Prop :=
  let n := snd pn in
  if is_ClassDef n then
    exists class_header,
      _get_node_source rt n source false = Some class_header
      /\ block = class_record rt n class_header file_path
                 :: map (fun item =>
                           method_record rt self (node_name n) item
                             (match _get_node_source rt item source true with
                              | Some s => s
                              | None => ""
                              end) file_path)
                      (chunked_methods rt source (node_body n))
  else if is_FunctionDef n && negb (_is_nested_function tree pn)
          && sliceable rt source n then
    exists func_source,
      _get_node_source rt n source true = Some func_source
      /\ block = [function_record rt n func_source file_path]
  else block = [].

(** The function definitions that get a chunk of their own. *)
Definition chunked_functions (rt : Runtime) (tree : node) (source : string)
  : list (path * node) :=
  filter (fun pn => is_FunctionDef (snd pn)
                    && negb (_is_nested_function tree pn)
                    && sliceable rt source (snd pn))
    (walk tree).

(** ** What a node of the walk contributes, as the claims read it *)

(** The chunks of a class: the overview, then one chunk per direct method
    that can be sliced, in body order. *)
Definition class_block (rt : Runtime) (source : string) (pn : path * node)
    (block : list CodeChunk) : Prop :=
  let n := snd pn in
  if is_ClassDef n then
    exists c ms,
      block = c :: ms
      /\ chunk_type c = "class"
      /\ dict_get (metadata c) "class_name" = Some (MStr (node_name n))
      /\ Forall2 (fun item m =>
                    chunk_type m = "method"
                    /\ parent_context m = Some (node_name n)
                    /\ dict_get (metadata m) "method_name"
                       = Some (MStr (node_name item))
                    /\ start_line m = node_lineno item)
           (chunked_methods rt source (node_body n)) ms
      /\ (Forall (fun item => sliceable rt source item = true)
            (filter is_FunctionDef (node_body n)) ->
          List.length ms = List.length (filter is_FunctionDef (node_body n)))
  else Forall (fun c => has_type "class" c = false
                        /\ has_type "method" c = false) block.

(** The chunks of a node in encounter order: a class gives its overview
    chunk directly followed by the chunks of its methods, a [def] that
    [_is_nested_function] does not report gives its function chunk or
    nothing, any other node gives nothing. *)
Definition ordered_block (tree : node) (pn : path * node)
    (block : list CodeChunk) : Prop :=
  let n := snd pn in
  if is_ClassDef n then
    exists c ms,
      block = c :: ms
      /\ chunk_type c = "class"
      /\ start_line c = node_lineno n
      /\ dict_get (metadata c) "class_name" = Some (MStr (node_name n))
      /\ Forall (fun m => chunk_type m = "method"
                          /\ parent_context m = Some (node_name n)) ms
  else if is_FunctionDef n && negb (_is_nested_function tree pn) then
    block = []
    \/ exists c, block = [c]
         /\ chunk_type c = "function"
         /\ start_line c = node_lineno n
         /\ dict_get (metadata c) "function_name" = Some (MStr (node_name n))
  else block = [].

(** Where each chunk of a node comes from: an [async def] gives none, a
    class gives its overview and one chunk for each [def] of its body that
    can be sliced, a [def] gives at most one chunk.  The overview is the
    header of the class, its docstring if any, and the signatures of the
    [def] statements of its body. *)
Definition sync_block (rt : Runtime) (source : string) (pn : path * node)
    (block : list CodeChunk) : Prop :=
  match snd pn with
  | AsyncFunctionDef _ _ _ _ _ _ _ => block = []
  | ClassDef _ _ _ body _ _ _ =>
      exists c ms,
        block = c :: ms
        /\ chunk_type c = "class"
        /\ dict_get (metadata c) "num_methods"
           = Some (MInt (Z.of_nat (List.length (filter is_FunctionDef body))))
        /\ (exists class_header,
              _get_node_source rt (snd pn) source false = Some class_header
              /\ content c
                 = ((class_header ++ docstring_overview rt (snd pn))
                      ++ methods_overview (filter is_FunctionDef body))%string)
        /\ Forall2 (fun item m =>
                      is_FunctionDef item = true
                      /\ is_AsyncFunctionDef item = false
                      /\ chunk_type m = "method"
                      /\ dict_get (metadata m) "method_name"
                         = Some (MStr (node_name item))
                      /\ start_line m = node_lineno item)
             (chunked_methods rt source body) ms
  | FunctionDef name _ _ _ _ lineno _ =>
      block = []
      \/ exists c, block = [c]
           /\ chunk_type c = "function"
           /\ dict_get (metadata c) "function_name" = Some (MStr name)
           /\ start_line c = lineno
  | _ => block = []
  end.

(** A chunk that is not cut from a definition. *)
Definition is_preamble (c : CodeChunk) : Prop :=
  chunk_type c = "module_docstring"
  \/ chunk_type c = "import"
  \/ chunk_type c = "global".

(** ** Counting *)

(** The [num_imports] entry of a chunk, [0] when there is none. *)
Definition num_imports_of (c : CodeChunk) : nat :=
  match dict_get (metadata c) "num_imports" with
  | Some (MInt i) => Z.to_nat i
  | _ => 0
  end.

(** The plain names a module-level statement assigns to: each [Name] target
    of an assignment, the [Name] target of an annotated assignment. *)
Definition name_target_count (n : node) : nat :=
  match n with
  | Assign targets _ _ _ => List.length (filter is_Name targets)
  | AnnAssign target _ _ _ _ => if is_Name target then 1 else 0
  | _ => 0
  end.

(** The name targets of the statements of a module body that can be
    sliced. *)
Definition global_statement_count (rt : Runtime) (source : string)
    (body : list node) : nat :=
  list_sum (map (fun n => if sliceable rt source n
                          then name_target_count n else 0) body).

(** A node of the tree lies strictly below a class or a [def]. *)
Definition below_definition (tree : node) (p : path) : Prop :=
  exists q d m,
    p = q ++ d
    /\ d <> []
    /\ subtree_at tree q = Some m
    /\ is_ClassDef m || is_FunctionDef m = true
    /\ subtree_at m d <> None.


(** The character [c] occurs in [s]. *)
Fixpoint has_char (c : ascii) (s : string) : bool :=
  match s with
  | EmptyString => false
  | String c' rest => Ascii.eqb c' c || has_char c rest
  end.
(* ================================================================== *)
(** * Properties *)
(* ================================================================== *)

(** ** The error monad and [collect] *)

Lemma bind_ok_inv {A B : Type} (m : result A) (k : A -> result B) (b : B) :
  bind m k = Ok b -> exists a, m = Ok a /\ k a = Ok b.
Proof.
  destruct m as [a|e]; simpl; intros H; [eauto | discriminate].
Qed.

Lemma collect_inv {A : Type} (f : A -> result (list CodeChunk)) :
  forall xs cs,
    collect f xs = Ok cs ->
    exists blocks, Forall2 (fun x b => f x = Ok b) xs blocks /\ cs = List.concat blocks.
Proof.
  induction xs as [|x xs IH]; simpl; intros cs H.
  - inversion H; subst. exists []. split; [constructor | reflexivity].
  - apply bind_ok_inv in H. destruct H as (b & Hb & H).
    apply bind_ok_inv in H. destruct H as (rest & Hrest & H).
    inversion H; subst; clear H.
    destruct (IH _ Hrest) as (blocks & HF & ->).
    exists (b :: blocks). split; [constructor; assumption | reflexivity].
Qed.

Lemma collect_ok {A : Type} (f : A -> result (list CodeChunk))
    (g : A -> list CodeChunk) :
  forall xs, (forall x, In x xs -> f x = Ok (g x)) ->
             collect f xs = Ok (flat_map g xs).
Proof.
  induction xs as [|x xs IH]; simpl; intros H; [reflexivity|].
  rewrite (H x (or_introl eq_refl)). simpl.
  rewrite IH by (intros y Hy; apply H; right; exact Hy). reflexivity.
Qed.

Lemma collect_Forall {A : Type} (f : A -> result (list CodeChunk))
    (P : CodeChunk -> Prop) :
  (forall x cs, f x = Ok cs -> Forall P cs) ->
  forall xs cs, collect f xs = Ok cs -> Forall P cs.
Proof.
  intros Hf xs cs H.
  destruct (collect_inv _ _ _ H) as (blocks & HF & ->).
  clear H. induction HF; simpl; [constructor|].
  apply Forall_app; split; eauto.
Qed.

Lemma collect_raise_inv {A : Type} (f : A -> result (list CodeChunk)) :
  forall xs e, collect f xs = Raise e -> exists x, In x xs /\ f x = Raise e.
Proof.
  induction xs as [|x xs IH]; simpl; intros e H; [discriminate|].
  destruct (f x) as [b|e'] eqn:Hx; simpl in H.
  - destruct (collect f xs) as [rest|e''] eqn:Hr; simpl in H; [discriminate|].
    inversion H; subst. destruct (IH _ eq_refl) as (y & Hy & Hfy). eauto.
  - inversion H; subst. eauto.
Qed.

(** ** [ast.walk] *)

Lemma path_eqb_eq (p q : path) : path_eqb p q = true <-> p = q.
Proof.
  unfold path_eqb. destruct (list_eq_dec Nat.eq_dec p q); split; congruence.
Qed.

Lemma path_eqb_refl (p : path) : path_eqb p p = true.
Proof. apply path_eqb_eq. reflexivity. Qed.

Lemma size_children (n : node) :
  size n = S (list_sum (map size (iter_child_nodes n))).
Proof.
  destruct n; simpl; repeat rewrite ?map_app, ?list_sum_app; simpl;
    try match goal with o : option node |- _ => destruct o end; simpl; lia.
Qed.

Lemma size_pos (n : node) : 1 <= size n.
Proof. rewrite size_children. lia. Qed.

Lemma map_snd_number_children (p : path) :
  forall cs i, map snd (number_children p i cs) = cs.
Proof. induction cs; simpl; intros; [|rewrite IHcs]; reflexivity. Qed.

Lemma In_number_children (p : path) (q : path) (c : node) :
  forall cs i,
    In (q, c) (number_children p i cs) <->
    exists k, q = p ++ [i + k] /\ nth_error cs k = Some c.
Proof.
  induction cs as [|c0 cs IH]; simpl; intros i.
  - split; [tauto|]. intros (k & _ & H). destruct k; discriminate.
  - rewrite IH. split.
    + intros [H | (k & -> & Hk)].
      * inversion H; subst. exists 0. rewrite Nat.add_0_r. auto.
      * exists (S k). rewrite <- Nat.add_succ_comm. auto.
    + intros (k & -> & Hk). destruct k as [|k]; simpl in Hk.
      * left. inversion Hk. rewrite Nat.add_0_r. reflexivity.
      * right. exists k. rewrite Nat.add_succ_comm. auto.
Qed.

Lemma In_located_children (pn : path * node) (q : path) (c : node) :
  In (q, c) (located_children pn) <->
  exists k, q = fst pn ++ [k] /\ nth_error (iter_child_nodes (snd pn)) k = Some c.
Proof. unfold located_children. rewrite In_number_children. reflexivity. Qed.

Lemma queue_size_app (a b : list (path * node)) :
  queue_size (a ++ b) = queue_size a + queue_size b.
Proof. unfold queue_size. rewrite map_app, list_sum_app. reflexivity. Qed.

Lemma queue_size_located_children (pn : path * node) :
  S (queue_size (located_children pn)) = size (snd pn).
Proof.
  unfold queue_size, located_children.
  rewrite <- (map_map snd size), map_snd_number_children.
  symmetry. apply size_children.
Qed.

(** Whatever [walk] yields lies below a node of the queue. *)
Lemma walk_queue_sound :
  forall fuel todo p n,
    In (p, n) (walk_queue fuel todo) ->
    exists q m d, In (q, m) todo /\ p = q ++ d /\ subtree_at m d = Some n.
Proof.
  induction fuel as [|fuel IH]; intros todo p n H; [contradiction|].
  destruct todo as [|pn todo]; [contradiction|].
  simpl in H. destruct H as [H | H].
  - subst pn. exists p, n, []. rewrite app_nil_r. simpl. auto.
  - apply IH in H. destruct H as (q & m & d & Hin & -> & Hsub).
    apply in_app_or in Hin. destruct Hin as [Hin | Hin].
    + exists q, m, d. simpl. auto.
    + apply In_located_children in Hin. destruct Hin as (k & -> & Hk).
      exists (fst pn), (snd pn), (k :: d). simpl. rewrite Hk.
      rewrite <- app_assoc. destruct pn; simpl. auto.
Qed.

(** With fuel for every waiting node, [walk] yields all that lies below the
    queue. *)
Lemma walk_queue_complete :
  forall fuel todo,
    queue_size todo <= fuel ->
    forall q m d n,
      In (q, m) todo -> subtree_at m d = Some n ->
      In (q ++ d, n) (walk_queue fuel todo).
Proof.
  induction fuel as [|fuel IH]; intros todo Hfuel q m d n Hin Hsub.
  - exfalso. destruct todo as [|pn todo]; [contradiction|].
    unfold queue_size in Hfuel. simpl in Hfuel.
    pose proof (size_pos (snd pn)). lia.
  - destruct todo as [|pn todo]; [contradiction|].
    assert (Hnew : queue_size (todo ++ located_children pn) <= fuel).
    { rewrite queue_size_app.
      pose proof (queue_size_located_children pn).
      unfold queue_size in Hfuel |- *. simpl in Hfuel.
      fold (queue_size todo) in *. unfold queue_size in *. lia. }
    simpl. destruct Hin as [Hin | Hin].
    + subst pn. destruct d as [|k d]; simpl in Hsub.
      * inversion Hsub; subst. left. rewrite app_nil_r. reflexivity.
      * right. destruct (nth_error (iter_child_nodes m) k) as [c|] eqn:Hk;
          [|discriminate].
        replace (q ++ k :: d) with ((q ++ [k]) ++ d)
          by (rewrite <- app_assoc; reflexivity).
        apply IH with (m := c); auto.
        apply in_or_app. right. apply In_located_children.
        exists k. simpl. auto.
    + right. apply IH with (m := m); auto. apply in_or_app. auto.
Qed.

Lemma In_walk_from (q : path) (m : node) (p : path) (n : node) :
  In (p, n) (walk_from q m) <-> exists d, p = q ++ d /\ subtree_at m d = Some n.
Proof.
  unfold walk_from. split.
  - intros H. apply walk_queue_sound in H.
    destruct H as (q' & m' & d & [Hin | []] & -> & Hsub).
    inversion Hin; subst. eauto.
  - intros (d & -> & Hsub). apply walk_queue_complete with (m := m); auto.
    + unfold queue_size. simpl. lia.
    + left. reflexivity.
Qed.

Lemma In_walk (tree : node) (p : path) (n : node) :
  In (p, n) (walk tree) <-> subtree_at tree p = Some n.
Proof.
  unfold walk. rewrite In_walk_from. simpl. split.
  - intros (d & -> & H). exact H.
  - eauto.
Qed.

Lemma subtree_at_app (n : node) :
  forall d1 d2 m,
    subtree_at n d1 = Some m ->
    subtree_at n (d1 ++ d2) = subtree_at m d2.
Proof.
  intros d1. revert n. induction d1 as [|i d1 IH]; simpl; intros n d2 m H.
  - inversion H. reflexivity.
  - destruct (nth_error (iter_child_nodes n) i); [eauto | discriminate].
Qed.

Lemma subtree_at_prefix (n : node) :
  forall d1 d2 m,
    subtree_at n (d1 ++ d2) = Some m ->
    exists k, subtree_at n d1 = Some k /\ subtree_at k d2 = Some m.
Proof.
  intros d1. revert n. induction d1 as [|i d1 IH]; simpl; intros n d2 m H.
  - eauto.
  - destruct (nth_error (iter_child_nodes n) i); [eauto | discriminate].
Qed.

(** The root comes first. *)
Lemma walk_head (tree : node) :
  exists rest, walk tree = ([], tree) :: rest.
Proof.
  unfold walk, walk_from. pose proof (size_pos tree).
  destruct (size tree); [lia|]. simpl. eauto.
Qed.

(** ** Each node is yielded once *)

Lemma apart_sym (p q : path) : apart p q -> apart q p.
Proof. unfold apart. tauto. Qed.

Lemma apart_child (p q : path) (k : nat) : apart p q -> apart p (q ++ [k]).
Proof.
  intros [H1 H2]. split; intros d E.
  - destruct d as [|x0 d0].
    + rewrite app_nil_r in E. apply (H2 [k]). symmetry. exact E.
    + destruct (@exists_last _ (x0 :: d0)) as (d' & x & Ed); [discriminate|].
      rewrite Ed, app_assoc in E. apply app_inj_tail in E.
      destruct E as [E _]. exact (H1 d' E).
  - rewrite <- app_assoc in E. exact (H2 _ E).
Qed.

Lemma apart_siblings (p : path) (i j : nat) :
  i <> j -> apart (p ++ [i]) (p ++ [j]).
Proof.
  intros Hij. split; intros d E; rewrite <- app_assoc in E;
    apply app_inv_head in E; inversion E; congruence.
Qed.

Lemma antichain_app (a b : list path) :
  antichain a -> antichain b ->
  (forall x y, In x a -> In y b -> apart x y) ->
  antichain (a ++ b).
Proof.
  induction a as [|p a IH]; simpl; intros Ha Hb Hab; [exact Hb|].
  destruct Ha as [Hp Ha]. split.
  - apply Forall_app. split; [exact Hp|].
    apply Forall_forall. intros y Hy. apply Hab; auto.
  - apply IH; auto.
Qed.

Lemma antichain_number_children (p : path) :
  forall cs i, antichain (map fst (number_children p i cs)).
Proof.
  induction cs as [|c cs IH]; simpl; intros i; [exact I|].
  split; [|apply IH].
  apply Forall_forall. intros q Hq.
  apply in_map_iff in Hq. destruct Hq as ((q' & c') & <- & Hq). simpl.
  apply In_number_children in Hq. destruct Hq as (k & -> & _).
  apply apart_siblings. lia.
Qed.

Lemma path_not_below_child (p d : path) (k : nat) : p <> (p ++ [k]) ++ d.
Proof.
  intros E. apply (f_equal (@List.length nat)) in E.
  rewrite !length_app in E. simpl in E. lia.
Qed.

Lemma walk_queue_NoDup :
  forall fuel todo,
    antichain (map fst todo) -> NoDup (map fst (walk_queue fuel todo)).
Proof.
  induction fuel as [|fuel IH]; intros todo Hanti; [constructor|].
  destruct todo as [|pn todo]; [constructor|].
  simpl in Hanti. destruct Hanti as [Hpn Hanti]. simpl.
  constructor.
  - intros Hin. apply in_map_iff in Hin.
    destruct Hin as ((p' & n') & Hp' & Hin). simpl in Hp'. subst p'.
    apply walk_queue_sound in Hin.
    destruct Hin as (q & m & d & Hq & E & _).
    apply in_app_or in Hq. destruct Hq as [Hq | Hq].
    + rewrite Forall_forall in Hpn.
      assert (Ha : apart (fst pn) q).
      { apply Hpn. apply in_map_iff. exists (q, m). auto. }
      exact (proj2 Ha d E).
    + apply In_located_children in Hq. destruct Hq as (k & -> & _).
      exact (path_not_below_child _ _ _ E).
  - apply IH. rewrite map_app. apply antichain_app.
    + exact Hanti.
    + apply antichain_number_children.
    + intros x y Hx Hy.
      apply in_map_iff in Hy. destruct Hy as ((q & c) & <- & Hy). simpl.
      apply In_located_children in Hy. destruct Hy as (k & -> & _).
      apply apart_child. apply apart_sym.
      rewrite Forall_forall in Hpn. apply Hpn. exact Hx.
Qed.

Lemma walk_NoDup (tree : node) : NoDup (map fst (walk tree)).
Proof.
  unfold walk, walk_from. apply walk_queue_NoDup. simpl. auto.
Qed.

(** ** [range] and the fallback windows *)

Lemma ceil_div_spec (a b : Z) :
  (0 < b)%Z -> (b * (ceil_div a b - 1) < a <= b * ceil_div a b)%Z.
Proof.
  intros Hb. unfold ceil_div.
  pose proof (Z.div_mod (a + b - 1) b ltac:(lia)) as Hdm.
  pose proof (Z.mod_pos_bound (a + b - 1) b Hb). lia.
Qed.

Lemma range_fuel_done (fuel : nat) (start stop step : Z) :
  (stop <= start)%Z -> range_fuel fuel start stop step = [].
Proof.
  intros H. destruct fuel; simpl; [reflexivity|].
  destruct (Z.ltb_spec start stop); [lia | reflexivity].
Qed.

Lemma range_fuel_length (step : Z) :
  (0 < step)%Z ->
  forall fuel start stop,
    (start <= stop)%Z ->
    Z.to_nat (stop - start) <= fuel ->
    Z.of_nat (List.length (range_fuel fuel start stop step))
    = ceil_div (stop - start) step.
Proof.
  intros Hstep. unfold ceil_div.
  induction fuel as [|fuel IH]; intros start stop Hle Hfuel.
  - assert (stop = start) by lia. subst. simpl.
    replace (start - start + step - 1)%Z with (step - 1)%Z by lia.
    rewrite Z.div_small by lia. reflexivity.
  - simpl. destruct (Z.ltb_spec start stop) as [Hlt | Hge].
    + simpl List.length. rewrite Nat2Z.inj_succ.
      destruct (Z_le_gt_dec (start + step) stop) as [Hin | Hout].
      * rewrite IH by lia.
        replace (stop - start + step - 1)%Z
          with ((stop - (start + step) + step - 1) + 1 * step)%Z by lia.
        rewrite Z.div_add by lia. lia.
      * rewrite range_fuel_done by lia. simpl.
        replace (stop - start + step - 1)%Z
          with ((stop - start - 1) + 1 * step)%Z by lia.
        rewrite Z.div_add by lia. rewrite Z.div_small by lia. reflexivity.
    + assert (stop = start) by lia. subst. simpl.
      replace (start - start + step - 1)%Z with (step - 1)%Z by lia.
      rewrite Z.div_small by lia. reflexivity.
Qed.

Lemma range_fuel_covers (n step : Z) :
  (0 < step)%Z ->
  forall fuel start,
    (start <= n)%Z ->
    Z.to_nat (n - start) <= fuel ->
    covers (start + 1)
      (map (fun i => ((i + 1)%Z, Z.min (i + step) n))
         (range_fuel fuel start n step))
      n.
Proof.
  intros Hstep.
  induction fuel as [|fuel IH]; intros start Hle Hfuel.
  - simpl. lia.
  - simpl. destruct (Z.ltb_spec start n) as [Hlt | Hge]; simpl; [|lia].
    split; [reflexivity|]. split; [lia|].
    destruct (Z_le_gt_dec (start + step) n) as [Hin | Hout].
    + rewrite Z.min_l by lia. apply IH; lia.
    + rewrite Z.min_r by lia. rewrite range_fuel_done by lia. simpl. lia.
Qed.

Lemma flat_map_singleton {A B : Type} (f : A -> B) (l : list A) :
  flat_map (fun x => [f x]) l = map f l.
Proof. induction l; simpl; congruence. Qed.

(** ** List slices *)

Lemma slice_lines {A : Type} (l : list A) (first last : Z) :
  (1 <= first <= last)%Z ->
  slice l (first - 1) last
  = firstn (Z.to_nat (last - first + 1)) (skipn (Z.to_nat (first - 1)) l).
Proof.
  intros H. unfold slice, clamp_index.
  destruct (Z.ltb_spec (first - 1) 0); [lia|].
  destruct (Z.ltb_spec last 0); [lia|].
  set (len := Z.of_nat (List.length l)).
  assert (Hlen : List.length l = Z.to_nat len) by (unfold len; lia).
  destruct (Z_le_gt_dec len (first - 1)) as [Hout | Hin].
  - rewrite Z.min_r by lia. rewrite !skipn_all2 by lia.
    rewrite !firstn_nil. reflexivity.
  - rewrite (Z.min_l (first - 1)) by lia.
    destruct (Z_le_gt_dec last len) as [Hl | Hl].
    + rewrite Z.min_l by lia. f_equal. lia.
    + rewrite Z.min_r by lia.
      rewrite !firstn_all2; [reflexivity | |]; rewrite length_skipn; lia.
Qed.

(** ** Sorting by line *)

Lemma insert_by_perm {A : Type} (key : A -> Z) (x : A) :
  forall l, Permutation (insert_by key x l) (x :: l).
Proof.
  induction l as [|y l IH]; simpl; [reflexivity|].
  destruct (key x <=? key y)%Z; [reflexivity|].
  rewrite IH. apply perm_swap.
Qed.

Lemma sort_by_perm {A : Type} (key : A -> Z) :
  forall l, Permutation (sort_by key l) l.
Proof.
  induction l as [|x l IH]; simpl; [reflexivity|].
  rewrite insert_by_perm. constructor. exact IH.
Qed.

Lemma insert_by_sorted {A : Type} (key : A -> Z) (x : A) :
  forall l,
    StronglySorted (fun a b => (key a <= key b)%Z) l ->
    StronglySorted (fun a b => (key a <= key b)%Z) (insert_by key x l).
Proof.
  induction l as [|y l IH]; simpl; intros Hs.
  - constructor; constructor.
  - inversion Hs as [|? ? Hs' Hy]; subst.
    destruct (Z.leb_spec (key x) (key y)) as [Hle | Hgt].
    + constructor; [exact Hs|]. constructor; [exact Hle|].
      eapply Forall_impl; [|exact Hy]. simpl. intros; lia.
    + constructor; [apply IH; exact Hs'|].
      eapply Permutation_Forall; [symmetry; apply insert_by_perm|].
      constructor; [lia | exact Hy].
Qed.

Lemma sort_by_sorted {A : Type} (key : A -> Z) :
  forall l, StronglySorted (fun a b => (key a <= key b)%Z) (sort_by key l).
Proof.
  induction l as [|x l IH]; simpl; [constructor|].
  apply insert_by_sorted. exact IH.
Qed.

(** ** The grouping loop of [_extract_imports] *)

Lemma group_last_line_snoc (g : list node) (n : node) :
  group_last_line (g ++ [n]) = node_lineno n.
Proof. unfold group_last_line. rewrite last_last. reflexivity. Qed.

Lemma contiguous_run_snoc (g : list node) (n : node) :
  contiguous_run g ->
  (node_lineno n - group_last_line g <= 1)%Z ->
  contiguous_run (g ++ [n]).
Proof.
  induction g as [|a g IH]; simpl; [tauto|].
  destruct g as [|b g]; simpl in *.
  - unfold group_last_line. simpl. intros _ H. auto.
  - intros [Hab Hrun] Hn. split; [exact Hab|].
    apply IH; [exact Hrun|].
    unfold group_last_line in *. simpl in *. exact Hn.
Qed.

Lemma group_first_line_app (g h : list node) :
  g <> [] -> group_first_line (g ++ h) = group_first_line g.
Proof. destruct g; [congruence | reflexivity]. Qed.

Lemma separated_runs_extend_last (gs : list (list node)) (g : list node)
    (n : node) :
  g <> [] ->
  separated_runs (gs ++ [g]) ->
  (node_lineno n - group_last_line g <= 1)%Z ->
  separated_runs (gs ++ [g ++ [n]]).
Proof.
  intros Hg. induction gs as [|a gs IH]; simpl.
  - intros (Hrun & _ & _) Hn. split; [|auto].
    apply contiguous_run_snoc; assumption.
  - intros (Hrun & Hgap & Hrest) Hn. split; [exact Hrun|]. split.
    + destruct gs as [|b gs]; simpl in *; [|exact Hgap].
      rewrite group_first_line_app by exact Hg. exact Hgap.
    + apply IH; assumption.
Qed.

Lemma separated_runs_new_group (gs : list (list node)) (g : list node)
    (n : node) :
  separated_runs (gs ++ [g]) ->
  (node_lineno n - group_last_line g >= 2)%Z ->
  separated_runs ((gs ++ [g]) ++ [[n]]).
Proof.
  induction gs as [|a gs IH]; simpl.
  - intros (Hrun & _ & _) Hn. repeat split; auto.
  - intros (Hrun & Hgap & Hrest) Hn. split; [exact Hrun|]. split.
    + destruct gs as [|b gs]; simpl in *; exact Hgap.
    + apply IH; assumption.
Qed.

Lemma flush_group_cons (groups : list (list node)) (a : node)
    (current : list node) :
  flush_group groups (a :: current) = groups ++ [a :: current].
Proof. reflexivity. Qed.

Lemma group_step_inv (processed : list node) (st : group_state) (n : node) :
  group_inv processed st -> group_inv (processed ++ [n]) (group_step st n).
Proof.
  destruct st as ((groups & current) & last_line).
  unfold group_inv, group_step.
  intros (Hsep & Hcat & Hempty & Hlast).
  destruct (Z.leb_spec (node_lineno n - last_line) 1) as [Hnear | Hfar].
  - destruct current as [|a current].
    + rewrite (Hempty eq_refl) in *. simpl in *. subst processed.
      repeat split; auto; try discriminate.
    + change ((a :: current) ++ [n]) with (a :: (current ++ [n])).
      rewrite flush_group_cons in *.
      specialize (Hlast ltac:(discriminate)). subst last_line.
      split; [|split; [|split]].
      * change (a :: current ++ [n]) with ((a :: current) ++ [n]).
        apply separated_runs_extend_last; [discriminate | assumption | lia].
      * rewrite concat_app in *. simpl in *. rewrite !app_nil_r in *.
        subst processed. rewrite <- app_assoc. reflexivity.
      * discriminate.
      * intros _. change (a :: current ++ [n]) with ((a :: current) ++ [n]).
        symmetry. apply group_last_line_snoc.
  - change (flush_group (flush_group groups current) [n])
      with (flush_group groups current ++ [[n]]).
    split; [|split; [|split]].
    + destruct current as [|a current].
      * rewrite (Hempty eq_refl). simpl. auto.
      * rewrite flush_group_cons in *.
        specialize (Hlast ltac:(discriminate)). subst last_line.
        apply separated_runs_new_group; [assumption | lia].
    + rewrite concat_app. simpl. rewrite Hcat. reflexivity.
    + discriminate.
    + intros _. reflexivity.
Qed.

Lemma group_loop_inv :
  forall rest processed st,
    group_inv processed st ->
    group_inv (processed ++ rest) (fold_left group_step rest st).
Proof.
  induction rest as [|n rest IH]; simpl; intros processed st H.
  - rewrite app_nil_r. exact H.
  - replace (processed ++ n :: rest) with ((processed ++ [n]) ++ rest)
      by (rewrite <- app_assoc; reflexivity).
    apply IH. apply group_step_inv. exact H.
Qed.

Lemma import_groups_spec (stmts : list node) :
  separated_runs (import_groups stmts)
  /\ List.concat (import_groups stmts) = stmts.
Proof.
  unfold import_groups.
  pose proof (group_loop_inv stmts [] ([], [], (-2)%Z)) as H.
  destruct (fold_left group_step stmts ([], [], (-2)%Z))
    as ((groups & current) & last_line).
  simpl in H.
  destruct H as (Hsep & Hcat & _); [repeat split; auto; congruence|].
  split; assumption.
Qed.

(** ** The pieces of [chunk_code] *)

Lemma create_chunk_some (rt : Runtime) (s chunk_type : string)
    (start_line end_line : Z) (file_path : string)
    (parent_context : option string) (metadata : dict) :
  _create_chunk rt (Some s) chunk_type start_line end_line file_path
    parent_context metadata
  = Ok {| id := chunk_id rt file_path start_line s;
          content := s;
          chunk_type := chunk_type;
          metadata := metadata;
          start_line := start_line;
          end_line := end_line;
          file_path := file_path;
          language := "python";
          parent_context := parent_context |}.
Proof. reflexivity. Qed.

Lemma extract_function_spec (rt : Runtime) (n : node) (source file_path : string) :
  _extract_function rt n source file_path
  = Ok (match _get_node_source rt n source true with
        | Some s => if truthy s
                    then Some (function_record rt n s file_path)
                    else None
        | None => None
        end).
Proof.
  unfold _extract_function.
  destruct (_get_node_source rt n source true) as [s|]; [|reflexivity].
  destruct (truthy s); reflexivity.
Qed.

Lemma method_chunk_spec (rt : Runtime) (self : ASTCodeChunker)
    (class_name source file_path : string) (item : node) :
  method_chunk rt self class_name source file_path item
  = Ok (if is_FunctionDef item && sliceable rt source item
        then [method_record rt self class_name item
                (match _get_node_source rt item source true with
                 | Some s => s
                 | None => ""
                 end) file_path]
        else []).
Proof.
  unfold method_chunk, sliceable.
  destruct (is_FunctionDef item); [|reflexivity].
  destruct (_get_node_source rt item source true) as [s|]; [|reflexivity].
  simpl. destruct (truthy s); reflexivity.
Qed.

Lemma flat_map_filter_singleton {A B : Type} (p : A -> bool) (f : A -> B) :
  forall l, flat_map (fun x => if p x then [f x] else []) l
            = map f (filter p l).
Proof.
  induction l as [|x l IH]; simpl; [reflexivity|].
  destruct (p x); simpl; congruence.
Qed.

Lemma method_chunks_spec (rt : Runtime) (self : ASTCodeChunker)
    (class_name source file_path : string) (body : list node) :
  collect (method_chunk rt self class_name source file_path) body
  = Ok (map (fun item =>
               method_record rt self class_name item
                 (match _get_node_source rt item source true with
                  | Some s => s
                  | None => ""
                  end) file_path)
          (chunked_methods rt source body)).
Proof.
  unfold chunked_methods.
  rewrite <- flat_map_filter_singleton.
  apply collect_ok. intros item _. apply method_chunk_spec.
Qed.

Lemma string_app_nil_r (s : string) : (s ++ "")%string = s.
Proof. induction s; simpl; congruence. Qed.

Lemma method_signatures_nil (body : list node) :
  method_signatures body = [] <-> filter is_FunctionDef body = [].
Proof.
  unfold method_signatures.
  destruct (filter is_FunctionDef body); simpl; split; congruence.
Qed.

(** [_extract_class] returns exactly when the class header can be sliced. *)
Lemma extract_class_spec (rt : Runtime) (self : ASTCodeChunker) (n : node)
    (source file_path : string) :
  _extract_class rt self n source file_path
  = match _get_node_source rt n source false with
    | Some class_header =>
        Ok (class_record rt n class_header file_path
            :: map (fun item =>
                      method_record rt self (node_name n) item
                        (match _get_node_source rt item source true with
                         | Some s => s
                         | None => ""
                         end) file_path)
                 (chunked_methods rt source (node_body n)))
    | None => Raise TypeError
    end.
Proof.
  unfold _extract_class.
  rewrite method_chunks_spec.
  unfold class_record, docstring_overview, methods_overview, method_signatures.
  destruct (_get_node_source rt n source false) as [header|].
  - destruct (truthy_opt (get_docstring rt n));
      destruct (filter is_FunctionDef (node_body n));
      cbn [bind str_iadd map]; rewrite create_chunk_some;
      cbn [bind]; rewrite ?string_app_nil_r; reflexivity.
  - destruct (truthy_opt (get_docstring rt n)); simpl; [reflexivity|].
    destruct (filter is_FunctionDef (node_body n)); reflexivity.
Qed.

Lemma definition_chunks_block (rt : Runtime) (self : ASTCodeChunker)
    (tree : node) (source file_path : string) (pn : path * node)
    (block : list CodeChunk) :
  definition_chunks rt self tree source file_path pn = Ok block ->
  node_block rt self tree source file_path pn block.
Proof.
  unfold definition_chunks, node_block. cbv zeta.
  destruct (is_ClassDef (snd pn)).
  - rewrite extract_class_spec.
    destruct (_get_node_source rt (snd pn) source false) as [header|];
      [|discriminate].
    intros H. inversion H. eauto.
  - destruct (is_FunctionDef (snd pn) && negb (_is_nested_function tree pn));
      cbn [andb]; [|intros H; inversion H; reflexivity].
    rewrite extract_function_spec. cbn [bind]. unfold sliceable.
    destruct (_get_node_source rt (snd pn) source true) as [s|];
      cbn [truthy_opt opt_list]; [|intros H; inversion H; reflexivity].
    destruct (truthy s); intros H; inversion H; eauto.
Qed.

(** The module docstring chunk, when there is one. *)
Lemma module_docstring_chunk_spec (rt : Runtime) (tree : node)
    (fp : string) :
  exists doc,
    module_docstring_chunk rt tree fp = Ok doc
    /\ (doc = []
        \/ exists c, doc = [c]
             /\ chunk_type c = "module_docstring"
             /\ start_line c = 1%Z
             /\ Ast.opt_list (get_docstring rt tree)
                = [match get_docstring rt tree with Some d => d | None => "" end]
             /\ content c
                = (triple_quote ++ "Module Documentation" ++ triple_quote ++ nl
                     ++ match get_docstring rt tree with
                        | Some d => d
                        | None => ""
                        end)%string
             /\ end_line c
                = (_count_lines
                     (match get_docstring rt tree with
                      | Some d => d
                      | None => ""
                      end) + 2)%Z
             /\ file_path c = fp
             /\ parent_context c = None
             /\ id c = chunk_id rt (file_path c) (start_line c) (content c)).
Proof.
  unfold module_docstring_chunk.
  destruct (get_docstring rt tree) as [d|]; [|eauto].
  destruct (truthy d); [|eauto].
  rewrite create_chunk_some. cbn [bind].
  eexists. split; [reflexivity|]. right. eexists. split; [reflexivity|].
  cbn. repeat split; reflexivity.
Qed.

Lemma import_lines_all (group : list node) :
  Forall (fun n => is_import n = true) group ->
  List.length (import_lines group) = List.length group
  /\ (group <> [] -> import_lines group <> []).
Proof.
  induction group as [|n group IH]; intros H; [split; [reflexivity | congruence]|].
  inversion H as [|? ? Hn Hrest]; subst.
  destruct (IH Hrest) as [Hlen _].
  destruct n; try discriminate; simpl; rewrite Hlen; split; auto; discriminate.
Qed.

Lemma last_default_irrelevant {A : Type} (l : list A) (d d' : A) :
  l <> [] -> last l d = last l d'.
Proof.
  induction l as [|a l IH]; [congruence|]. intros _.
  destruct l as [|b l]; [reflexivity|].
  change (last (b :: l) d = last (b :: l) d'). apply IH. discriminate.
Qed.

Lemma import_chunk_spec (rt : Runtime) (source : string) (group : list node) :
  group <> [] ->
  Forall (fun n => is_import n = true) group ->
  import_chunk rt source group = Ok [import_record rt group source].
Proof.
  intros Hne Hall.
  destruct (import_lines_all group Hall) as [_ Hlines].
  specialize (Hlines Hne).
  unfold import_chunk, import_record.
  destruct group as [|first group]; [congruence|].
  destruct (import_lines (first :: group)) as [|l ls] eqn:E; [congruence|].
  rewrite create_chunk_some. cbn [bind].
  unfold group_last_line, group_first_line.
  rewrite (last_default_irrelevant (first :: group) first (Module []))
    by discriminate.
  reflexivity.
Qed.

Lemma contiguous_run_nonempty (g : list node) : contiguous_run g -> g <> [].
Proof. destruct g; simpl; [tauto | discriminate]. Qed.

Lemma separated_runs_nonempty (gs : list (list node)) :
  separated_runs gs -> Forall (fun g => g <> []) gs.
Proof.
  induction gs as [|g gs IH]; simpl; [constructor|].
  intros (Hrun & _ & Hrest). constructor; [|auto].
  apply contiguous_run_nonempty. exact Hrun.
Qed.

Lemma sorted_imports_perm (tree : node) :
  Permutation (sorted_imports tree) (filter is_import (map snd (walk tree))).
Proof. unfold sorted_imports. apply sort_by_perm. Qed.

Lemma sorted_imports_all (tree : node) :
  Forall (fun n => is_import n = true) (sorted_imports tree).
Proof.
  eapply Permutation_Forall; [symmetry; apply sorted_imports_perm|].
  apply Forall_forall. intros n Hn. apply filter_In in Hn. tauto.
Qed.

Lemma extract_imports_spec (rt : Runtime) (tree : node) (source : string) :
  _extract_imports rt tree source
  = Ok (map (fun g => import_record rt g source)
          (import_groups (sorted_imports tree))).
Proof.
  unfold _extract_imports.
  destruct (import_groups_spec (sorted_imports tree)) as [Hsep Hcat].
  pose proof (separated_runs_nonempty _ Hsep) as Hne.
  pose proof (sorted_imports_all tree) as Hall.
  rewrite <- Hcat in Hall. apply Forall_concat in Hall.
  rewrite <- flat_map_singleton.
  apply collect_ok. intros g Hg.
  rewrite Forall_forall in Hne, Hall.
  apply import_chunk_spec; auto.
Qed.

Lemma extract_globals_spec (rt : Runtime) (tree : node) (source : string) :
  exists globals,
    _extract_globals rt tree source = Ok globals
    /\ (globals = None
        \/ exists c, globals = Some c
             /\ chunk_type c = "global"
             /\ start_line c = 1%Z
             /\ end_line c = line_count source
             /\ file_path c = source
             /\ parent_context c = None
             /\ id c = chunk_id rt (file_path c) (start_line c) (content c)).
Proof.
  unfold _extract_globals.
  destruct (flat_map (global_lines rt source) (node_body tree)) as [|l ls];
    [eauto|].
  rewrite create_chunk_some. cbn [bind].
  eexists. split; [reflexivity|]. right. eexists. split; [reflexivity|].
  cbn. repeat split; reflexivity.
Qed.

(** The shape of what [chunk_code] returns for a parsed text. *)
Lemma chunk_tree_blocks (rt : Runtime) (self : ASTCodeChunker) (tree : node)
    (source file_path : string) (chunks : list CodeChunk) :
  chunk_tree rt self tree source file_path = Ok chunks ->
  exists doc globals blocks,
    module_docstring_chunk rt tree file_path = Ok doc
    /\ _extract_globals rt tree source = Ok globals
    /\ Forall2 (node_block rt self tree source file_path) (walk tree) blocks
    /\ chunks
       = doc ++ map (fun g => import_record rt g source)
                  (import_groups (sorted_imports tree))
             ++ Ast.opt_list globals ++ List.concat blocks.
Proof.
  unfold chunk_tree. intros H.
  apply bind_ok_inv in H. destruct H as (doc & Hdoc & H).
  rewrite extract_imports_spec in H. cbn [bind] in H.
  apply bind_ok_inv in H. destruct H as (globals & Hglobals & H).
  apply bind_ok_inv in H. destruct H as (defs & Hdefs & H).
  inversion H; subst; clear H.
  apply collect_inv in Hdefs. destruct Hdefs as (blocks & HF & ->).
  exists doc, globals, blocks. repeat split; auto.
  eapply Forall2_impl; [|exact HF].
  intros pn b. apply definition_chunks_block.
Qed.

(** ** Chunk types of the pieces *)

Lemma filter_none {A : Type} (f : A -> bool) (l : list A) :
  Forall (fun x => f x = false) l -> filter f l = [].
Proof.
  induction 1 as [|x l Hx _ IH]; simpl; [reflexivity|]. rewrite Hx. exact IH.
Qed.

Lemma filter_all {A : Type} (f : A -> bool) (l : list A) :
  Forall (fun x => f x = true) l -> filter f l = l.
Proof.
  induction 1 as [|x l Hx _ IH]; simpl; [reflexivity|]. rewrite Hx, IH.
  reflexivity.
Qed.

Lemma has_type_eq (t : string) (c : CodeChunk) :
  has_type t c = true <-> chunk_type c = t.
Proof. unfold has_type. apply String.eqb_eq. Qed.

Lemma has_type_neq (t : string) (c : CodeChunk) :
  has_type t c = false <-> chunk_type c <> t.
Proof. unfold has_type. apply String.eqb_neq. Qed.

Lemma docstring_chunks_preamble (rt : Runtime) (tree : node) (fp : string)
    (doc : list CodeChunk) :
  module_docstring_chunk rt tree fp = Ok doc ->
  doc = [] \/ exists c, doc = [c] /\ chunk_type c = "module_docstring"
                        /\ file_path c = fp /\ parent_context c = None
                        /\ id c = chunk_id rt (file_path c) (start_line c)
                                    (content c).
Proof.
  intros H.
  destruct (module_docstring_chunk_spec rt tree fp) as (doc' & H' & Hd).
  rewrite H in H'. inversion H'; subst doc'.
  destruct Hd as [-> | (c & -> & Ht & _ & _ & _ & _ & Hf & Hp & Hi)]; eauto 10.
Qed.

Lemma globals_chunk_preamble (rt : Runtime) (tree : node) (source : string)
    (globals : option CodeChunk) :
  _extract_globals rt tree source = Ok globals ->
  globals = None
  \/ exists c, globals = Some c /\ chunk_type c = "global"
               /\ file_path c = source /\ parent_context c = None
               /\ id c = chunk_id rt (file_path c) (start_line c) (content c).
Proof.
  intros H.
  destruct (extract_globals_spec rt tree source) as (g' & H' & Hg).
  rewrite H in H'. inversion H'; subst g'.
  destruct Hg as [-> | (c & -> & Ht & _ & _ & Hf & Hp & Hi)]; eauto 10.
Qed.

(** Every chunk of a definition block is a class, method or function chunk
    labelled with the file path. *)
Lemma node_block_chunks (rt : Runtime) (self : ASTCodeChunker) (tree : node)
    (source fp : string) (pn : path * node) (block : list CodeChunk) :
  node_block rt self tree source fp pn block ->
  Forall (fun c =>
            (chunk_type c = "class" \/ chunk_type c = "method"
             \/ chunk_type c = "function")
            /\ file_path c = fp
            /\ (chunk_type c <> "method" -> parent_context c = None)
            /\ id c = chunk_id rt (file_path c) (start_line c) (content c))
    block.
Proof.
  unfold node_block. cbv zeta.
  destruct (is_ClassDef (snd pn)).
  - intros (header & _ & ->). constructor.
    + cbn. auto.
    + apply Forall_forall. intros m Hm. apply in_map_iff in Hm.
      destruct Hm as (item & <- & _). cbn. repeat split; auto. congruence.
  - destruct (is_FunctionDef (snd pn) && negb (_is_nested_function tree pn)
              && sliceable rt source (snd pn)).
    + intros (s & _ & ->). constructor; [|constructor]. cbn. auto 6.
    + intros ->. constructor.
Qed.

Lemma import_record_fields (rt : Runtime) (source : string) (g : list node) :
  let c := import_record rt g source in
  chunk_type c = "import" /\ file_path c = source /\ parent_context c = None
  /\ id c = chunk_id rt (file_path c) (start_line c) (content c).
Proof. cbn. auto. Qed.

(** ** Fingerprints *)

Lemma chunk_id_fingerprint (rt : Runtime) (fp : string) (line : Z) (s : string) :
  chunk_id rt fp line s = fingerprint rt fp line (str_take 100 s).
Proof. reflexivity. Qed.

Lemma fallback_window_spec (rt : Runtime) (lines : list string) (fp : string)
    (i : Z) :
  fallback_window rt lines fp i
  = Ok [{| id := chunk_id rt fp (i + 1) (join nl (slice lines i (i + chunk_size)));
           content := join nl (slice lines i (i + chunk_size));
           chunk_type := "code_block";
           metadata := [("fallback", MBool true)];
           start_line := i + 1;
           end_line := Z.min (i + chunk_size) (Z.of_nat (List.length lines));
           file_path := fp;
           language := "python";
           parent_context := None |}].
Proof. reflexivity. Qed.

(** Every chunk carries the fingerprint of its own fields. *)
Lemma chunk_code_ids (rt : Runtime) (self : ASTCodeChunker)
    (source fp : string) (chunks : list CodeChunk) :
  chunk_code rt self source fp = Ok chunks ->
  Forall (fun c => id c = chunk_id rt (file_path c) (start_line c) (content c))
    chunks.
Proof.
  unfold chunk_code. destruct (ast_parse rt source) as [tree|].
  - intros H. apply chunk_tree_blocks in H.
    destruct H as (doc & globals & blocks & Hdoc & Hglob & Hblocks & ->).
    repeat (apply Forall_app; split).
    + apply docstring_chunks_preamble in Hdoc.
      destruct Hdoc as [-> | (c & -> & _ & _ & _ & Hid)]; auto.
    + apply Forall_forall. intros c Hc. apply in_map_iff in Hc.
      destruct Hc as (g & <- & _). reflexivity.
    + apply globals_chunk_preamble in Hglob.
      destruct Hglob as [-> | (c & -> & _ & _ & _ & Hid)]; simpl; auto.
    + apply Forall_concat.
      induction Hblocks as [|pn b ? ? Hb _ IH]; constructor; [|exact IH].
      eapply Forall_impl; [|exact (node_block_chunks _ _ _ _ _ _ _ Hb)].
      simpl. tauto.
  - unfold _fallback_chunk. apply collect_Forall.
    intros i cs Hi. rewrite fallback_window_spec in Hi.
    inversion Hi; subst. constructor; [reflexivity | constructor].
Qed.

(** C4. Chunking twice gives lists of the same length with the same ids, and
    the id of a chunk is the fingerprint of its file path, its start line and
    the first 100 characters of its content, and of nothing else. *)
Theorem chunk_ids_are_fingerprints (rt : Runtime) (self : ASTCodeChunker)
    (source fp : string) (run1 run2 : list CodeChunk) :
  chunk_code rt self source fp = Ok run1 ->
  chunk_code rt self source fp = Ok run2 ->
  List.length run1 = List.length run2
  /\ map id run1 = map id run2
  /\ Forall (fun c => id c = fingerprint rt (file_path c) (start_line c)
                              (str_take 100 (content c))) run1.
Proof.
  intros H1 H2.
  assert (run1 = run2) by congruence. subst run2.
  repeat split.
  eapply Forall_impl; [|exact (chunk_code_ids _ _ _ _ _ H1)].
  intros c Hc. rewrite Hc. apply chunk_id_fingerprint.
Qed.

(** ** Fallback chunking *)

(** C5. When the parser rejects the text, [chunk_code] returns
    [ceil(line_count / 50)] chunks, each a [code_block] whose metadata has
    [fallback: True], and their line ranges tile the lines [1 .. line_count]
    without gap or overlap. *)
Theorem fallback_chunks_tile_the_lines (rt : Runtime) (self : ASTCodeChunker)
    (source fp : string) :
  ast_parse rt source = SyntaxError ->
  exists chunks,
    chunk_code rt self source fp = Ok chunks
    /\ Z.of_nat (List.length chunks) = ceil_div (line_count source) 50
    /\ Forall (fun c => chunk_type c = "code_block"
                        /\ dict_get (metadata c) "fallback" = Some (MBool true))
         chunks
    /\ covers 1 (map line_range chunks) (line_count source).
Proof.
  intros Hparse. unfold chunk_code. rewrite Hparse.
  unfold _fallback_chunk, line_count.
  set (lines := splitlines source).
  set (n := Z.of_nat (List.length lines)).
  eexists. split.
  { apply collect_ok with
      (g := fun i =>
         [{| id := chunk_id rt fp (i + 1)
                     (join nl (slice lines i (i + chunk_size)));
             content := join nl (slice lines i (i + chunk_size));
             chunk_type := "code_block";
             metadata := [("fallback", MBool true)];
             start_line := i + 1;
             end_line := Z.min (i + chunk_size) n;
             file_path := fp;
             language := "python";
             parent_context := None |}]).
    intros i _. apply fallback_window_spec. }
  rewrite flat_map_singleton. unfold range, chunk_size.
  replace (n - 0)%Z with n by lia.
  assert (Hn : (0 <= n)%Z) by (unfold n; lia).
  split; [|split].
  - rewrite length_map.
    rewrite (range_fuel_length 50 ltac:(lia)) by lia.
    f_equal. lia.
  - apply Forall_forall. intros c Hc. apply in_map_iff in Hc.
    destruct Hc as (i & <- & _). split; reflexivity.
  - rewrite map_map. unfold line_range. cbn [start_line end_line].
    apply (range_fuel_covers n 50 ltac:(lia) (Z.to_nat n) 0%Z); lia.
Qed.

Lemma fallback_chunks_tile_the_lines_witness :
  exists chunks,
    chunk_code Samples.runtime default_chunker Samples.src_broken "broken.py"
    = Ok chunks
    /\ Z.of_nat (List.length chunks)
       = ceil_div (line_count Samples.src_broken) 50
    /\ Forall (fun c => chunk_type c = "code_block"
                        /\ dict_get (metadata c) "fallback" = Some (MBool true))
         chunks
    /\ covers 1 (map line_range chunks) (line_count Samples.src_broken).
Proof.
  apply (fallback_chunks_tile_the_lines Samples.runtime default_chunker
           Samples.src_broken "broken.py").
  reflexivity.
Defined.

Lemma chunk_ids_are_fingerprints_witness :
  exists run,
    chunk_code Samples.runtime default_chunker Samples.src_class_and_function
      "a.py" = Ok run
    /\ List.length run = List.length run
    /\ map id run = map id run
    /\ Forall (fun c => id c = fingerprint Samples.runtime (file_path c)
                                 (start_line c) (str_take 100 (content c))) run.
Proof.
  eexists. split; [vm_compute; reflexivity|].
  apply (chunk_ids_are_fingerprints Samples.runtime default_chunker
           Samples.src_class_and_function "a.py"); vm_compute; reflexivity.
Defined.

(** ** The [file_path] field *)

(** Which label each chunk of a parsed text carries: import and global
    chunks hold the source text, the others the file path. *)
Lemma chunk_tree_file_paths (rt : Runtime) (self : ASTCodeChunker)
    (tree : node) (source fp : string) (chunks : list CodeChunk) :
  chunk_tree rt self tree source fp = Ok chunks ->
  Forall (fun c =>
            if has_type "import" c || has_type "global" c
            then file_path c = source
            else file_path c = fp)
    chunks.
Proof.
  intros H. apply chunk_tree_blocks in H.
  destruct H as (doc & globals & blocks & Hdoc & Hglob & Hblocks & ->).
  repeat (apply Forall_app; split).
  - apply docstring_chunks_preamble in Hdoc.
    destruct Hdoc as [-> | (c & -> & Ht & Hf & _)]; auto.
    constructor; [|constructor]. unfold has_type. rewrite Ht. exact Hf.
  - apply Forall_forall. intros c Hc. apply in_map_iff in Hc.
    destruct Hc as (g & <- & _). reflexivity.
  - apply globals_chunk_preamble in Hglob.
    destruct Hglob as [-> | (c & -> & Ht & Hf & _)]; simpl; auto.
    constructor; [|constructor]. unfold has_type. rewrite Ht. exact Hf.
  - apply Forall_concat.
    induction Hblocks as [|pn b ? ? Hb _ IH]; constructor; [|exact IH].
    eapply Forall_impl; [|exact (node_block_chunks _ _ _ _ _ _ _ Hb)].
    intros c (Ht & Hf & _). unfold has_type.
    destruct Ht as [-> | [-> | ->]]; exact Hf.
Qed.

(** C3, at the input [import os] chunked under the path [a.py]: the one
    chunk returned is the import chunk, and its [file_path] field is the
    source text, not the path. *)
Theorem import_chunk_file_path_is_source_text :
  exists c,
    chunk_code Samples.runtime default_chunker Samples.src_import "a.py"
    = Ok [c]
    /\ chunk_type c = "import"
    /\ file_path c = Samples.src_import
    /\ file_path c <> "a.py".
Proof.
  eexists. split; [vm_compute; reflexivity|].
  repeat split. vm_compute. discriminate.
Qed.

(** ** Exceptions *)

(** A class whose header cannot be sliced stops [chunk_code]. *)
Lemma definition_chunks_raise (rt : Runtime) (self : ASTCodeChunker)
    (tree : node) (source fp : string) (pn : path * node) (e : exn) :
  definition_chunks rt self tree source fp pn = Raise e ->
  e = TypeError
  /\ is_ClassDef (snd pn) = true
  /\ _get_node_source rt (snd pn) source false = None.
Proof.
  unfold definition_chunks.
  destruct (is_ClassDef (snd pn)).
  - rewrite extract_class_spec.
    destruct (_get_node_source rt (snd pn) source false); [discriminate|].
    intros H. inversion H. auto.
  - destruct (is_FunctionDef (snd pn) && negb (_is_nested_function tree pn));
      [|discriminate].
    rewrite extract_function_spec. discriminate.
Qed.

Lemma chunk_code_raises_only_TypeError (rt : Runtime) (self : ASTCodeChunker)
    (source fp : string) (e : exn) :
  chunk_code rt self source fp = Raise e -> e = TypeError.
Proof.
  unfold chunk_code. destruct (ast_parse rt source) as [tree|].
  - unfold chunk_tree.
    destruct (module_docstring_chunk_spec rt tree fp) as (doc & -> & _).
    rewrite extract_imports_spec.
    destruct (extract_globals_spec rt tree source) as (globals & -> & _).
    cbn [bind].
    destruct (collect (definition_chunks rt self tree source fp) (walk tree))
      as [defs|e'] eqn:E; cbn [bind]; [discriminate|].
    intros H. inversion H; subst e'.
    apply collect_raise_inv in E. destruct E as (pn & _ & Hpn).
    apply definition_chunks_raise in Hpn. tauto.
  - unfold _fallback_chunk. intros H.
    apply collect_raise_inv in H. destruct H as (i & _ & Hi).
    rewrite fallback_window_spec in Hi. discriminate.
Qed.


(** C6, at a file that holds [class A: pass]: the file exists, the text
    parses, and [chunk_file] raises [TypeError] instead of returning a
    chunk list. *)
Theorem chunk_file_raises_on_one_line_class :
  Samples.disk "errors.py" = Some (Text Samples.src_one_line_class)
  /\ ast_parse Samples.runtime Samples.src_one_line_class
     = Parsed Samples.tree_one_line_class
  /\ chunk_file Samples.runtime default_chunker Samples.disk "errors.py"
     = Raise TypeError.
Proof. repeat split; vm_compute; reflexivity. Qed.

(** ** Import groups *)

Lemma node_block_not_preamble (rt : Runtime) (self : ASTCodeChunker)
    (tree : node) (source fp : string) (t : string) :
  t <> "class" -> t <> "method" -> t <> "function" ->
  forall walked blocks,
    Forall2 (node_block rt self tree source fp) walked blocks ->
    filter (has_type t) (List.concat blocks) = [].
Proof.
  intros H1 H2 H3 walked blocks HF. apply filter_none. apply Forall_concat.
  induction HF as [|pn b ? ? Hb _ IH]; constructor; [|exact IH].
  eapply Forall_impl; [|exact (node_block_chunks _ _ _ _ _ _ _ Hb)].
  intros c (Ht & _). apply has_type_neq.
  destruct Ht as [-> | [-> | ->]]; congruence.
Qed.

(** The import chunks of a parsed text are the records of the groups. *)
Lemma import_chunks_of_tree (rt : Runtime) (self : ASTCodeChunker)
    (tree : node) (source fp : string) (chunks : list CodeChunk) :
  chunk_tree rt self tree source fp = Ok chunks ->
  filter (has_type "import") chunks
  = map (fun g => import_record rt g source)
      (import_groups (sorted_imports tree)).
Proof.
  intros H. apply chunk_tree_blocks in H.
  destruct H as (doc & globals & blocks & Hdoc & Hglob & Hblocks & ->).
  rewrite !filter_app.
  rewrite (node_block_not_preamble rt self tree source fp "import")
    with (walked := walk tree) by (assumption || discriminate).
  apply docstring_chunks_preamble in Hdoc.
  apply globals_chunk_preamble in Hglob.
  assert (Hd : filter (has_type "import") doc = []).
  { destruct Hdoc as [-> | (c & -> & Ht & _)]; [reflexivity|].
    simpl. unfold has_type. rewrite Ht. reflexivity. }
  assert (Hg : filter (has_type "import") (Ast.opt_list globals) = []).
  { destruct Hglob as [-> | (c & -> & Ht & _)]; [reflexivity|].
    simpl. unfold has_type. rewrite Ht. reflexivity. }
  rewrite Hd, Hg, app_nil_r. simpl.
  apply filter_all. apply Forall_forall. intros c Hc.
  apply in_map_iff in Hc. destruct Hc as (g & <- & _). reflexivity.
Qed.

(** C7. The import statements, sorted by line, are cut into runs: inside a
    run each statement is at most one line after the one before, and a new
    run starts where the gap is two lines or more.  Each run is one import
    chunk, from the line of its first statement to the line of its last,
    with [num_imports] the number of statements in the run. *)
Theorem import_chunks_follow_line_contiguity (rt : Runtime)
    (self : ASTCodeChunker) (source fp : string) (tree : node)
    (chunks : list CodeChunk) :
  ast_parse rt source = Parsed tree ->
  chunk_code rt self source fp = Ok chunks ->
  let stmts := sorted_imports tree in
  let groups := import_groups stmts in
  Permutation stmts (filter is_import (map snd (walk tree)))
  /\ lines_ascending stmts
  /\ List.concat groups = stmts
  /\ separated_runs groups
  /\ Forall2 (fun g c =>
                chunk_type c = "import"
                /\ start_line c = group_first_line g
                /\ end_line c = group_last_line g
                /\ dict_get (metadata c) "num_imports"
                   = Some (MInt (Z.of_nat (List.length g))))
       groups (filter (has_type "import") chunks).
Proof.
  intros Hparse Hrun. cbv zeta.
  unfold chunk_code in Hrun. rewrite Hparse in Hrun.
  destruct (import_groups_spec (sorted_imports tree)) as [Hsep Hcat].
  split; [apply sorted_imports_perm|].
  split; [apply sort_by_sorted|].
  split; [exact Hcat|]. split; [exact Hsep|].
  rewrite (import_chunks_of_tree _ _ _ _ _ _ Hrun).
  pose proof (sorted_imports_all tree) as Hall.
  rewrite <- Hcat in Hall. apply Forall_concat in Hall.
  clear Hsep Hcat Hrun Hparse. revert Hall.
  generalize (import_groups (sorted_imports tree)) as gs.
  induction 1 as [|g gs Hg _ IH]; simpl; constructor; [|exact IH].
  cbn. destruct (import_lines_all g Hg) as [-> _]. auto.
Qed.

Lemma import_chunks_follow_line_contiguity_witness :
  exists chunks,
    chunk_code Samples.runtime default_chunker Samples.src_imports_apart
      "a.py" = Ok chunks
    /\ separated_runs
         (import_groups (sorted_imports Samples.tree_imports_apart))
    /\ Forall2 (fun g c =>
                  chunk_type c = "import"
                  /\ start_line c = group_first_line g
                  /\ end_line c = group_last_line g
                  /\ dict_get (metadata c) "num_imports"
                     = Some (MInt (Z.of_nat (List.length g))))
         (import_groups (sorted_imports Samples.tree_imports_apart))
         (filter (has_type "import") chunks).
Proof.
  eexists. split; [vm_compute; reflexivity|].
  apply (import_chunks_follow_line_contiguity Samples.runtime default_chunker
           Samples.src_imports_apart "a.py" Samples.tree_imports_apart);
    vm_compute; reflexivity.
Defined.

(** ** Order of the chunks *)

Lemma lines_ascending_app_r (a b : list node) :
  lines_ascending (a ++ b) -> lines_ascending b.
Proof.
  unfold lines_ascending. induction a as [|x a IH]; simpl; [auto|].
  intros H. inversion H; auto.
Qed.

Lemma last_In {A : Type} (a : A) (l : list A) (d : A) : In (last (a :: l) d) (a :: l).
Proof.
  revert a. induction l as [|b l IH]; intros a; [left; reflexivity|].
  right. change (In (last (b :: l) d) (b :: l)). apply IH.
Qed.

Lemma run_first_le_last (g rest : list node) :
  g <> [] ->
  lines_ascending (g ++ rest) ->
  (group_first_line g <= group_last_line g)%Z.
Proof.
  destruct g as [|a g]; [congruence|]. intros _ H.
  unfold group_first_line, group_last_line.
  destruct (last_In a g (Module [])) as [<- | Hin]; [lia|].
  inversion H as [|? ? _ Hall]; subst.
  rewrite Forall_forall in Hall. apply Hall. apply in_or_app. auto.
Qed.

Lemma first_lines_ascending :
  forall gs,
    separated_runs gs ->
    lines_ascending (List.concat gs) ->
    StronglySorted Z.lt (map group_first_line gs).
Proof.
  induction gs as [|g gs IH]; simpl; intros Hsep Hasc; [constructor|].
  destruct Hsep as (Hrun & Hgap & Hrest).
  pose proof (lines_ascending_app_r _ _ Hasc) as Hasc'.
  specialize (IH Hrest Hasc').
  constructor; [exact IH|].
  pose proof (run_first_le_last g _ (contiguous_run_nonempty _ Hrun) Hasc).
  destruct gs as [|h gs]; [constructor|].
  simpl in *. inversion IH as [|? ? _ Hlater]; subst.
  constructor; [lia|].
  eapply Forall_impl; [|exact Hlater]. simpl. intros; lia.
Qed.

Lemma node_block_ordered (rt : Runtime) (self : ASTCodeChunker) (tree : node)
    (source fp : string) (pn : path * node) (block : list CodeChunk) :
  node_block rt self tree source fp pn block -> ordered_block tree pn block.
Proof.
  unfold node_block, ordered_block. cbv zeta.
  destruct (is_ClassDef (snd pn)) eqn:Hc.
  - intros (header & _ & ->).
    eexists. eexists. split; [reflexivity|]. repeat split.
    apply Forall_forall. intros m Hm. apply in_map_iff in Hm.
    destruct Hm as (item & <- & _). split; reflexivity.
  - destruct (is_FunctionDef (snd pn) && negb (_is_nested_function tree pn));
      cbn [andb]; [|auto].
    destruct (sliceable rt source (snd pn)); [|auto].
    intros (s & _ & ->). right. eexists. repeat split.
Qed.

(** C2, as stated, at a text with a docstring, an import and a global
    assignment: no class or method chunk is involved, and the start lines
    [1; 2; 1] are not ascending. *)
Lemma start_lines_not_ascending :
  exists chunks,
    chunk_code Samples.runtime default_chunker
      Samples.src_docstring_import_global "a.py" = Ok chunks
    /\ Forall (fun c => chunk_type c <> "class" /\ chunk_type c <> "method")
         chunks
    /\ map start_line chunks = [1; 2; 1]%Z
    /\ ~ ascending (map start_line chunks).
Proof.
  eexists. split; [vm_compute; reflexivity|].
  split; [repeat constructor; discriminate|].
  split; [reflexivity|].
  intros H. cbn in H.
  inversion H as [|? ? H1 _]; subst.
  inversion H1 as [|? ? _ H2]; subst.
  inversion H2 as [|? ? H3 _]; subst. lia.
Qed.

(** C2, amended.  The chunk list is, in this order: at most one
    [module_docstring] chunk; the import chunks, their start lines strictly
    ascending; at most one [global] chunk, whose start line is 1; and then,
    for the nodes of the tree in the order [ast.walk] meets them: for a
    class, its class chunk directly followed by the chunks of its methods;
    for a [def] that [_is_nested_function] does not report, its function
    chunk or nothing; for any other node, nothing. *)
Theorem chunks_follow_extraction_order (rt : Runtime) (self : ASTCodeChunker)
    (source fp : string) (tree : node) (chunks : list CodeChunk) :
  ast_parse rt source = Parsed tree ->
  chunk_code rt self source fp = Ok chunks ->
  exists doc imports globals blocks,
    chunks = doc ++ imports ++ globals ++ List.concat blocks
    /\ (doc = [] \/ exists c, doc = [c] /\ chunk_type c = "module_docstring")
    /\ Forall (fun c => chunk_type c = "import") imports
    /\ StronglySorted Z.lt (map start_line imports)
    /\ (globals = []
        \/ exists c, globals = [c] /\ chunk_type c = "global"
                     /\ start_line c = 1%Z)
    /\ Forall2 (ordered_block tree) (walk tree) blocks.
Proof.
  intros Hparse Hrun. unfold chunk_code in Hrun. rewrite Hparse in Hrun.
  apply chunk_tree_blocks in Hrun.
  destruct Hrun as (doc & globals & blocks & Hdoc & Hglob & Hblocks & ->).
  exists doc,
    (map (fun g => import_record rt g source)
       (import_groups (sorted_imports tree))),
    (Ast.opt_list globals), blocks.
  split; [reflexivity|].
  split.
  { apply docstring_chunks_preamble in Hdoc.
    destruct Hdoc as [-> | (c & -> & Ht & _)]; eauto. }
  split.
  { apply Forall_forall. intros c Hc. apply in_map_iff in Hc.
    destruct Hc as (g & <- & _). reflexivity. }
  split.
  { rewrite map_map. cbn [start_line import_record].
    destruct (import_groups_spec (sorted_imports tree)) as [Hsep Hcat].
    apply first_lines_ascending; [exact Hsep|].
    rewrite Hcat. apply sort_by_sorted. }
  split.
  { destruct (extract_globals_spec rt tree source) as (g' & Hg' & Hg).
    rewrite Hglob in Hg'. injection Hg' as <-.
    destruct Hg as [-> | (c & -> & Ht & Hs & _)]; simpl; eauto. }
  eapply Forall2_impl; [|exact Hblocks].
  intros pn b. apply node_block_ordered.
Qed.

Lemma chunks_follow_extraction_order_witness :
  exists chunks doc imports globals blocks,
    chunk_code Samples.runtime default_chunker
      Samples.src_module_parts "a.py" = Ok chunks
    /\ map chunk_type chunks
       = ["module_docstring"; "import"; "global"; "class"; "method";
          "function"]
    /\ chunks = doc ++ imports ++ globals ++ List.concat blocks
    /\ (doc = [] \/ exists c, doc = [c] /\ chunk_type c = "module_docstring")
    /\ Forall (fun c => chunk_type c = "import") imports
    /\ StronglySorted Z.lt (map start_line imports)
    /\ (globals = []
        \/ exists c, globals = [c] /\ chunk_type c = "global"
                     /\ start_line c = 1%Z)
    /\ Forall2 (ordered_block Samples.tree_module_parts)
         (walk Samples.tree_module_parts) blocks.
Proof.
  eexists.
  destruct (chunks_follow_extraction_order Samples.runtime default_chunker
              Samples.src_module_parts "a.py"
              Samples.tree_module_parts _
              eq_refl eq_refl)
    as (doc & imports & globals & blocks & H).
  exists doc, imports, globals, blocks.
  split; [reflexivity|]. split; [reflexivity | exact H].
Defined.

(** ** Content and source lines *)

Lemma get_node_source_slice (rt : Runtime) (n : node) (source s : string) :
  lineno_of n <> None ->
  position_ok n ->
  _get_node_source rt n source true = Some s ->
  s = dedented_slice rt source (node_lineno n) (end_line_of n).
Proof.
  unfold position_ok, _get_node_source, dedented_slice, source_lines,
    node_lineno, end_line_of, int_or.
  destruct (lineno_of n) as [l|] eqn:Hl; [|congruence].
  destruct (end_lineno_of n) as [e|] eqn:He.
  - intros _ Hpos. cbn [negb andb].
    rewrite slice_lines by exact Hpos.
    destruct (Z.eqb_spec e 0); [lia|].
    destruct (firstn _ _); [discriminate|].
    intros H. inversion H. reflexivity.
  - discriminate.
Qed.

Lemma Forall2_In_r {A B : Type} (R : A -> B -> Prop) (l : list A) (l' : list B) :
  Forall2 R l l' ->
  forall y, In y l' -> exists x, In x l /\ R x y.
Proof.
  induction 1 as [|x y l l' Hxy _ IH]; intros z Hz; [contradiction|].
  destruct Hz as [<- | Hz].
  - exists x. split; [left; reflexivity | exact Hxy].
  - destruct (IH z Hz) as (x' & Hx' & HR). exists x'. split; [right|]; auto.
Qed.

Lemma class_body_children (n item : node) :
  is_ClassDef n = true ->
  In item (node_body n) -> In item (iter_child_nodes n).
Proof.
  destruct n; try discriminate. simpl. intros _ H.
  apply in_or_app. right. apply in_or_app. right. apply in_or_app. auto.
Qed.

(** A statement of the body of a walked class is walked too. *)
Lemma class_body_walked (tree : node) (p : path) (n item : node) :
  In (p, n) (walk tree) ->
  is_ClassDef n = true ->
  In item (node_body n) ->
  exists q, In (q, item) (walk tree).
Proof.
  intros Hn Hc Hitem.
  apply class_body_children in Hitem; [|exact Hc].
  apply In_nth_error in Hitem. destruct Hitem as (k & Hk).
  exists (p ++ [k]). apply In_walk. apply In_walk in Hn.
  rewrite (subtree_at_app tree p [k] n Hn). simpl. rewrite Hk. reflexivity.
Qed.

Lemma is_FunctionDef_lineno (n : node) :
  is_FunctionDef n = true -> lineno_of n <> None.
Proof. destruct n; simpl; congruence. Qed.

(** C1, as stated, at a class with one method chunked with the default
    settings: the method chunk is no fallback chunk, and its content is not
    the dedented slice of its lines (it starts with the line
    [# In class: A]). *)
Lemma method_content_is_prefixed :
  exists chunks c,
    ast_parse Samples.runtime Samples.src_class_and_function
    = Parsed Samples.tree_class_and_function
    /\ chunk_code Samples.runtime default_chunker
         Samples.src_class_and_function "a.py" = Ok chunks
    /\ In c chunks
    /\ chunk_type c = "method"
    /\ dict_get (metadata c) "fallback" = None
    /\ content c
       <> dedented_source_slice Samples.runtime Samples.src_class_and_function
            (start_line c) (end_line c).
Proof.
  eexists. eexists. split; [reflexivity|].
  split; [vm_compute; reflexivity|].
  split; [right; left; reflexivity|].
  split; [reflexivity|]. split; [reflexivity|].
  vm_compute. discriminate.
Qed.

(** What [_get_node_source] cuts for the function and method chunks: the
    lines of [splitlines] between [start_line] and [end_line]. *)
Lemma definition_content_is_cut_from_splitlines (rt : Runtime)
    (self : ASTCodeChunker) (source fp : string) (tree : node)
    (chunks : list CodeChunk) :
  ast_parse rt source = Parsed tree ->
  chunk_code rt self source fp = Ok chunks ->
  (forall p n, In (p, n) (walk tree) -> is_FunctionDef n = true -> position_ok n) ->
  Forall (fun c =>
            (chunk_type c = "function" ->
             content c = dedented_slice rt source (start_line c) (end_line c))
            /\ (chunk_type c = "method" ->
                exists class_name,
                  parent_context c = Some class_name
                  /\ content c
                     = method_text self class_name
                         (dedented_slice rt source (start_line c) (end_line c))))
    chunks.
Proof.
  intros Hparse Hrun Hpos. unfold chunk_code in Hrun. rewrite Hparse in Hrun.
  apply chunk_tree_blocks in Hrun.
  destruct Hrun as (doc & globals & blocks & Hdoc & Hglob & Hblocks & ->).
  repeat (apply Forall_app; split).
  - apply docstring_chunks_preamble in Hdoc.
    destruct Hdoc as [-> | (c & -> & Ht & _)]; auto.
    constructor; [|constructor]. rewrite Ht. split; discriminate.
  - apply Forall_forall. intros c Hc. apply in_map_iff in Hc.
    destruct Hc as (g & <- & _). split; discriminate.
  - apply globals_chunk_preamble in Hglob.
    destruct Hglob as [-> | (c & -> & Ht & _)]; simpl; auto.
    constructor; [|constructor]. rewrite Ht. split; discriminate.
  - apply Forall_concat. apply Forall_forall. intros block Hblock.
    destruct (Forall2_In_r _ _ _ Hblocks block Hblock) as ((p & n) & Hn & Hb).
    unfold node_block in Hb. cbv zeta in Hb. cbn [snd] in Hb.
    destruct (is_ClassDef n) eqn:Hc.
    + destruct Hb as (header & _ & ->). constructor.
      * split; discriminate.
      * apply Forall_forall. intros m Hm. apply in_map_iff in Hm.
        destruct Hm as (item & <- & Hitem).
        apply filter_In in Hitem. destruct Hitem as (Hbody & Hf).
        apply andb_prop in Hf. destruct Hf as (Hdef & Hslice).
        split; [discriminate|]. intros _. exists (node_name n).
        split; [reflexivity|]. cbn [content start_line end_line method_record].
        f_equal. unfold sliceable in Hslice.
        destruct (_get_node_source rt item source true) as [s|] eqn:Hs;
          [|discriminate].
        destruct (class_body_walked tree p n item Hn Hc Hbody) as (q & Hq).
        apply (get_node_source_slice rt item source s);
          [apply is_FunctionDef_lineno; exact Hdef | eauto | exact Hs].
    + destruct (is_FunctionDef n) eqn:Hf; cbn [andb] in Hb;
        [|subst block; constructor].
      destruct (negb (_is_nested_function tree (p, n)) && sliceable rt source n);
        [|subst block; constructor].
      destruct Hb as (s & Hs & ->). constructor; [|constructor].
      split; [|discriminate]. intros _.
      cbn [content start_line end_line function_record].
      apply (get_node_source_slice rt n source s);
        [apply is_FunctionDef_lineno; exact Hf | eauto | exact Hs].
Qed.

(** [splitlines] and the parser number the lines alike when the text has no
    line boundary of [splitlines] alone. *)
Lemma splitlines_from_parser_lines (k : nat) :
  forall s cur pending,
    String.length s <= k ->
    parser_line_ends_only s = true ->
    splitlines_from cur pending s = parser_lines_from cur pending s.
Proof.
  induction k as [|k IH]; intros s cur pending Hlen Hs;
    destruct s as [|c rest]; try reflexivity; simpl in Hlen; [lia|].
  cbn [parser_line_ends_only] in Hs. apply andb_prop in Hs.
  destruct Hs as [Hc Hrest].
  cbn [splitlines_from parser_lines_from].
  destruct (Ascii.eqb c CR).
  - destruct rest as [|c' rest']; [reflexivity|].
    assert (Hrest' : parser_line_ends_only rest' = true).
    { cbn [parser_line_ends_only] in Hrest. apply andb_prop in Hrest. tauto. }
    simpl in Hlen.
    destruct (Ascii.eqb c' LF); f_equal; apply IH; simpl; try lia; auto.
  - destruct (Ascii.eqb c LF) eqn:Hlf.
    + apply Ascii.eqb_eq in Hlf. subst c.
      change (is_linebreak LF) with true. cbn iota.
      f_equal. apply IH; [lia | exact Hrest].
    + destruct (is_linebreak c); [discriminate|].
      apply IH; [lia | exact Hrest].
Qed.

Lemma splitlines_parser_lines (source : string) :
  parser_line_ends_only source = true ->
  splitlines source = parser_lines source.
Proof.
  intros H. unfold splitlines, parser_lines.
  apply (splitlines_from_parser_lines (String.length source)); auto.
Qed.

Lemma dedented_slice_parser_lines (rt : Runtime) (source : string)
    (first last : Z) :
  parser_line_ends_only source = true ->
  dedented_slice rt source first last
  = dedented_source_slice rt source first last.
Proof.
  intros H.
  unfold dedented_slice, dedented_source_slice, source_lines, numbered_lines.
  rewrite (splitlines_parser_lines source H). reflexivity.
Qed.

(** C1, amended.  For a text whose line ends are the ones the parser counts
    and whose [def] nodes have the position the parser records
    ([1 <= lineno <= end_lineno]), the content of each [function] chunk is
    the dedented slice of the source between its [start_line] and its
    [end_line]; the content of each [method] chunk is that slice too when
    [include_context] is off, and that slice after the line
    [# In class: <parent_context>] when it is on. *)
Theorem function_and_method_content_is_source_slice (rt : Runtime)
    (self : ASTCodeChunker) (source fp : string) (tree : node)
    (chunks : list CodeChunk) :
  ast_parse rt source = Parsed tree ->
  chunk_code rt self source fp = Ok chunks ->
  parser_line_ends_only source = true ->
  (forall p n, In (p, n) (walk tree) -> is_FunctionDef n = true -> position_ok n) ->
  Forall (fun c =>
            (chunk_type c = "function" ->
             content c
             = dedented_source_slice rt source (start_line c) (end_line c))
            /\ (chunk_type c = "method" ->
                exists class_name,
                  parent_context c = Some class_name
                  /\ content c
                     = method_text self class_name
                         (dedented_source_slice rt source
                            (start_line c) (end_line c))))
    chunks.
Proof.
  intros Hparse Hrun Hends Hpos.
  pose proof (definition_content_is_cut_from_splitlines rt self source fp
                tree chunks Hparse Hrun Hpos) as H.
  eapply Forall_impl; [|exact H].
  intros c [Hf Hm]. split.
  - intros Ht. rewrite <- dedented_slice_parser_lines by exact Hends. auto.
  - intros Ht. destruct (Hm Ht) as (class_name & Hp & Hc).
    exists class_name. split; [exact Hp|].
    rewrite <- dedented_slice_parser_lines by exact Hends. exact Hc.
Qed.

Lemma function_and_method_content_is_source_slice_witness :
  exists chunks,
    chunk_code Samples.runtime default_chunker Samples.src_class_and_function
      "a.py" = Ok chunks
    /\ map chunk_type chunks = ["class"; "method"; "function"]
    /\ Forall (fun c =>
            (chunk_type c = "function" ->
             content c
             = dedented_source_slice Samples.runtime
                 Samples.src_class_and_function (start_line c) (end_line c))
            /\ (chunk_type c = "method" ->
                exists class_name,
                  parent_context c = Some class_name
                  /\ content c
                     = method_text default_chunker class_name
                         (dedented_source_slice Samples.runtime
                            Samples.src_class_and_function
                            (start_line c) (end_line c))))
         chunks.
Proof.
  eexists. split; [vm_compute; reflexivity|].
  split; [reflexivity|].
  apply (function_and_method_content_is_source_slice Samples.runtime
           default_chunker Samples.src_class_and_function "a.py"
           Samples.tree_class_and_function).
  - reflexivity.
  - vm_compute. reflexivity.
  - vm_compute. reflexivity.
  - intros p n Hin Hdef. vm_compute in Hin.
    repeat (destruct Hin as [Hin | Hin];
            [inversion Hin; subst; try discriminate; vm_compute;
             split; discriminate|]).
    contradiction.
Defined.

(** ** Classes and their methods *)

Lemma Forall2_map_In {A B : Type} (R : A -> B -> Prop) (f : A -> B) :
  forall l, (forall x, In x l -> R x (f x)) -> Forall2 R l (map f l).
Proof.
  induction l as [|x l IH]; simpl; intros H; constructor.
  - apply H. left. reflexivity.
  - apply IH. intros y Hy. apply H. right. exact Hy.
Qed.

Lemma chunked_methods_all (rt : Runtime) (source : string) :
  forall body,
    Forall (fun item => sliceable rt source item = true)
      (filter is_FunctionDef body) ->
    chunked_methods rt source body = filter is_FunctionDef body.
Proof.
  unfold chunked_methods.
  induction body as [|item body IH]; simpl; intros H; [reflexivity|].
  destruct (is_FunctionDef item); simpl.
  - inversion H as [|? ? Hs Hrest]; subst. rewrite Hs, IH by exact Hrest.
    reflexivity.
  - apply IH. exact H.
Qed.

Lemma preamble_chunks (rt : Runtime) (tree : node) (source fp : string)
    (doc : list CodeChunk) (globals : option CodeChunk) :
  module_docstring_chunk rt tree fp = Ok doc ->
  _extract_globals rt tree source = Ok globals ->
  Forall (fun c => is_preamble c /\ parent_context c = None)
    (doc ++ map (fun g => import_record rt g source)
              (import_groups (sorted_imports tree))
         ++ Ast.opt_list globals).
Proof.
  intros Hdoc Hglob. unfold is_preamble.
  repeat (apply Forall_app; split).
  - apply docstring_chunks_preamble in Hdoc.
    destruct Hdoc as [-> | (c & -> & Ht & _ & Hp & _)]; auto.
  - apply Forall_forall. intros c Hc. apply in_map_iff in Hc.
    destruct Hc as (g & <- & _). cbn. auto.
  - apply globals_chunk_preamble in Hglob.
    destruct Hglob as [-> | (c & -> & Ht & _ & Hp & _)]; simpl; auto.
Qed.

Lemma preamble_not_definition (c : CodeChunk) :
  is_preamble c ->
  has_type "class" c = false /\ has_type "method" c = false
  /\ has_type "function" c = false.
Proof.
  unfold is_preamble, has_type.
  intros [-> | [-> | ->]]; repeat split; reflexivity.
Qed.

Lemma node_block_class (rt : Runtime) (self : ASTCodeChunker) (tree : node)
    (source fp : string) (pn : path * node) (block : list CodeChunk) :
  node_block rt self tree source fp pn block -> class_block rt source pn block.
Proof.
  unfold node_block, class_block. cbv zeta.
  destruct (is_ClassDef (snd pn)).
  - intros (header & _ & ->).
    eexists. eexists. split; [reflexivity|].
    split; [reflexivity|]. split; [reflexivity|]. split.
    + apply Forall2_map_In. intros item _. repeat split.
    + intros Hall. rewrite length_map, chunked_methods_all by exact Hall.
      reflexivity.
  - destruct (is_FunctionDef (snd pn) && negb (_is_nested_function tree pn)
              && sliceable rt source (snd pn)).
    + intros (s & _ & ->). constructor; [|constructor]. split; reflexivity.
    + intros ->. constructor.
Qed.

(** What holds of classes whenever [chunk_code] returns for a parsed text:
    the chunks cut from definitions follow the walk of the tree, each class
    contributes one [class] chunk directly followed by one [method] chunk
    for each direct method that [_get_node_source] can cut, and
    [parent_context] is [None] on every chunk that is not a method chunk. *)
Lemma class_blocks_follow_the_walk (rt : Runtime) (self : ASTCodeChunker)
    (source fp : string) (tree : node) (chunks : list CodeChunk) :
  ast_parse rt source = Parsed tree ->
  chunk_code rt self source fp = Ok chunks ->
  (exists head blocks,
      chunks = head ++ List.concat blocks
      /\ Forall (fun c => has_type "class" c = false
                          /\ has_type "method" c = false) head
      /\ Forall2 (class_block rt source) (walk tree) blocks)
  /\ Forall (fun c => chunk_type c <> "method" -> parent_context c = None)
       chunks.
Proof.
  intros Hparse Hrun. unfold chunk_code in Hrun. rewrite Hparse in Hrun.
  apply chunk_tree_blocks in Hrun.
  destruct Hrun as (doc & globals & blocks & Hdoc & Hglob & Hblocks & ->).
  pose proof (preamble_chunks rt tree source fp doc globals Hdoc Hglob) as Hpre.
  rewrite !app_assoc. rewrite <- (app_assoc doc). split.
  - eexists. exists blocks. split; [reflexivity|]. split.
    + eapply Forall_impl; [|exact Hpre].
      intros c (Hc & _). apply preamble_not_definition in Hc. tauto.
    + eapply Forall2_impl; [|exact Hblocks].
      intros pn b. apply node_block_class.
  - apply Forall_app. split.
    + eapply Forall_impl; [|exact Hpre]. simpl. tauto.
    + apply Forall_concat.
      induction Hblocks as [|pn b ? ? Hb _ IH]; constructor; [|exact IH].
      eapply Forall_impl; [|exact (node_block_chunks _ _ _ _ _ _ _ Hb)].
      simpl. tauto.
Qed.

(** C8, at a class with one direct method and no nested class, below two
    page-break lines.  The text parses, the class on line 3 and its method
    on line 4.  [chunk_code] returns the class chunk alone: the chunk counts
    one method and lists its signature, its content has lost the header
    line of the class, and there is no method chunk. *)
Theorem class_method_without_chunk :
  ast_parse Samples.runtime Samples.src_page_breaks_class
  = Parsed (Module [ClassDef "A" [] []
                      [FunctionDef "m" ["self"] [Samples.Pass 4] [] None 4 4]
                      [] 3 4])
  /\ splitlines Samples.src_page_breaks_class
     = [""; ""; ""; ""; "class A:"; "  def m(self): pass"]
  /\ exists c,
       chunk_code Samples.runtime default_chunker
         Samples.src_page_breaks_class "a.py" = Ok [c]
       /\ chunk_type c = "class"
       /\ dict_get (metadata c) "num_methods" = Some (MInt 1)
       /\ content c
          = (nl ++ nl ++ "    # Methods:" ++ nl ++ "    def m(self): ...")%string.
Proof.
  split; [reflexivity|]. split; [reflexivity|].
  eexists. split; [vm_compute; reflexivity|].
  repeat split.
Qed.


(** ** Standalone functions *)

Lemma is_ClassDef_not_FunctionDef (n : node) :
  is_ClassDef n = true -> is_FunctionDef n = false.
Proof. destruct n; simpl; congruence. Qed.

Lemma NoDup_map_filter {A B : Type} (f : A -> B) (p : A -> bool) :
  forall l, NoDup (map f l) -> NoDup (map f (filter p l)).
Proof.
  induction l as [|x l IH]; simpl; intros H; [constructor|].
  inversion H as [|? ? Hx Hl]; subst.
  destruct (p x); simpl; [|auto].
  constructor; [|auto].
  intros Hin. apply Hx. apply in_map_iff in Hin.
  destruct Hin as (y & Hy & Hin). apply filter_In in Hin.
  apply in_map_iff. exists y. tauto.
Qed.

(** The function chunks of the definition blocks, one for each function
    that is kept, in walk order. *)
Lemma function_chunks_of_blocks (rt : Runtime) (self : ASTCodeChunker)
    (tree : node) (source fp : string) :
  forall walked blocks,
    Forall2 (node_block rt self tree source fp) walked blocks ->
    Forall2 (fun pn c =>
               start_line c = node_lineno (snd pn)
               /\ end_line c = end_line_of (snd pn)
               /\ dict_get (metadata c) "function_name"
                  = Some (MStr (node_name (snd pn)))
               /\ _get_node_source rt (snd pn) source true = Some (content c))
      (filter (fun pn => is_FunctionDef (snd pn)
                         && negb (_is_nested_function tree pn)
                         && sliceable rt source (snd pn)) walked)
      (filter (has_type "function") (List.concat blocks)).
Proof.
  induction 1 as [|pn b walked blocks Hb _ IH]; [constructor|].
  cbn [filter List.concat]. rewrite filter_app.
  unfold node_block in Hb. cbv zeta in Hb.
  destruct (is_ClassDef (snd pn)) eqn:Hc.
  - rewrite (is_ClassDef_not_FunctionDef _ Hc). cbn [andb].
    destruct Hb as (header & _ & ->).
    replace (filter (has_type "function") _) with (@nil CodeChunk);
      [exact IH|].
    symmetry. apply filter_none. constructor; [reflexivity|].
    apply Forall_forall. intros m Hm. apply in_map_iff in Hm.
    destruct Hm as (item & <- & _). reflexivity.
  - destruct (is_FunctionDef (snd pn) && negb (_is_nested_function tree pn)
              && sliceable rt source (snd pn)).
    + destruct Hb as (s & Hs & ->). cbn. constructor; [|exact IH].
      repeat split. exact Hs.
    + subst b. exact IH.
Qed.

Lemma top_level_not_nested (body : list node) (i : nat) (f : node) :
  _is_nested_function (Module body) ([i], f) = false.
Proof.
  apply Bool.not_true_is_false. unfold _is_nested_function. intros H.
  apply existsb_exists in H. destruct H as ((q & m) & Hqm & H).
  cbn [fst snd] in H.
  apply andb_prop in H. destruct H as (H & Hbelow).
  apply andb_prop in H. destruct H as (Hkind & Hother).
  apply existsb_exists in Hbelow. destruct Hbelow as ((r & c) & Hrc & Hr).
  cbn [fst] in Hr. apply path_eqb_eq in Hr. subst r.
  apply In_walk_from in Hrc. destruct Hrc as (d & Hd & _).
  apply In_walk in Hqm.
  destruct q as [|k q].
  - simpl in Hqm. inversion Hqm; subst m. discriminate.
  - destruct q; [|destruct q; discriminate].
    simpl in Hd. inversion Hd; subst.
    rewrite path_eqb_refl in Hother. discriminate.
Qed.

Lemma nested_below_definition (tree : node) (q d : path) (m f g : node) :
  subtree_at tree q = Some m ->
  is_ClassDef m || is_FunctionDef m = true ->
  d <> [] ->
  subtree_at m d = Some f ->
  _is_nested_function tree (q ++ d, g) = true.
Proof.
  intros Hm Hkind Hd Hf. unfold _is_nested_function.
  apply existsb_exists. exists (q, m). split; [apply In_walk; exact Hm|].
  cbn [fst snd]. rewrite Hkind. cbn [andb].
  apply andb_true_intro. split.
  - apply negb_true_iff. apply Bool.not_true_is_false. intros E.
    apply path_eqb_eq in E. apply Hd.
    apply (app_inv_head q). rewrite app_nil_r. symmetry. exact E.
  - apply existsb_exists. exists (q ++ d, f). split.
    + apply In_walk_from. eauto.
    + apply path_eqb_refl.
Qed.

(** What holds of functions whenever [chunk_code] returns for a parsed
    module: the [function] chunks are, one each and in walk order, the
    chunks of the [def] nodes that [_is_nested_function] does not report
    and that [_get_node_source] can cut; no node is listed twice, and a
    [def] below a class or below another [def] is none of them. *)
Lemma function_chunks_follow_the_walk (rt : Runtime)
    (self : ASTCodeChunker) (source fp : string) (body : list node)
    (chunks : list CodeChunk) :
  ast_parse rt source = Parsed (Module body) ->
  chunk_code rt self source fp = Ok chunks ->
  let tree := Module body in
  let functions := chunked_functions rt tree source in
  Forall2 (fun pn c =>
             start_line c = node_lineno (snd pn)
             /\ end_line c = end_line_of (snd pn)
             /\ dict_get (metadata c) "function_name"
                = Some (MStr (node_name (snd pn)))
             /\ _get_node_source rt (snd pn) source true = Some (content c))
    functions (filter (has_type "function") chunks)
  /\ NoDup (map fst functions)
  /\ (forall i f,
         nth_error body i = Some f ->
         is_FunctionDef f = true ->
         sliceable rt source f = true ->
         In ([i], f) functions)
  /\ (forall q d m f,
         subtree_at tree q = Some m ->
         is_ClassDef m || is_FunctionDef m = true ->
         d <> [] ->
         subtree_at m d = Some f ->
         ~ In (q ++ d) (map fst functions)).
Proof.
  intros Hparse Hrun. cbv zeta.
  unfold chunk_code in Hrun. rewrite Hparse in Hrun.
  apply chunk_tree_blocks in Hrun.
  destruct Hrun as (doc & globals & blocks & Hdoc & Hglob & Hblocks & ->).
  split; [|split; [|split]].
  - pose proof (preamble_chunks rt _ source fp doc globals Hdoc Hglob) as Hpre.
    rewrite !app_assoc. rewrite <- (app_assoc doc). rewrite filter_app.
    rewrite (filter_none (has_type "function")
               (doc ++ _ ++ Ast.opt_list globals)).
    + apply (function_chunks_of_blocks rt self (Module body) source fp).
      exact Hblocks.
    + eapply Forall_impl; [|exact Hpre].
      intros c (Hc & _). apply preamble_not_definition in Hc. tauto.
  - apply NoDup_map_filter. apply walk_NoDup.
  - intros i f Hi Hdef Hslice. apply filter_In. split.
    + apply In_walk. simpl. rewrite Hi. reflexivity.
    + cbn [snd]. rewrite Hdef, Hslice, top_level_not_nested. reflexivity.
  - intros q d m f Hm Hkind Hd Hf Hin.
    apply in_map_iff in Hin. destruct Hin as ((p & g) & Hp & Hin).
    cbn [fst] in Hp. subst p.
    apply filter_In in Hin. destruct Hin as (_ & Hcond).
    apply andb_prop in Hcond. destruct Hcond as (Hcond & _).
    apply andb_prop in Hcond. destruct Hcond as (_ & Hfree).
    apply negb_true_iff in Hfree.
    pose proof (nested_below_definition _ q d m f g Hm Hkind Hd Hf) as Hnested.
    pose proof (eq_trans (eq_sym Hnested) Hfree). discriminate.
Qed.

(** C9, at two texts that parse.  A top-level function below two
    page-break lines gets no chunk: the chunk list is empty.  A function
    defined inside an [async def] gets a chunk of its own. *)
Theorem top_level_function_lost_and_nested_function_chunked :
  (ast_parse Samples.runtime Samples.src_page_breaks_function
   = Parsed (Module [FunctionDef "f" [] [Samples.Pass 3] [] None 3 3])
   /\ splitlines Samples.src_page_breaks_function
      = [""; ""; ""; ""; "def f(): pass"]
   /\ chunk_code Samples.runtime default_chunker
        Samples.src_page_breaks_function "a.py" = Ok [])
  /\ (ast_parse Samples.runtime Samples.src_async_outer
      = Parsed (Module [AsyncFunctionDef "outer" []
                          [FunctionDef "inner" [] [Samples.Pass 3] [] None 2 3]
                          [] None 1 3])
      /\ exists c,
           chunk_code Samples.runtime default_chunker Samples.src_async_outer
             "a.py" = Ok [c]
           /\ chunk_type c = "function"
           /\ dict_get (metadata c) "function_name" = Some (MStr "inner")
           /\ (start_line c, end_line c) = (2, 3)%Z).
Proof.
  split.
  - split; [reflexivity|]. split; [reflexivity|]. vm_compute. reflexivity.
  - split; [reflexivity|]. eexists. split; [vm_compute; reflexivity|].
    repeat split.
Qed.

(** ** Async definitions *)

Lemma is_FunctionDef_not_async (n : node) :
  is_FunctionDef n = true -> is_AsyncFunctionDef n = false.
Proof. destruct n; simpl; congruence. Qed.

Lemma node_block_sync (rt : Runtime) (self : ASTCodeChunker) (tree : node)
    (source fp : string) (pn : path * node) (block : list CodeChunk) :
  node_block rt self tree source fp pn block -> sync_block rt source pn block.
Proof.
  unfold node_block, sync_block. cbv zeta.
  destruct (snd pn) as
    [ body | name args body decs returns l e | name args body decs returns l e
    | name bases keywords body decs l e | | | | | | | | ] eqn:Hn;
    cbn [is_ClassDef is_FunctionDef andb]; try (intros ->; reflexivity).
  - (* FunctionDef *)
    destruct (negb (_is_nested_function tree pn)
              && sliceable rt source
                   (FunctionDef name args body decs returns l e)).
    + intros (s & _ & ->). right. eexists. repeat split.
    + auto.
  - (* ClassDef *)
    intros (header & Hheader & ->).
    eexists. eexists. split; [reflexivity|].
    split; [reflexivity|]. split; [reflexivity|]. split.
    + exists header. split; [exact Hheader | reflexivity].
    + apply Forall2_map_In. intros item Hitem.
      apply filter_In in Hitem. destruct Hitem as (_ & Hf).
      apply andb_prop in Hf. destruct Hf as (Hdef & _).
      repeat split; auto. apply is_FunctionDef_not_async. exact Hdef.
Qed.

(** C10.  Whenever [chunk_code] returns for a parsed text, every chunk is a
    docstring, import or global chunk or belongs to the block of one node of
    the walk, and the block of an [async def] is empty: an async function
    gives no [function] chunk.  The block of a class holds, after the
    overview, one [method] chunk for each [def] of the body that can be
    sliced and none for an [async def]; [num_methods] counts the [def]
    statements of the body only, and the overview is the header of the
    class, its docstring if it has one, and the signatures of those [def]
    statements only. *)
Theorem async_definitions_yield_no_chunk (rt : Runtime)
    (self : ASTCodeChunker) (source fp : string) (tree : node)
    (chunks : list CodeChunk) :
  ast_parse rt source = Parsed tree ->
  chunk_code rt self source fp = Ok chunks ->
  exists head blocks,
    chunks = head ++ List.concat blocks
    /\ Forall is_preamble head
    /\ Forall2 (sync_block rt source) (walk tree) blocks.
Proof.
  intros Hparse Hrun. unfold chunk_code in Hrun. rewrite Hparse in Hrun.
  apply chunk_tree_blocks in Hrun.
  destruct Hrun as (doc & globals & blocks & Hdoc & Hglob & Hblocks & ->).
  pose proof (preamble_chunks rt tree source fp doc globals Hdoc Hglob) as Hpre.
  rewrite !app_assoc. rewrite <- (app_assoc doc).
  eexists. exists blocks. split; [reflexivity|]. split.
  - eapply Forall_impl; [|exact Hpre]. simpl. tauto.
  - eapply Forall2_impl; [|exact Hblocks].
    intros pn b. apply node_block_sync.
Qed.

Lemma async_definitions_yield_no_chunk_witness :
  exists chunks head blocks,
    chunk_code Samples.runtime default_chunker Samples.src_async_members
      "a.py" = Ok chunks
    /\ chunks = head ++ List.concat blocks
    /\ Forall is_preamble head
    /\ Forall2 (sync_block Samples.runtime Samples.src_async_members)
         (walk Samples.tree_async_members) blocks.
Proof.
  eexists.
  destruct (async_definitions_yield_no_chunk Samples.runtime default_chunker
              Samples.src_async_members "a.py" Samples.tree_async_members _
              eq_refl eq_refl)
    as (head & blocks & H).
  exists head, blocks. split; [reflexivity | exact H].
Defined.

(** ** The samples, evaluated *)

(** The example of the specification: one import chunk for lines 1-2 with
    two statements, one function chunk for lines 4-5 with no argument. *)
Example imports_and_function_chunks :
  match chunk_code Samples.runtime default_chunker
          Samples.src_imports_and_function "a.py" with
  | Ok [i; f] =>
      (chunk_type i, start_line i, end_line i,
       dict_get (metadata i) "num_imports")
      = ("import", 1%Z, 2%Z, Some (MInt 2))
      /\ (chunk_type f, start_line f, end_line f,
          dict_get (metadata f) "num_args")
         = ("function", 4%Z, 5%Z, Some (MInt 0))
  | _ => False
  end.
Proof. vm_compute. split; reflexivity. Qed.

(** A [def] inside an [async def] is chunked as a standalone function:
    [_is_nested_function] looks for [ClassDef] and [FunctionDef] parents
    only. *)
Example def_inside_async_def_is_chunked :
  match chunk_code Samples.runtime default_chunker Samples.src_async_outer
          "a.py" with
  | Ok [c] =>
      (chunk_type c, start_line c, end_line c,
       dict_get (metadata c) "function_name")
      = ("function", 2%Z, 3%Z, Some (MStr "inner"))
  | _ => False
  end.
Proof. vm_compute. reflexivity. Qed.

(** Async members of a class and async functions of a module: one class
    chunk that counts one method, one method chunk, nothing else. *)
Example async_members_chunks :
  match chunk_code Samples.runtime default_chunker Samples.src_async_members
          "a.py" with
  | Ok [c; m] =>
      (chunk_type c, dict_get (metadata c) "num_methods")
      = ("class", Some (MInt 1))
      /\ (chunk_type m, dict_get (metadata m) "method_name")
         = ("method", Some (MStr "n"))
  | _ => False
  end.
Proof. vm_compute. split; reflexivity. Qed.

(** [chunk_code] raises on the one-line class. *)
Example one_line_class_raises :
  chunk_code Samples.runtime default_chunker Samples.src_one_line_class "a.py"
  = Raise TypeError.
Proof. vm_compute. reflexivity. Qed.

(* ================================================================== *)
(** * Further properties of [ASTCodeChunker] *)
(* ================================================================== *)

(** ** When [chunk_code] raises *)

Lemma Forall2_In_l {A B : Type} (R : A -> B -> Prop) (l : list A) (l' : list B) :
  Forall2 R l l' ->
  forall x, In x l -> exists y, In y l' /\ R x y.
Proof.
  induction 1 as [|x y l l' Hxy _ IH]; intros z Hz; [contradiction|].
  destruct Hz as [<- | Hz].
  - exists y. split; [left; reflexivity | exact Hxy].
  - destruct (IH z Hz) as (y' & Hy' & HR). exists y'. split; [right|]; auto.
Qed.

Lemma collect_raises {A : Type} (f : A -> result (list CodeChunk)) :
  forall xs x e,
    In x xs -> f x = Raise e -> exists e', collect f xs = Raise e'.
Proof.
  intros xs x e Hin Hx.
  destruct (collect f xs) as [cs|e'] eqn:E; [|eauto].
  apply collect_inv in E. destruct E as (blocks & HF & _).
  destruct (Forall2_In_l _ _ _ HF x Hin) as (b & _ & Hb). congruence.
Qed.

Lemma definition_chunks_class_header_missing (rt : Runtime)
    (self : ASTCodeChunker) (tree : node) (source fp : string)
    (pn : path * node) :
  is_ClassDef (snd pn) = true ->
  _get_node_source rt (snd pn) source false = None ->
  definition_chunks rt self tree source fp pn = Raise TypeError.
Proof.
  intros Hc Hh. unfold definition_chunks. rewrite Hc, extract_class_spec, Hh.
  reflexivity.
Qed.

(** X1.  For a text that parses, [chunk_code] raises exactly when the tree
    holds a class whose header lines cannot be sliced, and what it raises
    is [TypeError]; in every other case it returns a chunk list. *)
Theorem chunk_code_raises_iff_class_header_missing (rt : Runtime)
    (self : ASTCodeChunker) (source fp : string) (tree : node) :
  ast_parse rt source = Parsed tree ->
  (chunk_code rt self source fp = Raise TypeError
   <-> exists p n, In (p, n) (walk tree)
                   /\ is_ClassDef n = true
                   /\ _get_node_source rt n source false = None)
  /\ (forall e, chunk_code rt self source fp = Raise e -> e = TypeError).
Proof.
  intros Hparse. split; [|apply chunk_code_raises_only_TypeError].
  unfold chunk_code. rewrite Hparse. unfold chunk_tree.
  destruct (module_docstring_chunk_spec rt tree fp) as (doc & -> & _).
  rewrite extract_imports_spec.
  destruct (extract_globals_spec rt tree source) as (globals & -> & _).
  cbn [bind]. split.
  - intros H.
    destruct (collect (definition_chunks rt self tree source fp) (walk tree))
      as [defs|e] eqn:E; cbn [bind] in H; [discriminate|].
    apply collect_raise_inv in E. destruct E as ((p & n) & Hin & Hpn).
    apply definition_chunks_raise in Hpn. exists p, n. tauto.
  - intros (p & n & Hin & Hc & Hh).
    pose proof (definition_chunks_class_header_missing rt self tree source fp
                  (p, n) Hc Hh) as Hpn.
    destruct (collect_raises _ _ _ _ Hin Hpn) as (e' & E).
    rewrite E. cbn [bind].
    apply collect_raise_inv in E. destruct E as (pn' & _ & Hpn').
    apply definition_chunks_raise in Hpn'. destruct Hpn' as (-> & _).
    reflexivity.
Qed.

Lemma chunk_code_raises_iff_class_header_missing_witness :
  chunk_code Samples.runtime default_chunker Samples.src_one_line_class "a.py"
  = Raise TypeError
  <-> exists p n, In (p, n) (walk Samples.tree_one_line_class)
                  /\ is_ClassDef n = true
                  /\ _get_node_source Samples.runtime n
                       Samples.src_one_line_class false = None.
Proof.
  apply (chunk_code_raises_iff_class_header_missing Samples.runtime
           default_chunker Samples.src_one_line_class "a.py"
           Samples.tree_one_line_class).
  reflexivity.
Defined.

Lemma slice_empty {A : Type} (l : list A) (start stop : Z) :
  (0 <= stop <= start)%Z -> slice l start stop = [].
Proof.
  intros H. unfold slice, clamp_index.
  destruct (Z.ltb_spec start 0); [lia|].
  destruct (Z.ltb_spec stop 0); [lia|].
  replace (Z.to_nat _) with 0 by lia. reflexivity.
Qed.

(** X2.  A class whose first body statement starts on the line of the
    [class] keyword (or before it) makes [chunk_code] raise [TypeError],
    whatever else the text holds. *)
Theorem class_body_on_header_line_raises (rt : Runtime)
    (self : ASTCodeChunker) (source fp : string) (tree : node) (p : path)
    (name : string) (bases keywords body decorator_list : list node)
    (first : node) (lineno end_lineno first_line : Z) :
  ast_parse rt source = Parsed tree ->
  In (p, ClassDef name bases keywords (first :: body) decorator_list
           lineno end_lineno) (walk tree) ->
  lineno_of first = Some first_line ->
  (1 <= first_line <= lineno)%Z ->
  chunk_code rt self source fp = Raise TypeError.
Proof.
  intros Hparse Hin Hfirst Hlines.
  apply (chunk_code_raises_iff_class_header_missing rt self source fp tree
           Hparse).
  eexists. eexists. split; [exact Hin|]. split; [reflexivity|].
  unfold _get_node_source. cbn. rewrite Hfirst.
  rewrite slice_empty by lia. reflexivity.
Qed.

Lemma class_body_on_header_line_raises_witness :
  chunk_code Samples.runtime default_chunker Samples.src_one_line_class "a.py"
  = Raise TypeError.
Proof.
  apply (class_body_on_header_line_raises Samples.runtime default_chunker
           Samples.src_one_line_class "a.py" Samples.tree_one_line_class
           [0] "A" [] [] [] [] (Samples.Pass 1) 1 1 1).
  - reflexivity.
  - vm_compute. right. left. reflexivity.
  - reflexivity.
  - lia.
Defined.

(** ** File paths and line ranges *)

(** X4.  Of the chunks [chunk_code] returns, the [import] and [global]
    chunks carry the whole source text in [file_path]; every other chunk
    (docstring, class, method, function, fallback block) carries the
    [file_path] argument. *)
Theorem chunk_code_file_paths (rt : Runtime) (self : ASTCodeChunker)
    (source fp : string) (chunks : list CodeChunk) :
  chunk_code rt self source fp = Ok chunks ->
  Forall (fun c =>
            if has_type "import" c || has_type "global" c
            then file_path c = source
            else file_path c = fp)
    chunks.
Proof.
  unfold chunk_code. destruct (ast_parse rt source) as [tree|].
  - apply chunk_tree_file_paths.
  - unfold _fallback_chunk. apply collect_Forall.
    intros i cs Hi. rewrite fallback_window_spec in Hi.
    inversion Hi; subst. constructor; [reflexivity | constructor].
Qed.

Lemma chunk_code_file_paths_witness :
  exists chunks,
    chunk_code Samples.runtime default_chunker
      Samples.src_imports_and_function "a.py" = Ok chunks
    /\ Forall (fun c =>
                 if has_type "import" c || has_type "global" c
                 then file_path c = Samples.src_imports_and_function
                 else file_path c = "a.py")
         chunks.
Proof.
  eexists. split; [vm_compute; reflexivity|].
  apply (chunk_code_file_paths Samples.runtime default_chunker
           Samples.src_imports_and_function "a.py").
  vm_compute. reflexivity.
Defined.

(** ** Line ranges *)

Lemma get_node_source_lines (rt : Runtime) (n : node) (source s : string)
    (include_body : bool) :
  _get_node_source rt n source include_body = Some s ->
  (1 <= line_count source)%Z.
Proof.
  unfold _get_node_source, line_count, slice.
  destruct (lineno_of n) as [l|]; [|discriminate].
  destruct (end_lineno_of n) as [e|]; [|discriminate].
  destruct (splitlines source) as [|x xs]; [|simpl; lia].
  rewrite skipn_nil, firstn_nil. discriminate.
Qed.

Lemma flat_map_no_line (targets : list node) :
  flat_map (fun target : node =>
              if is_Name target then @nil string else []) targets = [].
Proof.
  induction targets as [|t ts IH]; simpl; [reflexivity|].
  destruct (is_Name t); exact IH.
Qed.

Lemma global_lines_lines (rt : Runtime) (source : string) (n : node) :
  global_lines rt source n <> [] -> (1 <= line_count source)%Z.
Proof.
  unfold global_lines.
  destruct (_get_node_source rt n source true) as [s|] eqn:Hs.
  - intros _. eapply get_node_source_lines. exact Hs.
  - intros H. exfalso. apply H. clear.
    destruct n; try reflexivity.
    + apply flat_map_no_line.
    + destruct (is_Name n1); reflexivity.
Qed.

Lemma flat_map_nonempty {A B : Type} (f : A -> list B) :
  forall l, flat_map f l <> [] -> exists x, In x l /\ f x <> [].
Proof.
  induction l as [|x l IH]; simpl; [congruence|]. intros H.
  destruct (f x) as [|y ys] eqn:E.
  - destruct (IH H) as (z & Hz & Hfz). exists z. auto.
  - exists x. split; [auto | congruence].
Qed.

Lemma position_ok_lines (n : node) :
  position_ok n -> (node_lineno n <= end_line_of n)%Z.
Proof.
  unfold position_ok, node_lineno, end_line_of, int_or.
  destruct n as [ | | | | | | | | | | |pos children]; cbn;
    try (intros H; match goal with |- context [Z.eqb ?e 0] =>
                     destruct (Z.eqb_spec e 0); lia end);
    try lia.
  destruct pos as [[l e]|]; cbn; [|lia].
  intros H. destruct (Z.eqb_spec e 0); lia.
Qed.

Lemma In_split_concat {A : Type} (g : list A) :
  forall gs, In g gs -> exists rest, exists front,
      List.concat gs = front ++ g ++ rest.
Proof.
  induction gs as [|h gs IH]; [contradiction|]. intros [-> | Hin].
  - exists (List.concat gs), []. reflexivity.
  - destruct (IH Hin) as (rest & front & E).
    exists rest, (h ++ front). simpl. rewrite E, <- app_assoc. reflexivity.
Qed.

Lemma import_group_lines (tree : node) (g : list node) :
  In g (import_groups (sorted_imports tree)) ->
  (group_first_line g <= group_last_line g)%Z.
Proof.
  intros Hin.
  destruct (import_groups_spec (sorted_imports tree)) as [Hsep Hcat].
  pose proof (separated_runs_nonempty _ Hsep) as Hne.
  rewrite Forall_forall in Hne.
  destruct (In_split_concat g _ Hin) as (rest & front & E).
  apply (run_first_le_last g rest); [auto|].
  apply (lines_ascending_app_r front).
  rewrite <- E, Hcat. apply sort_by_sorted.
Qed.

Lemma In_range_fuel (step : Z) (i : Z) :
  forall fuel start stop,
    In i (range_fuel fuel start stop step) ->
    (0 < step)%Z ->
    (start <= i < stop)%Z.
Proof.
  induction fuel as [|fuel IH]; simpl; intros start stop Hin Hstep;
    [contradiction|].
  destruct (Z.ltb_spec start stop); [|contradiction].
  destruct Hin as [<- | Hin]; [lia|].
  specialize (IH _ _ Hin Hstep). lia.
Qed.

(** X5.  When the classes and functions of the tree carry the positions the
    parser records ([1 <= lineno <= end_lineno]), every chunk [chunk_code]
    returns has [start_line <= end_line]; for a text that does not parse
    this holds without any condition. *)
Theorem chunk_lines_are_ordered (rt : Runtime) (self : ASTCodeChunker)
    (source fp : string) (chunks : list CodeChunk) :
  chunk_code rt self source fp = Ok chunks ->
  (forall tree p n,
      ast_parse rt source = Parsed tree ->
      In (p, n) (walk tree) ->
      is_ClassDef n || is_FunctionDef n = true ->
      position_ok n) ->
  Forall (fun c => (start_line c <= end_line c)%Z) chunks.
Proof.
  unfold chunk_code. destruct (ast_parse rt source) as [tree|] eqn:Hparse.
  - intros Hrun Hpos. specialize (Hpos tree).
    apply chunk_tree_blocks in Hrun.
    destruct Hrun as (doc & globals & blocks & Hdoc & Hglob & Hblocks & ->).
    repeat (apply Forall_app; split).
    + destruct (module_docstring_chunk_spec rt tree fp) as (doc' & H' & Hd).
      rewrite Hdoc in H'. inversion H'; subst doc'.
      destruct Hd as [-> | (c & -> & _ & Hs & _ & _ & He & _)]; auto.
      constructor; [|constructor]. rewrite Hs, He. unfold _count_lines. lia.
    + apply Forall_forall. intros c Hc. apply in_map_iff in Hc.
      destruct Hc as (g & <- & Hg). cbn.
      apply (import_group_lines tree). exact Hg.
    + unfold _extract_globals in Hglob.
      destruct (flat_map (global_lines rt source) (node_body tree))
        as [|l ls] eqn:E.
      * inversion Hglob. constructor.
      * rewrite create_chunk_some in Hglob. inversion Hglob. simpl.
        constructor; [|constructor]. cbn.
        destruct (flat_map_nonempty (global_lines rt source) (node_body tree))
          as (n & _ & Hn); [congruence|].
        apply global_lines_lines in Hn. exact Hn.
    + apply Forall_concat. apply Forall_forall. intros block Hblock.
      destruct (Forall2_In_r _ _ _ Hblocks block Hblock) as ((p & n) & Hn & Hb).
      unfold node_block in Hb. cbv zeta in Hb. cbn [snd] in Hb.
      destruct (is_ClassDef n) eqn:Hc.
      * destruct Hb as (header & _ & ->). constructor.
        -- cbn. apply position_ok_lines. apply (Hpos p n eq_refl Hn).
           rewrite Hc. reflexivity.
        -- apply Forall_forall. intros m Hm. apply in_map_iff in Hm.
           destruct Hm as (item & <- & Hitem).
           apply filter_In in Hitem. destruct Hitem as (Hbody & Hf).
           apply andb_prop in Hf. destruct Hf as (Hdef & _). cbn.
           destruct (class_body_walked tree p n item Hn Hc Hbody) as (q & Hq).
           apply position_ok_lines. apply (Hpos q item eq_refl Hq).
           rewrite Hdef. apply orb_true_r.
      * destruct (is_FunctionDef n) eqn:Hf; cbn [andb] in Hb;
          [|subst block; constructor].
        destruct (negb (_is_nested_function tree (p, n))
                  && sliceable rt source n);
          [|subst block; constructor].
        destruct Hb as (s & _ & ->). constructor; [|constructor]. cbn.
        apply position_ok_lines. apply (Hpos p n eq_refl Hn).
        rewrite Hf. apply orb_true_r.
  - intros Hrun _. unfold _fallback_chunk in Hrun.
    apply collect_inv in Hrun. destruct Hrun as (blocks & HF & ->).
    apply Forall_concat. apply Forall_forall. intros block Hblock.
    destruct (Forall2_In_r _ _ _ HF block Hblock) as (i & Hi & Hb).
    rewrite fallback_window_spec in Hb. inversion Hb; subst block.
    constructor; [|constructor]. cbn.
    apply (In_range_fuel chunk_size) in Hi; [|unfold chunk_size; lia].
    unfold chunk_size. lia.
Qed.

Lemma chunk_lines_are_ordered_witness :
  exists chunks,
    chunk_code Samples.runtime default_chunker Samples.src_class_and_function
      "a.py" = Ok chunks
    /\ Forall (fun c => (start_line c <= end_line c)%Z) chunks.
Proof.
  eexists. split; [vm_compute; reflexivity|].
  apply (chunk_lines_are_ordered Samples.runtime default_chunker
           Samples.src_class_and_function "a.py").
  - vm_compute. reflexivity.
  - intros tree p n Hparse Hin Hkind.
    vm_compute in Hparse. inversion Hparse; subst tree. vm_compute in Hin.
    repeat (destruct Hin as [Hin | Hin];
            [inversion Hin; subst; try discriminate; vm_compute;
             split; discriminate|]).
    contradiction.
Defined.

(** ** The fallback windows *)

Lemma fallback_chunks_eq (rt : Runtime) (source fp : string) :
  _fallback_chunk rt source fp
  = Ok (map (fun i =>
               {| id := chunk_id rt fp (i + 1)
                          (join nl (slice (splitlines source) i (i + chunk_size)));
                  content := join nl (slice (splitlines source) i (i + chunk_size));
                  chunk_type := "code_block";
                  metadata := [("fallback", MBool true)];
                  start_line := i + 1;
                  end_line := Z.min (i + chunk_size) (line_count source);
                  file_path := fp;
                  language := "python";
                  parent_context := None |})
          (range 0 (line_count source) chunk_size)).
Proof.
  unfold _fallback_chunk, line_count. rewrite <- flat_map_singleton.
  apply collect_ok. intros i _. apply fallback_window_spec.
Qed.

Lemma window_lines {A : Type} (l : list A) (i k : Z) :
  (0 <= i < Z.of_nat (List.length l))%Z ->
  (0 < k)%Z ->
  slice l i (i + k)
  = firstn (Z.to_nat (Z.min (i + k) (Z.of_nat (List.length l)) - (i + 1) + 1))
      (skipn (Z.to_nat (i + 1 - 1)) l).
Proof.
  intros Hi Hk. unfold slice, clamp_index.
  destruct (Z.ltb_spec i 0); [lia|].
  destruct (Z.ltb_spec (i + k) 0); [lia|].
  rewrite (Z.min_l i) by lia. f_equal; [lia | f_equal; lia].
Qed.

Lemma windows_concat {A : Type} (l : list A) (k : Z) :
  (0 < k)%Z ->
  forall fuel start,
    (0 <= start <= Z.of_nat (List.length l))%Z ->
    Z.to_nat (Z.of_nat (List.length l) - start) <= fuel ->
    List.concat
      (map (fun i =>
              firstn (Z.to_nat (Z.min (i + k) (Z.of_nat (List.length l))
                                - (i + 1) + 1))
                (skipn (Z.to_nat (i + 1 - 1)) l))
         (range_fuel fuel start (Z.of_nat (List.length l)) k))
    = skipn (Z.to_nat start) l.
Proof.
  intros Hk. set (n := Z.of_nat (List.length l)).
  induction fuel as [|fuel IH]; intros start Hs Hfuel.
  - simpl. replace (Z.to_nat start) with (List.length l) by lia.
    symmetry. apply skipn_all.
  - simpl. destruct (Z.ltb_spec start n) as [Hlt | Hge].
    + simpl. replace (start + 1 - 1)%Z with start by lia.
      destruct (Z_le_gt_dec (start + k) n) as [Hin | Hout].
      * rewrite IH by lia. rewrite Z.min_l by lia.
        replace (Z.to_nat (start + k - (start + 1) + 1)) with (Z.to_nat k)
          by lia.
        replace (Z.to_nat (start + k)) with (Z.to_nat k + Z.to_nat start)
          by lia.
        rewrite <- skipn_skipn. apply firstn_skipn.
      * rewrite range_fuel_done by lia. simpl. rewrite app_nil_r.
        apply firstn_all2. rewrite length_skipn. unfold n in *. lia.
    + simpl. replace (Z.to_nat start) with (List.length l) by (unfold n in *; lia).
      symmetry. apply skipn_all.
Qed.

(** X6.  For a text that does not parse, the content of each chunk is its
    own lines of the text ([start_line .. end_line], as [splitlines] cuts
    them) joined by newlines, and the lines of the chunks, one chunk after
    the other, are the lines of the text: no line is lost, repeated or
    reordered. *)
Theorem fallback_chunks_hold_the_lines (rt : Runtime) (self : ASTCodeChunker)
    (source fp : string) :
  ast_parse rt source = SyntaxError ->
  exists chunks,
    chunk_code rt self source fp = Ok chunks
    /\ Forall (fun c =>
                 content c
                 = join nl (source_lines source (start_line c) (end_line c)))
         chunks
    /\ List.concat
         (map (fun c => source_lines source (start_line c) (end_line c))
            chunks)
       = splitlines source.
Proof.
  intros Hparse. unfold chunk_code. rewrite Hparse.
  rewrite fallback_chunks_eq. eexists. split; [reflexivity|].
  unfold line_count, source_lines, range, chunk_size.
  set (lines := splitlines source).
  split.
  - apply Forall_forall. intros c Hc. apply in_map_iff in Hc.
    destruct Hc as (i & <- & Hi). cbn.
    apply (In_range_fuel 50) in Hi; [|lia].
    f_equal. apply window_lines; lia.
  - rewrite map_map. cbn [start_line end_line].
    rewrite (windows_concat lines 50 ltac:(lia)) by lia.
    reflexivity.
Qed.

Lemma fallback_chunks_hold_the_lines_witness :
  exists chunks,
    chunk_code Samples.runtime default_chunker Samples.src_broken "broken.py"
    = Ok chunks
    /\ Forall (fun c =>
                 content c
                 = join nl (source_lines Samples.src_broken (start_line c)
                              (end_line c)))
         chunks
    /\ List.concat
         (map (fun c => source_lines Samples.src_broken (start_line c)
                          (end_line c))
            chunks)
       = splitlines Samples.src_broken.
Proof.
  apply (fallback_chunks_hold_the_lines Samples.runtime default_chunker
           Samples.src_broken "broken.py").
  reflexivity.
Defined.

Lemma range_fuel_full_steps (step stop : Z) :
  (0 < step)%Z ->
  forall fuel start init last,
    range_fuel fuel start stop step = init ++ [last] ->
    Forall (fun i => (i + step <= stop)%Z) init.
Proof.
  intros Hstep. induction fuel as [|fuel IH]; simpl; intros start init last E.
  - destruct init; discriminate.
  - destruct (Z.ltb_spec start stop) as [Hlt | Hge];
      [|destruct init; discriminate].
    destruct init as [|i init]; [constructor|].
    simpl in E. inversion E; subst i. constructor.
    + destruct fuel; simpl in *; [destruct init; discriminate|].
      destruct (Z.ltb_spec (start + step) stop); [lia|].
      destruct init; discriminate.
    + eapply IH. eassumption.
Qed.

(** X7.  For a text that does not parse, every chunk holds at most 50
    lines, and every chunk before the last holds exactly 50. *)
Theorem fallback_chunks_are_fifty_line_windows (rt : Runtime)
    (self : ASTCodeChunker) (source fp : string) :
  ast_parse rt source = SyntaxError ->
  exists chunks,
    chunk_code rt self source fp = Ok chunks
    /\ Forall (fun c => (1 <= end_line c - start_line c + 1 <= 50)%Z) chunks
    /\ (forall init last,
           chunks = init ++ [last] ->
           Forall (fun c => (end_line c - start_line c + 1 = 50)%Z) init).
Proof.
  intros Hparse. unfold chunk_code. rewrite Hparse.
  rewrite fallback_chunks_eq. eexists. split; [reflexivity|].
  unfold range, chunk_size. split.
  - apply Forall_forall. intros c Hc. apply in_map_iff in Hc.
    destruct Hc as (i & <- & Hi). cbn.
    apply (In_range_fuel 50) in Hi; lia.
  - intros init last E. apply map_eq_app in E.
    destruct E as (r1 & r2 & Hr & <- & Hlast).
    destruct r2 as [|x [|y r2]]; try discriminate.
    apply range_fuel_full_steps in Hr; [|lia].
    apply Forall_forall. intros c Hc. apply in_map_iff in Hc.
    destruct Hc as (i & <- & Hi). cbn.
    rewrite Forall_forall in Hr. specialize (Hr i Hi). lia.
Qed.

Lemma fallback_chunks_are_fifty_line_windows_witness :
  exists chunks,
    chunk_code Samples.runtime default_chunker Samples.src_broken "broken.py"
    = Ok chunks
    /\ Forall (fun c => (1 <= end_line c - start_line c + 1 <= 50)%Z) chunks
    /\ (forall init last,
           chunks = init ++ [last] ->
           Forall (fun c => (end_line c - start_line c + 1 = 50)%Z) init).
Proof.
  apply (fallback_chunks_are_fifty_line_windows Samples.runtime
           default_chunker Samples.src_broken "broken.py").
  reflexivity.
Defined.

(** ** Imports *)

Lemma length_concat_sum {A : Type} (ls : list (list A)) :
  List.length (List.concat ls) = list_sum (map (@List.length A) ls).
Proof.
  induction ls as [|l ls IH]; simpl; [reflexivity|].
  rewrite length_app, IH. reflexivity.
Qed.

(** X8.  Every import statement of the tree, wherever it stands (module
    level, inside a function, inside a class), is counted in exactly one
    import chunk: the [num_imports] entries of the import chunks add up to
    the number of [Import] and [ImportFrom] nodes of the tree. *)
Theorem import_chunks_count_every_import (rt : Runtime)
    (self : ASTCodeChunker) (source fp : string) (tree : node)
    (chunks : list CodeChunk) :
  ast_parse rt source = Parsed tree ->
  chunk_code rt self source fp = Ok chunks ->
  list_sum (map num_imports_of (filter (has_type "import") chunks))
  = List.length (filter is_import (map snd (walk tree))).
Proof.
  intros Hparse Hrun. unfold chunk_code in Hrun. rewrite Hparse in Hrun.
  rewrite (import_chunks_of_tree _ _ _ _ _ _ Hrun).
  destruct (import_groups_spec (sorted_imports tree)) as [_ Hcat].
  rewrite <- (Permutation_length (sorted_imports_perm tree)).
  pose proof (sorted_imports_all tree) as Hall.
  revert Hcat Hall.
  generalize (import_groups (sorted_imports tree)) as gs.
  intros gs <- Hall. apply Forall_concat in Hall.
  rewrite length_concat_sum, map_map. f_equal.
  induction Hall as [|g gs Hg _ IH]; simpl; [reflexivity|].
  rewrite IH. f_equal.
  unfold num_imports_of. cbn.
  destruct (import_lines_all g Hg) as [-> _]. lia.
Qed.

Lemma import_chunks_count_every_import_witness :
  exists chunks,
    chunk_code Samples.runtime default_chunker
      Samples.src_imports_and_function "a.py" = Ok chunks
    /\ list_sum (map num_imports_of (filter (has_type "import") chunks))
       = List.length
           (filter is_import
              (map snd (walk Samples.tree_imports_and_function))).
Proof.
  eexists. split; [vm_compute; reflexivity|].
  apply (import_chunks_count_every_import Samples.runtime default_chunker
           Samples.src_imports_and_function "a.py"
           Samples.tree_imports_and_function);
    vm_compute; reflexivity.
Defined.

(** ** Methods and their class *)

Lemma prefix_double_underscore (s : string) :
  startswith s "__" = true -> startswith s "_" = true.
Proof.
  unfold startswith. destruct s as [|c s]; [discriminate|].
  cbn [String.prefix].
  destruct (ascii_dec "_" c); [|discriminate]. intros _.
  destruct s; reflexivity.
Qed.

(** X9.  Every [method] chunk comes after the chunk of its class: the chunk
    list reads [... class chunk, method chunks of that class, this chunk,
    ...], the class chunk's [class_name] is the method chunk's
    [parent_context], and the method chunk records the same name under
    [class_name]. *)
Theorem method_chunk_follows_its_class (rt : Runtime) (self : ASTCodeChunker)
    (source fp : string) (tree : node) (chunks : list CodeChunk)
    (m : CodeChunk) :
  ast_parse rt source = Parsed tree ->
  chunk_code rt self source fp = Ok chunks ->
  In m chunks ->
  chunk_type m = "method" ->
  exists before c between after name,
    chunks = before ++ c :: between ++ m :: after
    /\ chunk_type c = "class"
    /\ dict_get (metadata c) "class_name" = Some (MStr name)
    /\ parent_context m = Some name
    /\ dict_get (metadata m) "class_name" = Some (MStr name)
    /\ Forall (fun x => chunk_type x = "method"
                        /\ parent_context x = Some name) between.
Proof.
  intros Hparse Hrun Hin Hm. unfold chunk_code in Hrun.
  rewrite Hparse in Hrun. apply chunk_tree_blocks in Hrun.
  destruct Hrun as (doc & globals & blocks & Hdoc & Hglob & Hblocks & ->).
  pose proof (preamble_chunks rt tree source fp doc globals Hdoc Hglob) as Hpre.
  rewrite !app_assoc in Hin |- *. rewrite <- (app_assoc doc) in Hin |- *.
  apply in_app_or in Hin. destruct Hin as [Hin | Hin].
  { rewrite Forall_forall in Hpre. destruct (Hpre m Hin) as (Hp & _).
    unfold is_preamble in Hp. rewrite Hm in Hp.
    destruct Hp as [Hp | [Hp | Hp]]; discriminate. }
  apply in_concat in Hin. destruct Hin as (block & Hblock & Hmb).
  apply in_split in Hblock. destruct Hblock as (bs1 & bs2 & ->).
  apply Forall2_app_inv_r in Hblocks.
  destruct Hblocks as (w1 & w2 & _ & Hw2 & _).
  inversion Hw2 as [|pn b w2' bs2' Hb _ E1 E2]. clear Hw2. subst b bs2'.
  unfold node_block in Hb. cbv zeta in Hb.
  destruct (is_ClassDef (snd pn)).
  - destruct Hb as (header & _ & Hblock).
    rewrite Hblock in Hmb.
    destruct Hmb as [Hmc | Hmb].
    { rewrite <- Hmc in Hm. discriminate Hm. }
    assert (Hall : Forall (fun x => chunk_type x = "method"
                                    /\ parent_context x = Some (node_name (snd pn))
                                    /\ dict_get (metadata x) "class_name"
                                       = Some (MStr (node_name (snd pn))))
                     (map (fun item =>
                             method_record rt self (node_name (snd pn)) item
                               (match _get_node_source rt item source true with
                                | Some s => s
                                | None => ""
                                end) fp)
                        (chunked_methods rt source (node_body (snd pn))))).
    { apply Forall_forall. intros x Hx.
      apply in_map_iff in Hx. destruct Hx as (item & Hx & _).
      rewrite <- Hx. split; [reflexivity|]. split; reflexivity. }
    apply in_split in Hmb. destruct Hmb as (ms1 & ms2 & Hms).
    rewrite Hms in Hall, Hblock.
    apply Forall_app in Hall. destruct Hall as (H1 & H2).
    inversion H2 as [|m' ms2' (_ & Hpc & Hcn) _ E3]. clear H2.
    exists ((doc ++ map (fun g => import_record rt g source)
                      (import_groups (sorted_imports tree))
                 ++ Ast.opt_list globals) ++ List.concat bs1).
    exists (class_record rt (snd pn) header fp).
    exists ms1, (ms2 ++ List.concat bs2), (node_name (snd pn)).
    split.
    { rewrite concat_app. cbn [List.concat]. rewrite Hblock.
      rewrite <- !app_assoc. cbn [app]. rewrite <- !app_assoc.
      reflexivity. }
    split; [reflexivity|]. split; [reflexivity|].
    split; [exact Hpc|]. split; [exact Hcn|].
    eapply Forall_impl; [|exact H1]. cbv beta. tauto.
  - destruct (is_FunctionDef (snd pn) && negb (_is_nested_function tree pn)
              && sliceable rt source (snd pn)).
    + destruct Hb as (s & _ & Hblock). rewrite Hblock in Hmb.
      destruct Hmb as [Hmc | []]. rewrite <- Hmc in Hm. discriminate Hm.
    + rewrite Hb in Hmb. contradiction.
Qed.

Lemma method_chunk_follows_its_class_witness :
  exists chunks m before c between after name,
    chunk_code Samples.runtime default_chunker Samples.src_class_and_function
      "a.py" = Ok chunks
    /\ In m chunks
    /\ chunks = before ++ c :: between ++ m :: after
    /\ chunk_type c = "class"
    /\ dict_get (metadata c) "class_name" = Some (MStr name)
    /\ parent_context m = Some name
    /\ dict_get (metadata m) "class_name" = Some (MStr name)
    /\ Forall (fun x => chunk_type x = "method"
                        /\ parent_context x = Some name) between.
Proof.
  eexists. eexists.
  destruct (method_chunk_follows_its_class Samples.runtime default_chunker
              Samples.src_class_and_function "a.py"
              Samples.tree_class_and_function _ _
              eq_refl eq_refl (or_intror (or_introl eq_refl)) eq_refl)
    as (before & c & between & after & name & H).
  exists before, c, between, after, name.
  split; [reflexivity|]. split; [right; left; reflexivity | exact H].
Defined.

(** X10.  In the metadata of a method chunk, [is_dunder] implies
    [is_private]: a name that starts and ends with two underscores is also
    flagged as private. *)
Theorem dunder_methods_are_flagged_private (rt : Runtime)
    (self : ASTCodeChunker) (source fp : string) (chunks : list CodeChunk) :
  chunk_code rt self source fp = Ok chunks ->
  Forall (fun c =>
            chunk_type c = "method" ->
            dict_get (metadata c) "is_dunder" = Some (MBool true) ->
            dict_get (metadata c) "is_private" = Some (MBool true))
    chunks.
Proof.
  unfold chunk_code. destruct (ast_parse rt source) as [tree|].
  - intros Hrun. apply chunk_tree_blocks in Hrun.
    destruct Hrun as (doc & globals & blocks & Hdoc & Hglob & Hblocks & ->).
    pose proof (preamble_chunks rt tree source fp doc globals Hdoc Hglob) as Hpre.
    rewrite !app_assoc. rewrite <- (app_assoc doc).
    apply Forall_app. split.
    + eapply Forall_impl; [|exact Hpre].
      intros c (Hp & _) Hm. unfold is_preamble in Hp. rewrite Hm in Hp.
      destruct Hp as [Hp | [Hp | Hp]]; discriminate.
    + apply Forall_concat.
      induction Hblocks as [|pn b ? ? Hb _ IH]; constructor; [|exact IH].
      unfold node_block in Hb. cbv zeta in Hb.
      destruct (is_ClassDef (snd pn)).
      * destruct Hb as (header & _ & ->).
        constructor; [discriminate|].
        apply Forall_forall. intros m Hm. apply in_map_iff in Hm.
        destruct Hm as (item & <- & _). intros _. cbn.
        intros H. injection H as Hd. apply andb_prop in Hd.
        destruct Hd as (Hd & _).
        pose proof (prefix_double_underscore (node_name item) Hd) as Hp.
        rewrite Hp. reflexivity.
      * destruct (is_FunctionDef (snd pn)
                  && negb (_is_nested_function tree pn)
                  && sliceable rt source (snd pn)).
        -- destruct Hb as (s & _ & ->). constructor; [discriminate|constructor].
        -- subst b. constructor.
  - unfold _fallback_chunk. apply collect_Forall.
    intros i cs Hi. rewrite fallback_window_spec in Hi.
    inversion Hi; subst. constructor; [discriminate | constructor].
Qed.

Lemma dunder_methods_are_flagged_private_witness :
  exists chunks c,
    chunk_code Samples.runtime default_chunker Samples.src_dunder_method
      "a.py" = Ok chunks
    /\ In c chunks
    /\ chunk_type c = "method"
    /\ dict_get (metadata c) "method_name" = Some (MStr "__init__")
    /\ dict_get (metadata c) "is_dunder" = Some (MBool true)
    /\ dict_get (metadata c) "is_private" = Some (MBool true).
Proof.
  eexists. eexists. split; [vm_compute; reflexivity|].
  split; [right; left; reflexivity|].
  split; [reflexivity|]. split; [reflexivity|]. split; [reflexivity|].
  pose proof (dunder_methods_are_flagged_private Samples.runtime
                default_chunker Samples.src_dunder_method "a.py" _ eq_refl)
    as H.
  rewrite Forall_forall in H.
  apply H; [right; left; reflexivity | reflexivity | reflexivity].
Defined.

(** ** Nesting *)

(** X11.  [_is_nested_function] answers [True] for a node exactly when the
    node lies strictly below a [ClassDef] or a [FunctionDef] of the tree.
    Parents of any other class (an [async def], an [if], a [try], ...) do
    not count. *)
Theorem is_nested_iff_below_definition (tree : node) (p : path) (n : node) :
  _is_nested_function tree (p, n) = true <-> below_definition tree p.
Proof.
  unfold below_definition. split.
  - unfold _is_nested_function. intros H.
    apply existsb_exists in H. destruct H as ((q & m) & Hqm & H).
    cbn [fst snd] in H.
    apply andb_prop in H. destruct H as (H & Hbelow).
    apply andb_prop in H. destruct H as (Hkind & Hother).
    apply existsb_exists in Hbelow. destruct Hbelow as ((r & c) & Hrc & Hr).
    cbn [fst] in Hr. apply path_eqb_eq in Hr. subst r.
    apply In_walk_from in Hrc. destruct Hrc as (d & Hd & Hsub).
    apply In_walk in Hqm.
    exists q, d, m. repeat split; auto.
    + intros ->. rewrite app_nil_r in Hd. subst p.
      rewrite path_eqb_refl in Hother. discriminate.
    + congruence.
  - intros (q & d & m & -> & Hd & Hm & Hkind & Hsub).
    destruct (subtree_at m d) as [f|] eqn:Hf; [|congruence].
    exact (nested_below_definition tree q d m f n Hm Hkind Hd Hf).
Qed.

(** ** Module-level assignments *)

Lemma length_global_lines (rt : Runtime) (source : string) (n : node) :
  List.length (global_lines rt source n)
  = if sliceable rt source n then name_target_count n else 0.
Proof.
  unfold global_lines, sliceable, name_target_count, truthy_opt.
  destruct (_get_node_source rt n source true) as [l|].
  - destruct (truthy l).
    + destruct n; try reflexivity.
      * induction targets as [|t ts IH]; simpl; [reflexivity|].
        destruct (is_Name t); simpl; rewrite IH; reflexivity.
      * destruct (is_Name n1); reflexivity.
    + destruct n; try reflexivity.
      * rewrite flat_map_no_line. reflexivity.
      * destruct (is_Name n1); reflexivity.
  - destruct n; try reflexivity.
    + rewrite flat_map_no_line. reflexivity.
    + destruct (is_Name n1); reflexivity.
Qed.

Lemma global_lines_count (rt : Runtime) (source : string) (body : list node) :
  List.length (flat_map (global_lines rt source) body)
  = global_statement_count rt source body.
Proof.
  unfold global_statement_count. rewrite length_flat_map. f_equal.
  apply map_ext. intros n. apply length_global_lines.
Qed.

(** X12.  There is at most one [global] chunk.  There is one exactly when
    some statement of the module body assigns to a plain name and can be
    sliced; its line range is the whole file, [1 .. line_count], and
    [num_globals] counts one entry per plain-name target, so a chained
    assignment [a = b = 1] counts twice. *)
Theorem global_chunk_spans_the_file (rt : Runtime) (self : ASTCodeChunker)
    (source fp : string) (tree : node) (chunks : list CodeChunk) :
  ast_parse rt source = Parsed tree ->
  chunk_code rt self source fp = Ok chunks ->
  match filter (has_type "global") chunks with
  | [] => global_statement_count rt source (node_body tree) = 0
  | [c] =>
      0 < global_statement_count rt source (node_body tree)
      /\ start_line c = 1%Z
      /\ end_line c = line_count source
      /\ dict_get (metadata c) "num_globals"
         = Some (MInt (Z.of_nat (global_statement_count rt source
                                   (node_body tree))))
  | _ :: _ :: _ => False
  end.
Proof.
  intros Hparse Hrun. unfold chunk_code in Hrun. rewrite Hparse in Hrun.
  apply chunk_tree_blocks in Hrun.
  destruct Hrun as (doc & globals & blocks & Hdoc & Hglob & Hblocks & ->).
  rewrite !filter_app.
  rewrite (node_block_not_preamble rt self tree source fp "global")
    with (walked := walk tree) by (assumption || discriminate).
  apply docstring_chunks_preamble in Hdoc.
  assert (Hd : filter (has_type "global") doc = []).
  { destruct Hdoc as [-> | (c & -> & Ht & _)]; [reflexivity|].
    simpl. unfold has_type. rewrite Ht. reflexivity. }
  assert (Hi : filter (has_type "global")
                 (map (fun g => import_record rt g source)
                    (import_groups (sorted_imports tree))) = []).
  { apply filter_none. apply Forall_forall. intros c Hc.
    apply in_map_iff in Hc. destruct Hc as (g & <- & _). reflexivity. }
  rewrite Hd, Hi, app_nil_r. cbn [app].
  rewrite <- global_lines_count.
  unfold _extract_globals in Hglob.
  destruct (flat_map (global_lines rt source) (node_body tree)) as [|l ls].
  - injection Hglob as <-. reflexivity.
  - rewrite create_chunk_some in Hglob. cbn [bind] in Hglob.
    injection Hglob as <-. cbn. repeat split. lia.
Qed.

Lemma global_chunk_spans_the_file_witness :
  exists chunks,
    chunk_code Samples.runtime default_chunker
      Samples.src_docstring_import_global "a.py" = Ok chunks
    /\ match filter (has_type "global") chunks with
       | [] =>
           global_statement_count Samples.runtime
             Samples.src_docstring_import_global
             (node_body Samples.tree_docstring_import_global) = 0
       | [c] =>
           0 < global_statement_count Samples.runtime
                 Samples.src_docstring_import_global
                 (node_body Samples.tree_docstring_import_global)
           /\ start_line c = 1%Z
           /\ end_line c = line_count Samples.src_docstring_import_global
           /\ dict_get (metadata c) "num_globals"
              = Some (MInt (Z.of_nat
                              (global_statement_count Samples.runtime
                                 Samples.src_docstring_import_global
                                 (node_body
                                    Samples.tree_docstring_import_global))))
       | _ :: _ :: _ => False
       end.
Proof.
  eexists. split; [vm_compute; reflexivity|].
  apply (global_chunk_spans_the_file Samples.runtime default_chunker
           Samples.src_docstring_import_global "a.py"
           Samples.tree_docstring_import_global);
    vm_compute; reflexivity.
Defined.

(** ** The module docstring *)

(** X13.  When the module has a non-empty docstring, the first chunk is the
    [module_docstring] chunk and no other chunk has that type; its content
    is a fixed header line followed by the cleaned docstring, and its line
    range is [1 .. n + 2] for the [n] lines of the cleaned docstring,
    wherever the docstring stands in the file.  Without a docstring (or
    with an empty one) no chunk has that type. *)
Theorem module_docstring_chunk_leads (rt : Runtime) (self : ASTCodeChunker)
    (source fp : string) (tree : node) (chunks : list CodeChunk) :
  ast_parse rt source = Parsed tree ->
  chunk_code rt self source fp = Ok chunks ->
  if truthy_opt (get_docstring rt tree) then
    exists c rest d,
      chunks = c :: rest
      /\ get_docstring rt tree = Some d
      /\ chunk_type c = "module_docstring"
      /\ start_line c = 1%Z
      /\ end_line c = (Z.of_nat (List.length (splitlines d)) + 2)%Z
      /\ content c
         = (triple_quote ++ "Module Documentation" ++ triple_quote ++ nl
              ++ d)%string
      /\ Forall (fun x => chunk_type x <> "module_docstring") rest
  else Forall (fun x => chunk_type x <> "module_docstring") chunks.
Proof.
  intros Hparse Hrun. unfold chunk_code in Hrun. rewrite Hparse in Hrun.
  apply chunk_tree_blocks in Hrun.
  destruct Hrun as (doc & globals & blocks & Hdoc & Hglob & Hblocks & ->).
  assert (Hrest : Forall (fun x => chunk_type x <> "module_docstring")
                    (map (fun g => import_record rt g source)
                       (import_groups (sorted_imports tree))
                     ++ Ast.opt_list globals ++ List.concat blocks)).
  { repeat (apply Forall_app; split).
    - apply Forall_forall. intros c Hc. apply in_map_iff in Hc.
      destruct Hc as (g & <- & _). discriminate.
    - apply globals_chunk_preamble in Hglob.
      destruct Hglob as [-> | (c & -> & Ht & _)]; simpl; auto.
      constructor; [|constructor]. rewrite Ht. discriminate.
    - apply Forall_concat.
      induction Hblocks as [|pn b ? ? Hb _ IH]; constructor; [|exact IH].
      eapply Forall_impl; [|exact (node_block_chunks _ _ _ _ _ _ _ Hb)].
      intros c (Ht & _). destruct Ht as [-> | [-> | ->]]; discriminate. }
  unfold module_docstring_chunk in Hdoc. unfold truthy_opt.
  destruct (get_docstring rt tree) as [d|].
  - destruct (truthy d).
    + rewrite create_chunk_some in Hdoc. cbn [bind] in Hdoc.
      injection Hdoc as <-.
      eexists. eexists. exists d. split; [reflexivity|].
      repeat split. exact Hrest.
    + injection Hdoc as <-. exact Hrest.
  - injection Hdoc as <-. exact Hrest.
Qed.

Lemma module_docstring_chunk_leads_witness :
  exists chunks,
    chunk_code Samples.runtime default_chunker
      Samples.src_docstring_import_global "a.py" = Ok chunks
    /\ exists c rest d,
         chunks = c :: rest
         /\ get_docstring Samples.runtime Samples.tree_docstring_import_global
            = Some d
         /\ chunk_type c = "module_docstring"
         /\ start_line c = 1%Z
         /\ end_line c = (Z.of_nat (List.length (splitlines d)) + 2)%Z
         /\ content c
            = (triple_quote ++ "Module Documentation" ++ triple_quote ++ nl
                 ++ d)%string
         /\ Forall (fun x => chunk_type x <> "module_docstring") rest.
Proof.
  eexists. split; [vm_compute; reflexivity|].
  apply (module_docstring_chunk_leads Samples.runtime default_chunker
           Samples.src_docstring_import_global "a.py"
           Samples.tree_docstring_import_global);
    vm_compute; reflexivity.
Defined.

(* ================================================================== *)
(** * Properties of [MultiLanguageASTChunker] *)
(* ================================================================== *)


Lemma map_snd_enumerate_from {A : Type} (xs : list A) :
  forall i, map snd (MultiLanguage.enumerate_from i xs) = xs.
Proof. induction xs; simpl; intros; [|rewrite IHxs]; reflexivity. Qed.

Lemma map_fst_enumerate_from {A : Type} (xs : list A) :
  forall i,
    map fst (MultiLanguage.enumerate_from i xs)
    = map (fun k => (i + Z.of_nat k)%Z) (seq 0 (List.length xs)).
Proof.
  induction xs as [|x xs IH]; simpl; intros i; [reflexivity|].
  rewrite IH, <- seq_shift, map_map. f_equal; [f_equal; lia|].
  apply map_ext. intros k. lia.
Qed.

Lemma generic_chunk_spec (rt : Runtime) (grt : MultiLanguage.GenericRuntime)
    (fs : FileSystem) (fp content : string) :
  fs fp = Some (Text content) ->
  MultiLanguage._generic_chunk rt grt fs fp
  = Ok (match MultiLanguage.findall_functions grt content with
        | [] =>
            map (MultiLanguage.line_window_chunk rt grt (splitlines content) fp)
              (range 0 (line_count content) 50)
        | functions =>
            map (MultiLanguage.function_match_chunk rt grt fp)
              (MultiLanguage.enumerate_from 0 functions)
        end).
Proof.
  intros Hfs. unfold MultiLanguage._generic_chunk. rewrite Hfs.
  cbn [read_text bind].
  destruct (MultiLanguage.findall_functions grt content); reflexivity.
Qed.



(** X15.  For an extension other than [py] and [python], when the function
    pattern matches nothing in the file, the result is [ceil(n / 50)]
    [code_block] chunks that tile the [n] lines of the file; each holds its
    own lines joined by newlines, records the extension under [language] in
    its metadata and has no [fallback] entry. *)
Theorem generic_line_windows_tile_the_file (rt : Runtime)
    (grt : MultiLanguage.GenericRuntime) (fs : FileSystem)
    (fp text : string) :
  MultiLanguage.is_python_extension (MultiLanguage.extension_of grt fp)
  = false ->
  fs fp = Some (Text text) ->
  MultiLanguage.findall_functions grt text = [] ->
  exists chunks,
    MultiLanguage.chunk_file rt grt fs fp = Ok chunks
    /\ Z.of_nat (List.length chunks) = ceil_div (line_count text) 50
    /\ covers 1 (map line_range chunks) (line_count text)
    /\ Forall (fun c =>
                 chunk_type c = "code_block"
                 /\ content c
                    = join nl (source_lines text (start_line c) (end_line c))
                 /\ dict_get (metadata c) "language"
                    = Some (MStr (MultiLanguage.extension_of grt fp))
                 /\ dict_get (metadata c) "fallback" = None)
         chunks.
Proof.
  intros Hext Hfs Hnone. unfold MultiLanguage.chunk_file. rewrite Hext.
  rewrite (generic_chunk_spec rt grt fs fp text Hfs), Hnone.
  eexists. split; [reflexivity|].
  unfold line_count, range. set (lines := splitlines text).
  set (n := Z.of_nat (List.length lines)).
  replace (n - 0)%Z with n by lia.
  assert (Hn : (0 <= n)%Z) by (unfold n; lia).
  split; [|split].
  - rewrite length_map. rewrite (range_fuel_length 50 ltac:(lia)) by lia.
    f_equal. lia.
  - rewrite map_map. unfold line_range. cbn [start_line end_line
      MultiLanguage.line_window_chunk].
    apply (range_fuel_covers n 50 ltac:(lia) (Z.to_nat n) 0%Z); lia.
  - apply Forall_forall. intros c Hc. apply in_map_iff in Hc.
    destruct Hc as (i & <- & Hi). apply (In_range_fuel 50) in Hi; [|lia].
    split; [reflexivity|]. split; [|split; reflexivity].
    cbn [content start_line end_line MultiLanguage.line_window_chunk].
    unfold source_lines. fold lines. f_equal.
    apply window_lines; unfold n in *; lia.
Qed.

Lemma generic_line_windows_tile_the_file_witness :
  exists chunks,
    MultiLanguage.chunk_file Samples.runtime GenericSamples.generic_runtime
      GenericSamples.disk "notes.txt" = Ok chunks
    /\ Z.of_nat (List.length chunks)
       = ceil_div (line_count GenericSamples.src_prose) 50
    /\ covers 1 (map line_range chunks) (line_count GenericSamples.src_prose)
    /\ Forall (fun c =>
                 chunk_type c = "code_block"
                 /\ content c
                    = join nl (source_lines GenericSamples.src_prose
                                 (start_line c) (end_line c))
                 /\ dict_get (metadata c) "language"
                    = Some (MStr (MultiLanguage.extension_of
                                    GenericSamples.generic_runtime "notes.txt"))
                 /\ dict_get (metadata c) "fallback" = None)
         chunks.
Proof.
  apply (generic_line_windows_tile_the_file Samples.runtime
           GenericSamples.generic_runtime GenericSamples.disk "notes.txt"
           GenericSamples.src_prose);
    reflexivity.
Defined.

(** X16.  For an extension other than [py] and [python], when the function
    pattern matches, the result is one [function] chunk per match, in match
    order, with the match as content; both line bounds are [0], the
    [language] field is [python] whatever the extension, and the extension
    is kept under [language] in the metadata.  No line window is produced. *)
Theorem generic_function_matches_have_no_lines (rt : Runtime)
    (grt : MultiLanguage.GenericRuntime) (fs : FileSystem)
    (fp text : string) :
  MultiLanguage.is_python_extension (MultiLanguage.extension_of grt fp)
  = false ->
  fs fp = Some (Text text) ->
  MultiLanguage.findall_functions grt text <> [] ->
  exists chunks,
    MultiLanguage.chunk_file rt grt fs fp = Ok chunks
    /\ map content chunks = MultiLanguage.findall_functions grt text
    /\ Forall (fun c =>
                 chunk_type c = "function"
                 /\ start_line c = 0%Z
                 /\ end_line c = 0%Z
                 /\ language c = "python"
                 /\ dict_get (metadata c) "language"
                    = Some (MStr (MultiLanguage.extension_of grt fp)))
         chunks.
Proof.
  intros Hext Hfs Hsome. unfold MultiLanguage.chunk_file. rewrite Hext.
  rewrite (generic_chunk_spec rt grt fs fp text Hfs).
  destruct (MultiLanguage.findall_functions grt text) as [|f fs'];
    [congruence|].
  eexists. split; [reflexivity|]. split.
  - rewrite map_map. cbn [content MultiLanguage.function_match_chunk].
    apply map_snd_enumerate_from.
  - apply Forall_forall. intros c Hc. apply in_map_iff in Hc.
    destruct Hc as (e & <- & _). repeat split.
Qed.

Lemma generic_function_matches_have_no_lines_witness :
  exists chunks,
    MultiLanguage.chunk_file Samples.runtime GenericSamples.generic_runtime
      GenericSamples.disk "Main.java" = Ok chunks
    /\ map content chunks
       = MultiLanguage.findall_functions GenericSamples.generic_runtime
           GenericSamples.src_java
    /\ Forall (fun c =>
                 chunk_type c = "function"
                 /\ start_line c = 0%Z
                 /\ end_line c = 0%Z
                 /\ language c = "python"
                 /\ dict_get (metadata c) "language"
                    = Some (MStr (MultiLanguage.extension_of
                                    GenericSamples.generic_runtime "Main.java")))
         chunks.
Proof.
  apply (generic_function_matches_have_no_lines Samples.runtime
           GenericSamples.generic_runtime GenericSamples.disk "Main.java"
           GenericSamples.src_java);
    [reflexivity | reflexivity | discriminate].
Defined.

Lemma function_match_ids (rt : Runtime) (grt : MultiLanguage.GenericRuntime)
    (fp : string) (functions : list string) :
  map id (map (MultiLanguage.function_match_chunk rt grt fp)
            (MultiLanguage.enumerate_from 0 functions))
  = map (fun k => MultiLanguage.generic_id rt fp "func_" (0 + Z.of_nat k))
      (seq 0 (List.length functions)).
Proof.
  rewrite map_map. cbn [id MultiLanguage.function_match_chunk].
  rewrite <- (map_map fst (MultiLanguage.generic_id rt fp "func_")).
  rewrite map_fst_enumerate_from, map_map. reflexivity.
Qed.

(** X17.  The ids of the generic chunks are taken from the file path and
    the position alone: two versions of a file under the same path, with as
    many matches of the function pattern (and, when there is none, as many
    lines), get the same ids, whatever their text. *)
Theorem generic_ids_ignore_content (rt : Runtime)
    (grt : MultiLanguage.GenericRuntime) (fs1 fs2 : FileSystem)
    (fp text1 text2 : string) (chunks1 chunks2 : list CodeChunk) :
  MultiLanguage.is_python_extension (MultiLanguage.extension_of grt fp)
  = false ->
  fs1 fp = Some (Text text1) ->
  fs2 fp = Some (Text text2) ->
  List.length (MultiLanguage.findall_functions grt text1)
  = List.length (MultiLanguage.findall_functions grt text2) ->
  (MultiLanguage.findall_functions grt text1 = [] ->
   line_count text1 = line_count text2) ->
  MultiLanguage.chunk_file rt grt fs1 fp = Ok chunks1 ->
  MultiLanguage.chunk_file rt grt fs2 fp = Ok chunks2 ->
  map id chunks1 = map id chunks2.
Proof.
  intros Hext Hfs1 Hfs2 Hlen Hlines. unfold MultiLanguage.chunk_file.
  rewrite Hext.
  rewrite (generic_chunk_spec rt grt fs1 fp text1 Hfs1).
  rewrite (generic_chunk_spec rt grt fs2 fp text2 Hfs2).
  intros H1 H2. injection H1 as <-. injection H2 as <-.
  destruct (MultiLanguage.findall_functions grt text1) as [|f1 l1];
    destruct (MultiLanguage.findall_functions grt text2) as [|f2 l2];
    try discriminate.
  - cbv beta iota. rewrite !map_map. cbn [id MultiLanguage.line_window_chunk].
    rewrite (Hlines eq_refl). reflexivity.
  - change (map id (map (MultiLanguage.function_match_chunk rt grt fp)
                      (MultiLanguage.enumerate_from 0 (f1 :: l1)))
            = map id (map (MultiLanguage.function_match_chunk rt grt fp)
                        (MultiLanguage.enumerate_from 0 (f2 :: l2)))).
    rewrite !function_match_ids, Hlen. reflexivity.
Qed.

Lemma generic_ids_ignore_content_witness :
  exists chunks1 chunks2,
    MultiLanguage.chunk_file Samples.runtime GenericSamples.generic_runtime
      GenericSamples.disk "notes.txt" = Ok chunks1
    /\ MultiLanguage.chunk_file Samples.runtime GenericSamples.generic_runtime
         GenericSamples.disk_edited "notes.txt" = Ok chunks2
    /\ map content chunks1 <> map content chunks2
    /\ map id chunks1 = map id chunks2.
Proof.
  eexists. eexists. split; [vm_compute; reflexivity|].
  split; [vm_compute; reflexivity|].
  split; [vm_compute; discriminate|].
  apply (generic_ids_ignore_content Samples.runtime
           GenericSamples.generic_runtime GenericSamples.disk
           GenericSamples.disk_edited "notes.txt" GenericSamples.src_prose
           GenericSamples.src_prose_edited);
    reflexivity.
Defined.

(* ================================================================== *)
(** * Properties of [VerbaCodeRAG] indexing *)
(* ================================================================== *)

Section RagProperties.

Context {World Vec : Type}.
Variable rt : Runtime.
Variable grt : MultiLanguage.GenericRuntime.
Variable svc : Verba.Services World Vec.
Variable fs : FileSystem.
Variable embedding_model : string.
Variable collection_name : string.

Let index_chunk := Verba.index_chunk svc embedding_model collection_name.
Let index_file :=
  Verba.index_file rt grt svc fs embedding_model collection_name.
Let index_directory :=
  Verba.index_directory rt grt svc fs embedding_model collection_name.

(** Each chunk adds one to the count or one error. *)
Lemma index_chunk_step (w : World) (count : Z) (errors : list string)
    (chunk : CodeChunk) :
  let '(_, count', errors') := index_chunk (w, count, errors) chunk in
  (count' = (count + 1)%Z /\ errors' = errors)
  \/ (count' = count /\ exists e, errors' = errors ++ [e]).
Proof.
  unfold index_chunk, Verba.index_chunk.
  destruct (Verba.generate_embedding svc embedding_model w (content chunk))
    as (w1 & embedding).
  destruct embedding as [|v vs]; [right; eauto|].
  destruct (Verba.utcnow_isoformat svc w1) as (w2 & now).
  destruct (Verba.data_object_create svc w2 _ collection_name)
    as (w3 & [message|]); [right | left]; eauto.
Qed.

Lemma index_loop_accounts (chunks : list CodeChunk) :
  forall (w : World) (count : Z) (errors : list string),
    let '(_, count', errors') :=
      fold_left index_chunk chunks (w, count, errors) in
    (count' + Z.of_nat (List.length errors')
     = count + Z.of_nat (List.length errors) + Z.of_nat (List.length chunks))%Z
    /\ (count <= count')%Z
    /\ exists added, errors' = errors ++ added.
Proof.
  induction chunks as [|chunk chunks IH]; intros w count errors.
  - simpl. split; [lia|]. split; [lia|]. exists []. rewrite app_nil_r.
    reflexivity.
  - cbn [fold_left].
    pose proof (index_chunk_step w count errors chunk) as Hstep.
    destruct (index_chunk (w, count, errors) chunk) as ((w1 & c1) & e1).
    specialize (IH w1 c1 e1).
    destruct (fold_left index_chunk chunks (w1, c1, e1)) as ((w2 & c2) & e2).
    destruct IH as (Hsum & Hle & added & Hadd).
    cbn [List.length]. rewrite Nat2Z.inj_succ.
    destruct Hstep as [(-> & ->) | (-> & e & ->)].
    + split; [lia|]. split; [lia|]. eauto.
    + rewrite length_app in Hsum. cbn [List.length] in Hsum.
      split; [lia|]. split; [lia|].
      exists (e :: added). rewrite Hadd, <- app_assoc. reflexivity.
Qed.

(** X18.  [index_file] never raises and accounts for every chunk: when the
    chunker returns [n] chunks, [total_chunks] is [n] and every chunk is
    either counted in [indexed_chunks] or has one entry in [errors]; when
    the chunker raises, nothing is indexed, [errors] holds the text of the
    exception and [success] is false.  [success] holds exactly when
    [errors] is empty, and then all chunks were indexed. *)
Theorem index_file_accounts_for_every_chunk (w : World) (fp : string) :
  let r := snd (index_file w fp) in
  match MultiLanguage.chunk_file rt grt fs fp with
  | Ok chunks =>
      Verba.fr_total_chunks r = Z.of_nat (List.length chunks)
      /\ (Verba.fr_indexed_chunks r
          + Z.of_nat (List.length (Verba.fr_errors r))
          = Verba.fr_total_chunks r)%Z
      /\ (0 <= Verba.fr_indexed_chunks r)%Z
  | Raise e =>
      Verba.fr_total_chunks r = 0%Z
      /\ Verba.fr_indexed_chunks r = 0%Z
      /\ Verba.fr_errors r = [Verba.exn_str svc e]
      /\ Verba.fr_success r = false
      /\ fst (index_file w fp) = w
  end
  /\ Verba.fr_file_path r = fp
  /\ (Verba.fr_success r = true <-> Verba.fr_errors r = [])
  /\ (Verba.fr_success r = true ->
      Verba.fr_indexed_chunks r = Verba.fr_total_chunks r).
Proof.
  unfold index_file, Verba.index_file. cbv zeta.
  destruct (MultiLanguage.chunk_file rt grt fs fp) as [chunks|e].
  - pose proof (index_loop_accounts chunks w 0%Z []) as H.
    fold index_chunk.
    destruct (fold_left index_chunk chunks (w, 0%Z, []))
      as ((w' & count) & errors).
    destruct H as (Hsum & Hle & _). cbn [snd Verba.fr_total_chunks
      Verba.fr_indexed_chunks Verba.fr_errors Verba.fr_success
      Verba.fr_file_path]. cbn [List.length] in Hsum.
    split; [split; [reflexivity|]; split; lia|].
    split; [reflexivity|].
    destruct errors as [|x errors]; cbn [List.length Nat.eqb].
    + split; [tauto|]. intros _. cbn [List.length] in Hsum. lia.
    + split; [split; discriminate | discriminate].
  - cbn. repeat split; try discriminate.
Qed.

Lemma fold_directory_step (files : list string) :
  forall (w : World) (results : Verba.DirectoryResult),
    let '(_, results') :=
      fold_left (Verba.directory_step rt grt svc fs embedding_model
                   collection_name) files (w, results) in
    exists processed,
      Verba.dr_files_processed results'
      = Verba.dr_files_processed results ++ processed
      /\ map Verba.fr_file_path processed = files
      /\ Verba.dr_total_chunks results'
         = fold_left Z.add (map Verba.fr_indexed_chunks processed)
             (Verba.dr_total_chunks results)
      /\ Verba.dr_errors results'
         = Verba.dr_errors results
           ++ List.concat (map Verba.fr_errors processed)
      /\ Verba.dr_total_files results' = Verba.dr_total_files results
      /\ Verba.dr_directory results' = Verba.dr_directory results.
Proof.
  induction files as [|file files IH]; intros w results.
  - simpl. exists []. rewrite !app_nil_r. repeat split.
  - cbn [fold_left]. unfold Verba.directory_step at 2.
    pose proof (index_file_accounts_for_every_chunk w file) as Hfile.
    cbv zeta in Hfile. destruct Hfile as (_ & Hpath & _).
    unfold index_file in Hpath.
    destruct (Verba.index_file rt grt svc fs embedding_model collection_name
                w file) as (w1 & result).
    cbn [snd] in Hpath.
    match goal with
    | |- context [fold_left _ files (w1, ?r)] => specialize (IH w1 r)
    end.
    destruct (fold_left _ files _) as (w2 & results').
    destruct IH as (processed & Hp & Hf & Ht & He & Hn & Hd).
    cbn in Hp, Ht, He, Hn, Hd.
    exists (result :: processed). cbn [map fold_left List.concat].
    rewrite Hp, Ht, He, Hn, Hd, Hpath, Hf, <- !app_assoc.
    repeat split.
Qed.

(** X19.  [index_directory] raises [ValueError] and touches nothing when
    the directory is absent.  Otherwise it indexes, in this order, the files
    [rglob] finds for each extension; [total_files] is their number,
    [total_chunks] is the sum of the [indexed_chunks] of the files (chunks
    that failed to index are not counted), and [errors] is the
    concatenation of the errors of the files. *)
Theorem index_directory_adds_up (w : World) (directory : string)
    (extensions : option (list string)) :
  let exts := match extensions with
              | None => Verba.default_extensions
              | Some e => e
              end in
  let files :=
    flat_map (fun ext => Verba.rglob svc w directory ("*" ++ ext)%string) exts in
  if Verba.directory_exists svc w directory then
    exists r,
      snd (index_directory w directory extensions) = Verba.Indexed r
      /\ map Verba.fr_file_path (Verba.dr_files_processed r) = files
      /\ Verba.dr_total_files r
         = Z.of_nat (List.length (Verba.dr_files_processed r))
      /\ Verba.dr_total_chunks r
         = fold_left Z.add
             (map Verba.fr_indexed_chunks (Verba.dr_files_processed r)) 0%Z
      /\ Verba.dr_errors r
         = List.concat (map Verba.fr_errors (Verba.dr_files_processed r))
  else index_directory w directory extensions = (w, Verba.ValueError).
Proof.
  cbv zeta. unfold index_directory, Verba.index_directory.
  destruct (Verba.directory_exists svc w directory); cbn [negb];
    [|reflexivity].
  match goal with
  | |- context [fold_left ?f ?l (w, ?r)] =>
      pose proof (fold_directory_step l w r) as H;
      destruct (fold_left f l (w, r)) as (w' & results')
  end.
  destruct H as (processed & Hp & Hf & Ht & He & Hn & _).
  cbn in Hp, Ht, He, Hn. subst processed.
  exists results'. cbn [snd]. split; [reflexivity|].
  split; [exact Hf|]. split; [|split; assumption].
  rewrite Hn. rewrite <- Hf at 1. rewrite length_map. reflexivity.
Qed.

End RagProperties.

(* ================================================================== *)
(** * Properties of [VerbaCodeRAG] retrieval *)
(* ================================================================== *)

Lemma has_char_app (c : ascii) (a b : string) :
  has_char c (a ++ b)%string = has_char c a || has_char c b.
Proof.
  induction a as [|x a IH]; simpl; [reflexivity|].
  rewrite IH, orb_assoc. reflexivity.
Qed.

Lemma string_app_assoc (a b c : string) :
  ((a ++ b) ++ c = a ++ (b ++ c))%string.
Proof. induction a as [|x a IH]; simpl; [|rewrite IH]; reflexivity. Qed.

Lemma split_from_no_sep (sep : ascii) (s : string) :
  forall cur,
    has_char sep s = false ->
    Retrieval.split_from sep cur s = [(cur ++ s)%string].
Proof.
  induction s as [|c s IH]; intros cur H; simpl in *.
  - rewrite string_app_nil_r. reflexivity.
  - apply orb_false_iff in H. destruct H as [Hc Hs]. rewrite Hc.
    rewrite (IH _ Hs). unfold snoc. rewrite string_app_assoc. reflexivity.
Qed.

Lemma split_from_at_sep (sep : ascii) (a b : string) :
  forall cur,
    has_char sep a = false ->
    Retrieval.split_from sep cur (a ++ String sep b)
    = (cur ++ a)%string :: Retrieval.split_from sep "" b.
Proof.
  induction a as [|c a IH]; intros cur H; simpl in *.
  - rewrite Ascii.eqb_refl, string_app_nil_r. reflexivity.
  - apply orb_false_iff in H. destruct H as [Hc Ha]. rewrite Hc.
    rewrite (IH _ Ha). unfold snoc. rewrite string_app_assoc. reflexivity.
Qed.

Lemma split_from_nonempty (sep : ascii) (s : string) :
  forall cur, exists x xs, Retrieval.split_from sep cur s = x :: xs.
Proof.
  induction s as [|c s IH]; intros cur; simpl; [eauto|].
  destruct (Ascii.eqb c sep); eauto.
Qed.

Lemma split_from_second (sep : ascii) (a b : string) :
  forall cur, exists x,
    nth_error (Retrieval.split_from sep cur (a ++ String sep b)) 1 = Some x.
Proof.
  induction a as [|c a IH]; intros cur; simpl.
  - rewrite Ascii.eqb_refl.
    destruct (split_from_nonempty sep b "") as (x & xs & ->). simpl. eauto.
  - destruct (Ascii.eqb c sep).
    + destruct (split_from_nonempty sep (a ++ String sep b) "")
        as (x & xs & ->). simpl. eauto.
    + apply IH.
Qed.

Lemma uint_no_colon (d : Decimal.uint) :
  has_char ":" (NilEmpty.string_of_uint d) = false.
Proof. induction d; simpl; auto. Qed.

(** A decimal numeral holds no colon. *)
Lemma str_of_int_no_colon (i : Z) : has_char ":" (str_of_int i) = false.
Proof.
  unfold str_of_int, NilZero.string_of_int, NilZero.string_of_uint.
  destruct (Z.to_int i) as [d|d]; simpl;
    destruct d; simpl; auto using uint_no_colon.
Qed.

Lemma line_range_no_colon (s e : Z) :
  has_char ":" (str_of_int s ++ "-" ++ str_of_int e)%string = false.
Proof.
  rewrite !has_char_app, !str_of_int_no_colon. reflexivity.
Qed.

Section RetrievalProperties.

Context {World Vec Meta : Type}.
Variable svc : Verba.Services World Vec.
Variable embedding_model : string.
Variable collection_name : string.
Variable json_loads : string -> option Meta.
Variable query_do :
  World -> list Vec -> Z -> option (list string)
  -> World * option (list Retrieval.StoredChunk).

Let format_result := @Retrieval.format_result Meta json_loads.
Let format_results := @Retrieval.format_results Meta json_loads.
Let search :=
  Retrieval.search svc embedding_model json_loads query_do.
Let generate_context :=
  Retrieval.generate_context svc embedding_model json_loads query_do.

Lemma format_result_location (chunk : Retrieval.StoredChunk)
    (r : Retrieval.SearchResult Meta) :
  format_result chunk = Some r ->
  Retrieval.sr_location r
  = (Retrieval.sc_file_path chunk
       ++ String ":" (str_of_int (Retrieval.sc_start_line chunk) ++ "-"
                        ++ str_of_int (Retrieval.sc_end_line chunk)))%string
  /\ Retrieval.sr_file_path r = Retrieval.sc_file_path chunk.
Proof.
  unfold format_result, Retrieval.format_result.
  destruct (json_loads _); [|discriminate].
  intros H. injection H as <-. split; reflexivity.
Qed.

(** X20: for a stored chunk whose file path holds no colon, the line range
    that [generate_context] reads back from the location of the search
    result ([location.split(':')[1]]) is [<start_line>-<end_line>]. *)
Theorem location_gives_back_the_line_range (chunk : Retrieval.StoredChunk)
    (r : Retrieval.SearchResult Meta) :
  format_result chunk = Some r ->
  has_char ":" (Retrieval.sc_file_path chunk) = false ->
  Retrieval.location_lines r
  = Some (str_of_int (Retrieval.sc_start_line chunk) ++ "-"
            ++ str_of_int (Retrieval.sc_end_line chunk))%string.
Proof.
  intros Hr H. destruct (format_result_location _ _ Hr) as [Hl _].
  unfold Retrieval.location_lines, Retrieval.split. rewrite Hl.
  rewrite (split_from_at_sep _ _ _ _ H).
  rewrite split_from_no_sep by apply line_range_no_colon.
  reflexivity.
Qed.

(** X21: for a stored chunk whose file path holds one colon (a drive letter,
    a URL scheme), [location.split(':')[1]] is the part of the path after
    that colon, not the line range. *)
Theorem location_of_colon_path_gives_path_remainder
    (chunk : Retrieval.StoredChunk) (r : Retrieval.SearchResult Meta)
    (a b : string) :
  format_result chunk = Some r ->
  Retrieval.sc_file_path chunk = (a ++ ":" ++ b)%string ->
  has_char ":" a = false ->
  has_char ":" b = false ->
  Retrieval.location_lines r = Some b.
Proof.
  intros Hr Hp Ha Hb. destruct (format_result_location _ _ Hr) as [Hl _].
  unfold Retrieval.location_lines, Retrieval.split. rewrite Hl, Hp.
  rewrite string_app_assoc.
  change (a ++ (":" ++ b) ++ ?r)%string
    with (a ++ String ":" (b ++ r))%string.
  rewrite (split_from_at_sep _ _ _ _ Ha).
  rewrite (split_from_at_sep _ _ _ _ Hb). reflexivity.
Qed.

Lemma format_results_spec (chunks : list Retrieval.StoredChunk) :
  match format_results chunks with
  | Some results => Forall2 (fun c r => format_result c = Some r) chunks results
  | None => exists c, In c chunks /\ format_result c = None
  end.
Proof.
  induction chunks as [|c chunks IH]; simpl; [constructor|].
  fold format_result. fold format_results.
  destruct (format_result c) as [r|] eqn:Hc.
  - destruct (format_results chunks) as [rs|].
    + constructor; assumption.
    + destruct IH as (c' & Hin & Hn). exists c'. split; [right|]; assumption.
  - exists c. split; [left; reflexivity | assumption].
Qed.

(** Every result of [search] was built from an object of the collection. *)
Lemma search_results_formatted (w : World) (query : string) (limit : Z)
    (chunk_types : option (list string)) :
  Forall (fun r => exists c, format_result c = Some r)
    (snd (search w query limit chunk_types)).
Proof.
  unfold search, Retrieval.search.
  destruct (Verba.generate_embedding svc embedding_model w query)
    as (w1 & [|v vs]); [constructor|].
  destruct (query_do w1 (v :: vs) limit _) as (w2 & [chunks|]);
    [|constructor].
  pose proof (format_results_spec chunks) as H.
  fold format_results. destruct (format_results chunks) as [rs|];
    [|constructor].
  simpl. clear - H. induction H; constructor; eauto.
Qed.

Lemma context_parts_defined (results : list (Retrieval.SearchResult Meta)) :
  Forall (fun r => exists c, format_result c = Some r) results ->
  forall i, exists parts, Retrieval.context_parts i results = Some parts.
Proof.
  induction 1 as [|r rs (c & Hc) _ IH]; intros i; simpl; [eauto|].
  unfold Retrieval.context_parts_of, Retrieval.location_lines,
    Retrieval.split.
  destruct (format_result_location _ _ Hc) as [-> _].
  destruct (split_from_second ":" (Retrieval.sc_file_path c)
              (str_of_int (Retrieval.sc_start_line c) ++ "-"
                 ++ str_of_int (Retrieval.sc_end_line c))%string "")
    as (x & ->).
  destruct (IH (i + 1)%Z) as (rest & ->). eauto.
Qed.

(** X22: [generate_context] always returns a text - the
    [split(':')[1]] lookup never fails on a result of [search] - and the
    text is the no-results sentence exactly when [search] returns no
    result. *)
Theorem generate_context_returns_text (w : World) (query : string)
    (limit : Z) :
  exists text,
    snd (generate_context w query limit) = Some text
    /\ (text = "No relevant code found."
        <-> snd (search w query limit None) = [])
    /\ fst (generate_context w query limit)
       = fst (search w query limit None).
Proof.
  unfold generate_context, Retrieval.generate_context.
  pose proof (search_results_formatted w query limit None) as Hf.
  fold search.
  destruct (search w query limit None) as (w' & results). simpl in Hf.
  destruct results as [|r rs].
  - exists "No relevant code found.". simpl. tauto.
  - destruct (context_parts_defined _ Hf 1%Z) as (parts & ->).
    simpl. eexists. split; [reflexivity|].
    split; [|reflexivity].
    split; [|discriminate].
    unfold join. simpl. destruct parts; discriminate.
Qed.

(** X23: [search] returns nothing, and runs no query, when the query cannot
    be embedded.  When the query is run, one object whose metadata
    [json.loads] rejects empties the whole result list; otherwise there is
    one result per object, in the order of the answer. *)
Theorem search_is_all_or_nothing (w : World) (query : string) (limit : Z)
    (chunk_types : option (list string)) :
  let '(w1, embedding) :=
    Verba.generate_embedding svc embedding_model w query in
  match embedding with
  | [] => search w query limit chunk_types = (w1, [])
  | _ :: _ =>
      exists where_filter,
        (where_filter = chunk_types \/ where_filter = None)
        /\ (where_filter = None <->
            chunk_types = None \/ chunk_types = Some [])
        /\ fst (search w query limit chunk_types)
           = fst (query_do w1 embedding limit where_filter)
        /\ match snd (query_do w1 embedding limit where_filter) with
           | None => snd (search w query limit chunk_types) = []
           | Some chunks =>
               if forallb (fun c => match format_result c with
                                    | Some _ => true
                                    | None => false
                                    end) chunks
               then Forall2 (fun c r => format_result c = Some r) chunks
                      (snd (search w query limit chunk_types))
               else snd (search w query limit chunk_types) = []
           end
  end.
Proof.
  unfold search, Retrieval.search.
  destruct (Verba.generate_embedding svc embedding_model w query)
    as (w1 & [|v vs]); [reflexivity|].
  match goal with
  | |- context [query_do w1 (v :: vs) limit ?f] => exists f
  end.
  split; [destruct chunk_types as [[|t ts]|]; auto|].
  split.
  { destruct chunk_types as [[|t ts]|]; split; auto;
      intros H; try discriminate; destruct H; discriminate. }
  destruct (query_do w1 (v :: vs) limit _) as (w2 & [chunks|]);
    [|split; reflexivity].
  pose proof (format_results_spec chunks) as H.
  fold format_results. fold format_result.
  destruct (format_results chunks) as [rs|]; simpl.
  - split; [reflexivity|].
    assert (Hall : forallb (fun c => match format_result c with
                                     | Some _ => true
                                     | None => false
                                     end) chunks = true).
    { clear - H. induction H as [|c r cs rs Hc _ IH]; simpl; [reflexivity|].
      rewrite Hc, IH. reflexivity. }
    rewrite Hall. exact H.
  - split; [reflexivity|].
    destruct H as (c & Hin & Hc).
    assert (Hall : forallb (fun c => match format_result c with
                                     | Some _ => true
                                     | None => false
                                     end) chunks = false).
    { clear - Hin Hc. induction chunks as [|c' cs IH]; [destruct Hin|].
      simpl. destruct Hin as [->|Hin].
      - rewrite Hc. reflexivity.
      - rewrite (IH Hin). apply andb_false_r. }
    rewrite Hall. reflexivity.
Qed.

End RetrievalProperties.

Lemma location_gives_back_the_line_range_witness :
  Retrieval.location_lines
    {| Retrieval.sr_content := "x = 1";
       Retrieval.sr_chunk_type := "global";
       Retrieval.sr_file_path := "pkg/a.py";
       Retrieval.sr_language := "python";
       Retrieval.sr_location := "pkg/a.py:3-7";
       Retrieval.sr_parent_context := None;
       Retrieval.sr_metadata := "{}" |}
  = Some "3-7".
Proof.
  apply (location_gives_back_the_line_range (fun s => Some s)
           {| Retrieval.sc_content := "x = 1";
              Retrieval.sc_chunk_type := "global";
              Retrieval.sc_file_path := "pkg/a.py";
              Retrieval.sc_language := "python";
              Retrieval.sc_start_line := 3;
              Retrieval.sc_end_line := 7;
              Retrieval.sc_parent_context := None;
              Retrieval.sc_metadata := None |});
    reflexivity.
Defined.

Lemma location_of_colon_path_gives_path_remainder_witness :
  Retrieval.location_lines
    {| Retrieval.sr_content := "x = 1";
       Retrieval.sr_chunk_type := "global";
       Retrieval.sr_file_path := "C:/pkg/a.py";
       Retrieval.sr_language := "python";
       Retrieval.sr_location := "C:/pkg/a.py:3-7";
       Retrieval.sr_parent_context := None;
       Retrieval.sr_metadata := "{}" |}
  = Some "/pkg/a.py".
Proof.
  apply (location_of_colon_path_gives_path_remainder (fun s => Some s)
           {| Retrieval.sc_content := "x = 1";
              Retrieval.sc_chunk_type := "global";
              Retrieval.sc_file_path := "C:/pkg/a.py";
              Retrieval.sc_language := "python";
              Retrieval.sc_start_line := 3;
              Retrieval.sc_end_line := 7;
              Retrieval.sc_parent_context := None;
              Retrieval.sc_metadata := None |} _ "C" "/pkg/a.py");
    reflexivity.
Defined.
